(** * PertNet: model lifecycle, training loop and prediction

    A shallow embedding of [pertnet/pertnet.py] (class [PertNet]) and the
    properties of its specification.

    Conventions of the embedding:
    - a Python [float] (and a tensor component) is an [fval]: a rational,
      an infinity or NaN, with the IEEE comparison [flt];
    - a tensor is the list of its components ([tensor]);
    - a Python [dict] with string keys whose order is irrelevant is a
      [gmap string _]; an [OrderedDict] (a [state_dict]) is an association
      list with unique keys;
    - model objects ([torch.nn.Module]) live in a heap and are referred to
      by location, so that [deepcopy] and plain assignment differ;
    - a method is a function from the state (the instance [self], the heap
      and the file system) to an outcome ([Ok] or [Raise]) and a new state:
      what a method wrote before it raised stays written;
    - the collaborators whose sources are other modules ([PertNet_Model],
      [get_similarity_network], [GeneSimNetwork],
      [create_cell_graph_dataset_for_prediction], [evaluate],
      [compute_metrics], the loss functions) and the numeric kernels of
      numpy and torch are parameters of the development. *)

From stdpp Require Import base strings gmap list.
From Stdlib Require Import Ascii QArith Qabs Lqa.

Close Scope Q_scope.
Local Open Scope string_scope.

(** ** Python values *)

Module Py.

(** Floating-point values: only the order structure is used. *)
Inductive fval : Type :=
  | FNaN
  | FNegInf
  | FFin (q : Q)
  | FPosInf.

(** The comparison [a < b] of floats: false as soon as one side is NaN. *)
Definition flt (a b : fval) : bool :=
  match a, b with
  | FNaN, _ | _, FNaN => false
  | FNegInf, FNegInf => false
  | FNegInf, _ => true
  | FFin _, FNegInf => false
  | FFin p, FFin q => match (p ?= q)%Q with Lt => true | _ => false end
  | FFin _, FPosInf => true
  | FPosInf, _ => false
  end.



Definition is_nan (a : fval) : bool :=
  match a with FNaN => true | _ => false end.

(** A tensor, by its components. *)
Abbreviation tensor := (list fval).

(** The values a configuration entry can hold. *)
Inductive pyval : Type :=
  | VNone
  | VBool (b : bool)
  | VInt (z : Z)
  | VFloat (x : fval)
  | VStr (s : string)
  | VTensor (t : tensor).

(** Exceptions raised by the code and by the library calls it makes. *)
Inductive exn : Type :=
  | ValueError (msg : string)
  | KeyError (key : string)
  | TypeError (msg : string)
  | AttributeError (name : string)
  | UnboundLocalError (name : string)
  | StopIteration
  | FileNotFoundError (path : string)
  | UnpicklingError (path : string)
  | RuntimeError (msg : string).

Inductive result (A : Type) : Type :=
  | Ok (a : A)
  | Raise (e : exn).
Arguments Ok {A} a.
Arguments Raise {A} e.

Definition is_Ok {A} (r : result A) : bool :=
  match r with Ok _ => true | Raise _ => false end.

Definition option_of {A} (r : result A) : option A :=
  match r with Ok a => Some a | Raise _ => None end.

(** Truth value of an object in an [if]; a tensor with several components
    has none. *)
Definition fval_nonzero (x : fval) : bool :=
  match x with
  | FFin q => negb (Qeq_bool q 0)
  | _ => true
  end.

Definition truthy (v : pyval) : result bool :=
  match v with
  | VNone => Ok false
  | VBool b => Ok b
  | VInt z => Ok (negb (z =? 0)%Z)
  | VFloat x => Ok (fval_nonzero x)
  | VStr s => Ok (negb (String.eqb s ""))
  | VTensor [x] => Ok (fval_nonzero x)
  | VTensor _ => Raise (RuntimeError "Boolean value of Tensor is ambiguous")
  end.

(** [sep.join(l)] *)
Fixpoint join (sep : string) (l : list string) : string :=
  match l with
  | [] => ""
  | [x] => x
  | x :: rest => x +:+ sep +:+ join sep rest
  end.

(** [s[:n]] and [s[n:]] on strings. *)
Definition str_take (n : nat) (s : string) : string := String.substring 0 n s.
Fixpoint str_drop (n : nat) (s : string) : string :=
  match n, s with
  | O, _ => s
  | S n', String _ s' => str_drop n' s'
  | S _, EmptyString => EmptyString
  end.

(** [needle in haystack] on strings. *)
Fixpoint str_contains (needle hay : string) : bool :=
  String.prefix needle hay ||
  match hay with
  | EmptyString => false
  | String _ hay' => str_contains needle hay'
  end.

Fixpoint str_last (s : string) : option Ascii.ascii :=
  match s with
  | EmptyString => None
  | String c EmptyString => Some c
  | String _ s' => str_last s'
  end.

(** An [OrderedDict]: [d[k] = v] keeps the position of an existing key. *)
Fixpoint od_set {V} (k : string) (v : V) (d : list (string * V)) : list (string * V) :=
  match d with
  | [] => [(k, v)]
  | (k', v') :: d' =>
      if String.eqb k k' then (k, v) :: d' else (k', v') :: od_set k v d'
  end.

Fixpoint od_get {V} (k : string) (d : list (string * V)) : option V :=
  match d with
  | [] => None
  | (k', v') :: d' => if String.eqb k k' then Some v' else od_get k d'
  end.

Definition od_keys {V} (d : list (string * V)) : list string := d.*1.

End Py.
Export Py.

(** ** Operating system: paths and files *)

Module OS.

(** [os.path.join(a, b)] for two components. *)
Definition path_join (a b : string) : string :=
  if String.prefix "/" b then b
  else match str_last a with
       | None => b
       | Some c => if Ascii.eqb c "/"%char then a +:+ b else a +:+ "/" +:+ b
       end.

(** What a file holds: a pickled configuration or a saved state dict. *)
Inductive artifact : Type :=
  | Pickled (d : gmap string pyval)
  | TorchSaved (sd : list (string * tensor)).

(** Directories and files by path. Creating a directory and writing a file
    succeed (no permissions, no disk limits). *)
Record filesystem : Type := {
  dirs : gset string;
  files : gmap string artifact;
}.

Definition path_exists (fs : filesystem) (p : string) : bool :=
  bool_decide (p ∈ dirs fs) || bool_decide (is_Some (files fs !! p)).

Definition mkdir (p : string) (fs : filesystem) : filesystem :=
  {| dirs := {[p]} ∪ dirs fs; files := files fs |}.

Definition write_file (p : string) (a : artifact) (fs : filesystem) : filesystem :=
  {| dirs := dirs fs; files := <[p := a]> (files fs) |}.

Definition empty_fs : filesystem := {| dirs := ∅; files := ∅ |}.

End OS.
Export OS.

(** ** Objects and program state *)

Module Obj.

(** One control or perturbed cell of [adata]: its [obs] columns and its
    row of [X]. *)
Record cell : Type := {
  condition : string;
  condition_name : string;
  X : tensor;
}.

(** A [torch.nn.Module]: the configuration it was built from, its
    learnable parameters by name ([state_dict()]), the gradients
    ([p.grad], absent when [None]), the train/eval flag and the device it
    is on. *)
Record module : Type := {
  args : gmap string pyval;
  state_dict : list (string * tensor);
  grad : gmap string tensor;
  training : bool;
  on_device : string;
}.

Definition set_state_dict (sd : list (string * tensor)) (m : module) : module :=
  {| args := args m; state_dict := sd; grad := grad m;
     training := training m; on_device := on_device m |}.

Definition set_grad (g : gmap string tensor) (m : module) : module :=
  {| args := args m; state_dict := state_dict m; grad := g;
     training := training m; on_device := on_device m |}.

Definition set_training (b : bool) (m : module) : module :=
  {| args := args m; state_dict := state_dict m; grad := grad m;
     training := b; on_device := on_device m |}.

(** [m.to(device)]: moves the module in place. *)
Definition to_device (d : string) (m : module) : module :=
  {| args := args m; state_dict := state_dict m; grad := grad m;
     training := training m; on_device := d |}.

Section WithBatch.
(** A batch of the train, validation or test loader. *)
Context {batch : Type}.

(** The [pert_data] object an instance is built on. *)
Record pert_data : Type := {
  pd_adata : list cell;
  pd_node_map : gmap string nat;
  pd_data_path : string;
  pd_dataset_name : string;
  pd_split : string;
  pd_seed : Z;
  pd_train_gene_set_size : fval;
  pd_set2conditions : gmap string (list string);
  pd_subgroup : gmap string (list string);
  pd_gene_names : list string;
  pd_train_loader : list batch;
  pd_val_loader : list batch;
  pd_test_loader : list batch;
}.

(** The attributes of a [PertNet] instance. [model], [best_model] and
    [ctrl_adata] do not exist until they are first assigned. The fields
    copied from [pert_data] by [__init__] are kept together in [data].
    [ctrl_expression] and [dict_filter] are computed from [data] and read
    by the loss only, which receives the instance; the optional telemetry
    ([wandb]) receives values and changes no state, it is left out. *)
Record PertNet : Type := {
  device : string;
  config : option (gmap string pyval);
  data : pert_data;
  gene_list : list string;
  num_genes : nat;
  model : option nat;
  best_model : option nat;
  ctrl_adata : option (list cell);
}.

(** The state a method runs in. *)
Record state : Type := {
  self : PertNet;
  heap : gmap nat module;
  fs : filesystem;
}.
End WithBatch.
Arguments pert_data : clear implicits.
Arguments PertNet : clear implicits.
Arguments state : clear implicits.

End Obj.
Export Obj.

(** ** Methods as state transformers with exceptions *)

Module Monad.

Definition M (S A : Type) : Type := S → result A * S.

Definition ret {S A} (a : A) : M S A := λ s, (Ok a, s).

Definition bind {S A B} (m : M S A) (f : A → M S B) : M S B :=
  λ s, match m s with
       | (Ok a, s') => f a s'
       | (Raise e, s') => (Raise e, s')
       end.

Definition raise {S A} (e : exn) : M S A := λ s, (Raise e, s).

Definition get {S} : M S S := λ s, (Ok s, s).

Definition modify {S} (f : S → S) : M S unit := λ s, (Ok tt, f s).

Definition lift {S A} (r : result A) : M S A := λ s, (r, s).

(** [for x in l: body x] *)
Fixpoint for_each {S A} (l : list A) (body : A → M S unit) : M S unit :=
  match l with
  | [] => ret tt
  | x :: l' => bind (body x) (λ _, for_each l' body)
  end.

Declare Scope py_scope.
Delimit Scope py_scope with py.
Notation "x <- m ;; k" := (bind m (λ x, k))
  (at level 20, m at level 99, k at level 200, only parsing) : py_scope.
Notation "m ;; k" := (bind m (λ _, k))
  (at level 100, k at level 200, right associativity, only parsing) : py_scope.

End Monad.
Export Monad.

(** ** The class [PertNet] *)

Module PertNetClass.

Local Open Scope py_scope.

(** The keyword arguments of [model_initialize]. *)
Record init_args : Type := {
  hidden_size : pyval;
  num_go_gnn_layers : pyval;
  num_gene_gnn_layers : pyval;
  decoder_hidden_size : pyval;
  num_similar_genes_go_graph : pyval;
  num_similar_genes_co_express_graph : pyval;
  coexpress_threshold : pyval;
  uncertainty : pyval;
  uncertainty_reg : pyval;
  direction_lambda : pyval;
  G_go : pyval;
  G_go_weight : pyval;
  G_coexpress : pyval;
  G_coexpress_weight : pyval;
}.

Definition default_args : init_args := {|
  hidden_size := VInt 64;
  num_go_gnn_layers := VInt 1;
  num_gene_gnn_layers := VInt 1;
  decoder_hidden_size := VInt 16;
  num_similar_genes_go_graph := VInt 20;
  num_similar_genes_co_express_graph := VInt 20;
  coexpress_threshold := VFloat (FFin (4 # 10));
  uncertainty := VBool false;
  uncertainty_reg := VInt 1;
  direction_lambda := VFloat (FFin (1 # 10));
  G_go := VNone;
  G_go_weight := VNone;
  G_coexpress := VNone;
  G_coexpress_weight := VNone;
|}.

Definition keyword_names : list string :=
  ["hidden_size"; "num_go_gnn_layers"; "num_gene_gnn_layers";
   "decoder_hidden_size"; "num_similar_genes_go_graph";
   "num_similar_genes_co_express_graph"; "coexpress_threshold";
   "uncertainty"; "uncertainty_reg"; "direction_lambda";
   "G_go"; "G_go_weight"; "G_coexpress"; "G_coexpress_weight"].

(** A call with keyword arguments taken from a dict: a keyword that is
    no parameter is a [TypeError]; a parameter that is not given takes its
    default. *)
Definition bind_kwargs (kw : gmap string pyval) : result init_args :=
  if bool_decide (dom kw ⊆ list_to_set keyword_names) then
    let arg (k : string) (d : init_args → pyval) := default (d default_args) (kw !! k) in
    Ok {|
      hidden_size := arg "hidden_size" hidden_size;
      num_go_gnn_layers := arg "num_go_gnn_layers" num_go_gnn_layers;
      num_gene_gnn_layers := arg "num_gene_gnn_layers" num_gene_gnn_layers;
      decoder_hidden_size := arg "decoder_hidden_size" decoder_hidden_size;
      num_similar_genes_go_graph :=
        arg "num_similar_genes_go_graph" num_similar_genes_go_graph;
      num_similar_genes_co_express_graph :=
        arg "num_similar_genes_co_express_graph" num_similar_genes_co_express_graph;
      coexpress_threshold := arg "coexpress_threshold" coexpress_threshold;
      uncertainty := arg "uncertainty" uncertainty;
      uncertainty_reg := arg "uncertainty_reg" uncertainty_reg;
      direction_lambda := arg "direction_lambda" direction_lambda;
      G_go := arg "G_go" G_go;
      G_go_weight := arg "G_go_weight" G_go_weight;
      G_coexpress := arg "G_coexpress" G_coexpress;
      G_coexpress_weight := arg "G_coexpress_weight" G_coexpress_weight;
    |}
  else Raise (TypeError "model_initialize() got an unexpected keyword argument").

Section Methods.
Context {batch graph : Type}.

Abbreviation PertNet := (PertNet batch).
Abbreviation state := (state batch).
Abbreviation pert_data := (pert_data batch).

(** *** Collaborators *)

(** [get_similarity_network(network_type, ..., threshold, k, ...)]
    followed by [GeneSimNetwork(...)]: the edge index and the edge
    weights of the similarity graph of the data set. *)
Variable similarity_graph : string → pyval → pyval → pert_data → tensor * tensor.

(** [PertNet_Model(config)]: the named learnable parameters of a freshly
    built predictor. *)
Variable PertNet_Model : gmap string pyval → list (string * tensor).

(** *** Attribute updates *)

Definition set_config (c : option (gmap string pyval)) (me : PertNet) : PertNet :=
  {| device := device me; config := c; data := data me;
     gene_list := gene_list me; num_genes := num_genes me;
     model := model me; best_model := best_model me;
     ctrl_adata := ctrl_adata me |}.

Definition set_model (l : option nat) (me : PertNet) : PertNet :=
  {| device := device me; config := config me; data := data me;
     gene_list := gene_list me; num_genes := num_genes me;
     model := l; best_model := best_model me;
     ctrl_adata := ctrl_adata me |}.

Definition set_best_model (l : option nat) (me : PertNet) : PertNet :=
  {| device := device me; config := config me; data := data me;
     gene_list := gene_list me; num_genes := num_genes me;
     model := model me; best_model := l;
     ctrl_adata := ctrl_adata me |}.

Definition set_ctrl_adata (c : option (list cell)) (me : PertNet) : PertNet :=
  {| device := device me; config := config me; data := data me;
     gene_list := gene_list me; num_genes := num_genes me;
     model := model me; best_model := best_model me;
     ctrl_adata := c |}.

Definition upd_self (f : PertNet → PertNet) (s : state) : state :=
  {| self := f (self s); heap := heap s; fs := fs s |}.

Definition upd_heap (f : gmap nat module → gmap nat module) (s : state) : state :=
  {| self := self s; heap := f (heap s); fs := fs s |}.

Definition upd_fs (f : filesystem → filesystem) (s : state) : state :=
  {| self := self s; heap := heap s; fs := f (fs s) |}.

(** Reading an attribute that was never assigned. *)
Definition attr {A} (name : string) (f : PertNet → option A) : M state A :=
  λ s, match f (self s) with
       | Some a => (Ok a, s)
       | None => (Raise (AttributeError name), s)
       end.

(** The object at a location. *)
Definition deref (l : nat) : M state module :=
  λ s, match heap s !! l with
       | Some m => (Ok m, s)
       | None => (Raise (RuntimeError "dangling reference"), s)
       end.

(** A new object. *)
Definition alloc (m : module) : M state nat :=
  λ s, let l := fresh (dom (heap s)) in (Ok l, upd_heap <[l := m]> s).

(** [deepcopy(obj)]: a new object with the same contents. *)
Definition deepcopy (l : nat) : M state nat :=
  m <- deref l ;; alloc m.

(** In-place update of the object at a location. *)
Definition mutate (l : nat) (f : module → module) : M state unit :=
  modify (upd_heap (alter f l)).

(** *** [__init__] *)

Definition PertNet_init (pd : pert_data) (dev : string) : PertNet :=
  {| device := dev;
     config := None;
     data := pd;
     gene_list := pd_gene_names pd;
     num_genes := length (pd_gene_names pd);
     model := None;
     best_model := None;
     ctrl_adata := None |}.

(** *** [model_initialize] *)

Definition initial_config (me : PertNet) (a : init_args) : gmap string pyval :=
  list_to_map
    [("hidden_size", hidden_size a);
     ("num_go_gnn_layers", num_go_gnn_layers a);
     ("num_gene_gnn_layers", num_gene_gnn_layers a);
     ("decoder_hidden_size", decoder_hidden_size a);
     ("num_similar_genes_go_graph", num_similar_genes_go_graph a);
     ("num_similar_genes_co_express_graph", num_similar_genes_co_express_graph a);
     ("coexpress_threshold", coexpress_threshold a);
     ("uncertainty", uncertainty a);
     ("uncertainty_reg", uncertainty_reg a);
     ("direction_lambda", direction_lambda a);
     ("G_go", G_go a);
     ("G_go_weight", G_go_weight a);
     ("G_coexpress", G_coexpress a);
     ("G_coexpress_weight", G_coexpress_weight a);
     ("device", VStr (device me));
     ("num_genes", VInt (Z.of_nat (num_genes me)))].

(** The co-expression graph is computed when none was given. *)
Definition with_coexpress (me : PertNet) (a : init_args)
    (cfg : gmap string pyval) : gmap string pyval :=
  match cfg !! "G_coexpress" with
  | Some VNone =>
      let sim := similarity_graph "co-express" (coexpress_threshold a)
                   (num_similar_genes_co_express_graph a) (data me) in
      <["G_coexpress_weight" := VTensor sim.2]>
        (<["G_coexpress" := VTensor sim.1]> cfg)
  | _ => cfg
  end.

(** The gene-ontology graph is computed when none was given; its
    threshold argument is [coexpress_threshold] too. *)
Definition with_go (me : PertNet) (a : init_args)
    (cfg : gmap string pyval) : gmap string pyval :=
  match cfg !! "G_go" with
  | Some VNone =>
      let sim := similarity_graph "go" (coexpress_threshold a)
                   (num_similar_genes_go_graph a) (data me) in
      <["G_go_weight" := VTensor sim.2]> (<["G_go" := VTensor sim.1]> cfg)
  | _ => cfg
  end.

Definition built_config (me : PertNet) (a : init_args) : gmap string pyval :=
  with_go me a (with_coexpress me a (initial_config me a)).

(** [PertNet_Model(self.config).to(self.device)] as an object. *)
Definition new_module (cfg : gmap string pyval) (dev : string) : module :=
  {| args := cfg; state_dict := PertNet_Model cfg; grad := ∅;
     training := true; on_device := dev |}.

Definition model_initialize (a : init_args) : M state unit :=
  s <- get ;;
  let me := self s in
  let cfg := built_config me a in
  modify (upd_self (set_config (Some cfg))) ;;
  l <- alloc (new_module cfg (device me)) ;;
  modify (upd_self (set_model (Some l))) ;;
  b <- deepcopy l ;;
  modify (upd_self (set_best_model (Some b))).

(** *** [save_model] *)

Definition save_model (path : string) : M state unit :=
  s <- get ;;
  (if path_exists (fs s) path then ret tt else modify (upd_fs (mkdir path))) ;;
  match config (self s) with
  | None => raise (ValueError "No model is initialized...")
  | Some cfg =>
      modify (upd_fs (write_file (path_join path "config.pkl") (Pickled cfg))) ;;
      b <- attr "best_model" best_model ;;
      m <- deref b ;;
      modify (upd_fs (write_file (path_join path "model.pt")
                        (TorchSaved (state_dict m))))
  end.

(** *** [load_pretrained] *)

(** [open(p, 'rb')] and [pickle.load]. *)
Definition pickle_load (p : string) : M state (gmap string pyval) :=
  λ s, match files (fs s) !! p with
       | None => (Raise (FileNotFoundError p), s)
       | Some (Pickled d) => (Ok d, s)
       | Some (TorchSaved _) => (Raise (UnpicklingError p), s)
       end.

(** [torch.load(p, map_location = cpu)] *)
Definition torch_load (p : string) : M state (list (string * tensor)) :=
  λ s, match files (fs s) !! p with
       | None => (Raise (FileNotFoundError p), s)
       | Some (TorchSaved sd) => (Ok sd, s)
       | Some (Pickled _) => (Raise (UnpicklingError p), s)
       end.

(** [del d[k]] *)
Definition del_key (k : string) (d : gmap string pyval) : result (gmap string pyval) :=
  match d !! k with
  | Some _ => Ok (delete k d)
  | None => Raise (KeyError k)
  end.

(** The loop that removes the [module.] prefix of a data-parallel
    state dict: every name loses its first seven characters. *)
Definition strip_module_prefix (sd : list (string * tensor)) : list (string * tensor) :=
  foldl (λ new kv, od_set (str_drop 7 kv.1) kv.2 new) [] sd.

Definition normalize_state_dict (sd : list (string * tensor))
    : result (list (string * tensor)) :=
  match sd with
  | [] => Raise StopIteration
  | (k, _) :: _ =>
      if String.eqb (str_take 7 k) "module." then Ok (strip_module_prefix sd)
      else Ok sd
  end.

(** [Module.load_state_dict(sd)] (strict): every parameter whose name is
    in [sd] with the same shape is overwritten in place; then a missing
    name, an unexpected name or a shape mismatch is a [RuntimeError]. *)
Definition loaded_entry (sd : list (string * tensor)) (kv : string * tensor)
    : string * tensor :=
  match od_get kv.1 sd with
  | Some t => if bool_decide (length t = length kv.2) then (kv.1, t) else kv
  | None => kv
  end.

Definition entry_matches (sd : list (string * tensor)) (kv : string * tensor) : bool :=
  match od_get kv.1 sd with
  | Some t => bool_decide (length t = length kv.2)
  | None => false
  end.

Definition load_state_dict (l : nat) (sd : list (string * tensor)) : M state unit :=
  m <- deref l ;;
  mutate l (set_state_dict (loaded_entry sd <$> state_dict m)) ;;
  if forallb (entry_matches sd) (state_dict m)
     && forallb (λ k, bool_decide (k ∈ od_keys (state_dict m))) (od_keys sd)
  then ret tt
  else raise (RuntimeError "Error(s) in loading state_dict").

Definition load_pretrained (path : string) : M state unit :=
  config0 <- pickle_load (path_join path "config.pkl") ;;
  config1 <- lift (del_key "device" config0) ;;
  config2 <- lift (del_key "num_genes" config1) ;;
  a <- lift (bind_kwargs config2) ;;
  model_initialize a ;;
  modify (upd_self (set_config (Some config2))) ;;
  sd0 <- torch_load (path_join path "model.pt") ;;
  sd <- lift (normalize_state_dict sd0) ;;
  l <- attr "model" model ;;
  load_state_dict l sd ;;
  s <- get ;;
  mutate l (to_device (device (self s))) ;;
  modify (upd_self (set_best_model (Some l))).


(** *** [predict] *)

(** [create_cell_graph_dataset_for_prediction(pert, ctrl_adata,
    gene_list, device)]: the synthetic cell graphs of a perturbation. *)
Variable create_cell_graph_dataset_for_prediction :
  list string → list cell → list string → string → list graph.

(** The forward pass of a predictor on a batch of cell graphs: one row
    of predicted expression per cell and, in uncertainty mode, one row
    of predicted log-variance per cell. *)
Variable forward : module → list graph → list tensor.
Variable forward_logvar : module → list graph → list tensor.

(** [np.mean] of a one-dimensional array and [np.exp] of a scalar. *)
Variable np_mean : list fval → fval.
Variable np_exp : fval → fval.

Definition fneg (x : fval) : fval :=
  match x with
  | FNaN => FNaN
  | FNegInf => FPosInf
  | FPosInf => FNegInf
  | FFin q => FFin (- q)
  end.

(** [np.mean(m, axis = 0)] of a matrix given by its rows: the mean of
    every column. *)
Definition column (j : nat) (m : list tensor) : list fval :=
  omap (λ row : tensor, row !! j) m.

Definition mean_axis0 (m : list tensor) : tensor :=
  match m with
  | [] => []
  | r :: _ => (λ j, np_mean (column j m)) <$> seq 0 (length r)
  end.

(** [DataLoader(dataset, batch_size, shuffle = False)]: the batches in
    order. *)
Fixpoint batches (fuel batch_size : nat) (dataset : list graph) : list (list graph) :=
  match fuel, dataset with
  | _, [] => []
  | O, _ => []
  | S fuel', _ =>
      take batch_size dataset :: batches fuel' batch_size (drop batch_size dataset)
  end.

Definition DataLoader (dataset : list graph) (batch_size : nat) : list (list graph) :=
  batches (length dataset) batch_size dataset.

(** [next(iter(loader))] *)
Definition next_iter {A} (l : list A) : result A :=
  match l with
  | [] => Raise StopIteration
  | x :: _ => Ok x
  end.

(** [self.config[k]] *)
Definition config_item (k : string) : M state pyval :=
  λ s, match config (self s) with
       | None => (Raise (TypeError "'NoneType' object is not subscriptable"), s)
       | Some c => match c !! k with
                   | Some v => (Ok v, s)
                   | None => (Raise (KeyError k), s)
                   end
       end.

Definition gene_error : string :=
  "The gene is not in the perturbation graph. Please select from PertNet.gene_list!".

(** The two nested validation loops. *)
Definition check_genes (genes : list string) (pert_list : list (list string))
    : M state unit :=
  for_each pert_list (λ pert,
    for_each pert (λ i,
      if bool_decide (i ∈ genes) then ret tt
      else raise (ValueError gene_error))).

(** What [predict] returns: one mapping, or two in uncertainty mode. *)
Inductive prediction : Type :=
  | Pred (results_pred : gmap string tensor)
  | PredUnc (results_pred : gmap string tensor) (results_logvar_sum : gmap string fval).

Definition results_pred_of (r : prediction) : gmap string tensor :=
  match r with Pred p | PredUnc p _ => p end.

(** The prediction loop; [acc] holds [results_pred] and
    [results_logvar]. *)
Fixpoint predict_loop (unc_mode : bool) (pert_list : list (list string))
    (acc : gmap string tensor * gmap string tensor)
    : M state (gmap string tensor * gmap string tensor) :=
  match pert_list with
  | [] => ret acc
  | pert :: rest =>
      s <- get ;;
      ctrl <- attr "ctrl_adata" ctrl_adata ;;
      let cg := create_cell_graph_dataset_for_prediction
                  pert ctrl (gene_list (self s)) (device (self s)) in
      b <- lift (next_iter (DataLoader cg 300)) ;;
      l <- attr "best_model" best_model ;;
      m <- deref l ;;
      let results_logvar :=
        if unc_mode
        then <[join "_" pert := mean_axis0 (forward_logvar m b)]> acc.2
        else acc.2 in
      predict_loop unc_mode rest
        (<[join "_" pert := mean_axis0 (forward m b)]> acc.1, results_logvar)
  end.

Definition predict (pert_list : list (list string)) : M state prediction :=
  s <- get ;;
  let me := self s in
  modify (upd_self (set_ctrl_adata
    (Some (filter (λ c, condition c = "ctrl") (pd_adata (data me)))))) ;;
  check_genes (gene_list me) pert_list ;;
  u <- config_item "uncertainty" ;;
  unc_mode <- lift (truthy u) ;;
  l <- attr "best_model" best_model ;;
  mutate l (to_device (device me)) ;;
  acc <- predict_loop unc_mode pert_list (∅, ∅) ;;
  if unc_mode
  then ret (PredUnc acc.1 ((λ j, np_exp (fneg (np_mean j))) <$> acc.2))
  else ret (Pred acc.1).


(** *** [train] *)

(** The optimizer together with its learning-rate scheduler. *)
Context {optim eval_res : Type}.

(** [optim.Adam(params, lr, weight_decay)] with [StepLR(optimizer, 1, 0.5)]. *)
Variable Adam : module → fval → fval → optim.

(** The forward pass on a training batch, the loss of the mode
    ([uncertainty_loss_fct] or [loss_fct]) and [loss.backward()]: the
    gradient of every parameter that received one. *)
Variable loss_backward : bool → PertNet → module → batch → gmap string tensor.

(** [optimizer.step()]: the new values of the parameters, computed from
    the module (its parameters and their gradients), and the new
    optimizer state. *)
Variable optimizer_step : optim → module → list (string * tensor) * optim.

(** [scheduler.step()] *)
Variable scheduler_step : optim → optim.

(** [evaluate(loader, model, uncertainty, device)]: the collected
    results, and the module as the call leaves it. *)
Variable evaluate : list batch → module → pyval → string → eval_res * module.

(** [compute_metrics(res)]: the metrics by name (first component). *)
Variable compute_metrics : eval_res → gmap string fval.

(** [torch.clamp(x, min = lo, max = hi)] on one component. *)
Definition clamp (lo hi x : fval) : fval :=
  if is_nan x then x
  else if flt x lo then lo
  else if flt hi x then hi
  else x.

(** [nn.utils.clip_grad_value_(parameters, clip_value)]: every gradient
    that is not [None] is clamped in place to
    [[-clip_value, clip_value]]. *)
Definition clip_grad_value_ (clip_value : fval) (m : module) : module :=
  set_grad (fmap (M := list) (clamp (fneg clip_value) clip_value) <$> grad m) m.

(** [optimizer.zero_grad()] *)
Definition zero_grad (m : module) : module := set_grad ∅ m.

(** The local variables of [train]. [best] is unbound until the first
    promotion. *)
Record locals : Type := {
  optimizer : optim;
  min_val : fval;
  best : option nat;
}.

(** Lines 213 to 229: the gradients are zeroed, computed and clipped. *)
Definition backward_clipped (b : batch) : M state unit :=
  l <- attr "model" model ;;
  mutate l zero_grad ;;
  u <- config_item "uncertainty" ;;
  unc_mode <- lift (truthy u) ;;
  s <- get ;;
  m <- deref l ;;
  mutate l (set_grad (loss_backward unc_mode (self s) m b)) ;;
  mutate l (clip_grad_value_ (FFin 1)).

(** Line 230: the optimizer updates the parameters in place. *)
Definition apply_optimizer (o : optim) : M state optim :=
  l <- attr "model" model ;;
  m <- deref l ;;
  let r := optimizer_step o m in
  mutate l (set_state_dict r.1) ;;
  ret r.2.

Definition train_step (o : optim) (b : batch) : M state optim :=
  backward_clipped b ;;
  apply_optimizer o.

Fixpoint train_batches (o : optim) (bs : list batch) : M state optim :=
  match bs with
  | [] => ret o
  | b :: bs' => o' <- train_step o b ;; train_batches o' bs'
  end.

(** [evaluate] on the current model. *)
Definition evaluate_model (loader : list batch) : M state eval_res :=
  l <- attr "model" model ;;
  m <- deref l ;;
  u <- config_item "uncertainty" ;;
  s <- get ;;
  let r := evaluate loader m u (device (self s)) in
  mutate l (λ _, r.2) ;;
  ret r.1.

(** [metrics[k]] *)
Definition metric (k : string) (metrics : gmap string fval) : M state fval :=
  match metrics !! k with
  | Some v => ret v
  | None => raise (KeyError k)
  end.

(** Lines 241 to 256: the epoch's metrics; the value is
    [val_metrics['mse_de']]. *)
Definition validation_score : M state fval :=
  s <- get ;;
  train_res <- evaluate_model (pd_train_loader (data (self s))) ;;
  val_res <- evaluate_model (pd_val_loader (data (self s))) ;;
  let train_metrics := compute_metrics train_res in
  let val_metrics := compute_metrics val_res in
  metric "mse" train_metrics ;;
  metric "mse" val_metrics ;;
  metric "mse_de" train_metrics ;;
  metric "mse_de" val_metrics.

(** Lines 266 to 268. *)
Definition promote_if_better (v : fval) (loc : locals) : M state locals :=
  if flt v (min_val loc) then
    l <- attr "model" model ;;
    b <- deepcopy l ;;
    ret {| optimizer := optimizer loc; min_val := v; best := Some b |}
  else ret loc.

(** Lines 209 to 239: the training pass of an epoch and the decay of
    the learning rate. *)
Definition train_one_epoch (loc : locals) : M state locals :=
  s <- get ;;
  l <- attr "model" model ;;
  mutate l (set_training true) ;;
  o <- train_batches (optimizer loc) (pd_train_loader (data (self s))) ;;
  ret {| optimizer := scheduler_step o; min_val := min_val loc;
         best := best loc |}.

(** One iteration of the loop over epochs. *)
Definition epoch (loc : locals) : M state locals :=
  loc1 <- train_one_epoch loc ;;
  v <- validation_score ;;
  promote_if_better v loc1.

Fixpoint epochs_loop (n : nat) (loc : locals) : M state locals :=
  match n with
  | O => ret loc
  | S n' => loc' <- epoch loc ;; epochs_loop n' loc'
  end.

(** [train(epochs, lr, weight_decay)] up to the evaluation of the best
    model on the test loader. The statements that follow compute and
    report test metrics; they assign no attribute and update no
    module. *)
Definition train (epochs : nat) (lr weight_decay : fval) : M state unit :=
  l <- attr "model" model ;;
  s <- get ;;
  mutate l (to_device (device (self s))) ;;
  m <- deref l ;;
  let loc0 := {| optimizer := Adam m lr weight_decay; min_val := FPosInf;
                 best := None |} in
  loc <- epochs_loop epochs loc0 ;;
  match best loc with
  | None => raise (UnboundLocalError "best_model")
  | Some b =>
      modify (upd_self (set_best_model (Some b))) ;;
      mb <- deref b ;;
      u <- config_item "uncertainty" ;;
      let r := evaluate (pd_test_loader (data (self s))) mb u (device (self s)) in
      mutate b (λ _, r.2)
  end.


(** *** Notions used in the statements *)

(** The control cells [predict] selects. *)
Definition ctrl_cells (s : state) : list cell :=
  filter (λ c, condition c = "ctrl") (pd_adata (data (self s))).

(** The state after line 153, and after line 162 when [best_model] is
    the object at [l]. *)
Definition checked (s : state) : state :=
  upd_self (set_ctrl_adata (Some (ctrl_cells s))) s.

Definition prepared (l : nat) (s : state) : state :=
  upd_heap (alter (to_device (device (self s))) l) (checked s).

(** The batch the model is run on for a perturbation. *)
Definition first_batch (s : state) (pert : list string) : list graph :=
  take 300 (create_cell_graph_dataset_for_prediction
              pert (ctrl_cells s) (gene_list (self s)) (device (self s))).

(** One iteration of the prediction loop on the two mappings. *)
Definition add_result (unc_mode : bool) (s : state) (m : module)
    (acc : gmap string tensor * gmap string tensor) (pert : list string)
    : gmap string tensor * gmap string tensor :=
  (<[join "_" pert := mean_axis0 (forward m (first_batch s pert))]> acc.1,
   if unc_mode
   then <[join "_" pert := mean_axis0 (forward_logvar m (first_batch s pert))]> acc.2
   else acc.2).

(** Lines 180 to 184. *)
Definition finish (unc_mode : bool) (acc : gmap string tensor * gmap string tensor)
    : prediction :=
  if unc_mode then PredUnc acc.1 ((λ j, np_exp (fneg (np_mean j))) <$> acc.2)
  else Pred acc.1.

(** The perturbations of a list that have a given label. *)
Definition with_label (label : string) (pert_list : list (list string))
    : list (list string) :=
  filter (λ pert, join "_" pert = label) pert_list.

(** The message of a validation error mentions the gene. *)
Definition names_gene (g : string) (e : exn) : bool :=
  match e with
  | ValueError msg => str_contains g msg
  | _ => false
  end.




(** The first parameter name does not start with [module.]. *)
Definition plain_names (sd : list (string * tensor)) : Prop :=
  match sd with
  | (k, _) :: _ => str_take 7 k ≠ "module."
  | [] => False
  end.

End Methods.
End PertNetClass.

(** ** Exact arithmetic

    Sums and means computed on rationals: what numpy computes up to
    rounding. *)

Module Exact.

Definition fadd (a b : fval) : fval :=
  match a, b with
  | FFin p, FFin q => FFin (Qred (p + q))
  | FNaN, _ | _, FNaN => FNaN
  | FPosInf, FNegInf | FNegInf, FPosInf => FNaN
  | FPosInf, _ | _, FPosInf => FPosInf
  | FNegInf, _ | _, FNegInf => FNegInf
  end.

(** The mean of a list, exact on rationals. *)
Definition mean (l : list fval) : fval :=
  match l, foldr fadd (FFin 0) l with
  | _ :: _, FFin s => FFin (Qred (s / inject_Z (Z.of_nat (length l))))
  | _ :: _, x => x
  | [], _ => FNaN
  end.





End Exact.

(** ** A small data set and stand-ins for the collaborators

    Concrete instances on which the methods can be run: four genes, two
    control cells and one perturbed cell, a predictor with a single
    parameter [w]. *)

Module Toy.
Import PertNetClass Exact.

Definition ctrl_cell_1 : cell :=
  {| condition := "ctrl"; condition_name := "ctrl_1";
     X := [FFin 1; FFin 2; FFin 3; FFin 4] |}.
Definition ctrl_cell_2 : cell :=
  {| condition := "ctrl"; condition_name := "ctrl_2";
     X := [FFin 3; FFin 2; FFin 1; FFin 0] |}.
Definition pert_cell : cell :=
  {| condition := "A+ctrl"; condition_name := "A+ctrl_1";
     X := [FFin 0; FFin 2; FFin 5; FFin 4] |}.

Definition pd : pert_data nat := {|
  pd_adata := [ctrl_cell_1; pert_cell; ctrl_cell_2];
  pd_node_map := list_to_map [("A", 0%nat); ("B", 1%nat); ("C", 2%nat); ("D", 3%nat)];
  pd_data_path := "./data";
  pd_dataset_name := "toy";
  pd_split := "simulation";
  pd_seed := 1;
  pd_train_gene_set_size := FFin (3 # 4);
  pd_set2conditions := ∅;
  pd_subgroup := ∅;
  pd_gene_names := ["A"; "B"; "C"; "D"];
  pd_train_loader := [0%nat];
  pd_val_loader := [1%nat];
  pd_test_loader := [2%nat];
|}.

Definition similarity_graph (kind : string) (threshold k : pyval)
    (d : pert_data nat) : tensor * tensor :=
  ([FFin 0; FFin 1], [FFin (1 # 2)]).

Definition PertNet_Model (cfg : gmap string pyval) : list (string * tensor) :=
  [("w", [FFin 3])].

(** One graph per control cell, named by its index. *)
Definition cell_graphs (pert : list string) (ctrl : list cell)
    (genes : list string) (dev : string) : list nat :=
  seq 0 (length ctrl).

(** Data sets larger than one batch: they agree on the first 300 graphs
    only. *)
Definition many_graphs (pert : list string) (ctrl : list cell)
    (genes : list string) (dev : string) : list nat :=
  seq 0 301.
Definition many_other_graphs (pert : list string) (ctrl : list cell)
    (genes : list string) (dev : string) : list nat :=
  seq 0 300 ++ [1000; 2000]%nat.

Definition fnat (n : nat) : fval := FFin (inject_Z (Z.of_nat n)).

Definition weight (m : module) : fval :=
  match state_dict m with
  | (_, x :: _) :: _ => x
  | _ => FNaN
  end.

Definition forward (m : module) (b : list nat) : list tensor :=
  (λ g, [fnat g; weight m; FFin 0; FFin 0]) <$> b.

Definition forward_logvar (m : module) (b : list nat) : list tensor :=
  (λ g, [FFin 0; FFin 0; FFin 0; fnat g]) <$> b.

(** A stand-in for the exponential, to run the examples: the first three
    terms of its series. *)
Definition exp3 (x : fval) : fval :=
  match x with
  | FFin q => FFin (Qred (1 + q + q * q / 2))
  | FNegInf => FFin 0
  | other => other
  end.

(** A training step moves [w] by the (clipped) gradient; the gradient
    before clipping is 5. *)
Definition Adam (m : module) (lr weight_decay : fval) : nat := 0%nat.

Definition loss_backward (unc : bool) (me : PertNet nat) (m : module) (b : nat)
    : gmap string tensor :=
  {[ "w" := [FFin 5] ]}.

Definition fsub (a b : fval) : fval := fadd a (fneg b).

Definition optimizer_step (o : nat) (m : module) : list (string * tensor) * nat :=
  ((λ kv : string * tensor,
      (kv.1, match grad m !! kv.1 with
             | Some g => zip_with fsub kv.2 g
             | None => kv.2
             end)) <$> state_dict m,
   S o).

Definition scheduler_step (o : nat) : nat := o.

(** Evaluation switches the module to evaluation mode and reports its
    weight. *)
Definition evaluate (loader : list nat) (m : module) (unc : pyval) (dev : string)
    : tensor * module :=
  ([weight m], set_training false m).

(** The squared distance of the weight to 2. *)
Definition compute_metrics (res : tensor) : gmap string fval :=
  match res with
  | [FFin w] => let d := Qred ((w - 2) * (w - 2)) in
                {[ "mse" := FFin d; "mse_de" := FFin d;
                   "pearson" := FFin 0; "pearson_de" := FFin 0 ]}
  | _ => ∅
  end.

Definition fresh_instance (dev : string) (files_from : state nat) : state nat :=
  {| self := PertNet_init pd dev; heap := ∅; fs := fs files_from |}.

Definition start : state nat :=
  {| self := PertNet_init pd "cpu"; heap := ∅; fs := empty_fs |}.

Definition run {A} (m : M (state nat) A) (s : state nat) : state nat := (m s).2.

Definition initialized : state nat :=
  run (model_initialize similarity_graph PertNet_Model default_args) start.

Definition with_uncertainty : init_args :=
  {| hidden_size := VInt 64;
     num_go_gnn_layers := VInt 1;
     num_gene_gnn_layers := VInt 1;
     decoder_hidden_size := VInt 16;
     num_similar_genes_go_graph := VInt 20;
     num_similar_genes_co_express_graph := VInt 20;
     coexpress_threshold := VFloat (FFin (4 # 10));
     uncertainty := VBool true;
     uncertainty_reg := VInt 1;
     direction_lambda := VFloat (FFin (1 # 10));
     G_go := VNone;
     G_go_weight := VNone;
     G_coexpress := VNone;
     G_coexpress_weight := VNone |}.

Definition initialized_unc : state nat :=
  run (model_initialize similarity_graph PertNet_Model with_uncertainty) start.

(** Saved by an initialized instance, restored by a fresh one. *)
Definition saved : state nat := run (save_model "out") initialized.
Definition restored : state nat :=
  run (load_pretrained similarity_graph PertNet_Model "out")
      (fresh_instance "cuda" saved).

(** Saved again by the restored instance. *)
Definition resaved : state nat := run (save_model "out2") restored.

(** The methods on the stand-ins. *)
Definition load (path : string) : M (state nat) unit :=
  load_pretrained similarity_graph PertNet_Model path.

Definition predict_on (create : list string → list cell → list string → string → list nat)
    (pert_list : list (list string)) : M (state nat) prediction :=
  predict create forward forward_logvar mean exp3 pert_list.

Definition step (o : nat) (b : nat) : M (state nat) nat :=
  train_step loss_backward optimizer_step o b.

Definition run_epochs (n : nat) (loc : locals) : M (state nat) locals :=
  epochs_loop loss_backward optimizer_step scheduler_step evaluate compute_metrics n loc.

(** The local variables of [train] before the first epoch. *)
Definition locals0 : locals (optim := nat) :=
  {| optimizer := 0%nat; min_val := FPosInf; best := None |}.

End Toy.

(** ** [train]: the subgroup analysis of the simulation split

    Lines 299 to 345: the averages of the test metrics over the
    perturbations of each test subgroup. They are logged and printed, not
    stored; what matters to a caller is when these lines raise. Dicts are
    association lists in insertion order. *)

Module SubgroupAnalysis.

(** The exceptions these lines can raise. *)
Inductive error : Type :=
  | IndexError
  | KeyError (key : string).

Section WithMean.
(** [np.mean] of a list of numbers. *)
Variable np_mean : list fval → fval.

(** [list(list(test_pert_res.values())[0].keys())] *)
Definition first_metrics (test_pert_res : list (string * list (string * fval)))
    : error + list string :=
  match test_pert_res with
  | [] => inl IndexError
  | (_, d) :: _ => inr (od_keys d)
  end.

(** The inner loops at lines 305-306 and 325-329: an empty list for
    every metric. *)
Definition empty_lists (d : list (string * list fval)) (metrics : list string)
    : list (string * list fval) :=
  foldl (λ d m, od_set m [] d) d metrics.

(** Lines 303 to 306. *)
Fixpoint init_lists (names : list string)
    (test_pert_res : list (string * list (string * fval)))
    (sa : list (string * list (string * list fval)))
    : error + list (string * list (string * list fval)) :=
  match names with
  | [] => inr sa
  | name :: rest =>
      match first_metrics test_pert_res with
      | inl e => inl e
      | inr ms => init_lists rest test_pert_res (od_set name (empty_lists [] ms) sa)
      end
  end.

(** [subgroup_analysis[name][m].append(v)]: the list is looked up before
    the argument [v] is evaluated. *)
Definition append_to (name m : string) (v : error + fval)
    (sa : list (string * list (string * list fval)))
    : error + list (string * list (string * list fval)) :=
  match od_get name sa with
  | None => inl (KeyError name)
  | Some d =>
      match od_get m d with
      | None => inl (KeyError m)
      | Some l =>
          match v with
          | inl e => inl e
          | inr res => inr (od_set name (od_set m (l ++ [res])%list d) sa)
          end
      end
  end.

(** Lines 310-311: [for m, res in test_pert_res[pert].items()]. *)
Fixpoint append_items (name : string) (items : list (string * fval))
    (sa : list (string * list (string * list fval)))
    : error + list (string * list (string * list fval)) :=
  match items with
  | [] => inr sa
  | (m, res) :: rest =>
      match append_to name m (inr res) sa with
      | inl e => inl e
      | inr sa' => append_items name rest sa'
      end
  end.

(** Lines 309 to 311: [for pert in pert_list]. *)
Fixpoint collect_perts (name : string) (pert_list : list string)
    (test_pert_res : list (string * list (string * fval)))
    (sa : list (string * list (string * list fval)))
    : error + list (string * list (string * list fval)) :=
  match pert_list with
  | [] => inr sa
  | pert :: rest =>
      match od_get pert test_pert_res with
      | None => inl (KeyError pert)
      | Some d =>
          match append_items name d sa with
          | inl e => inl e
          | inr sa' => collect_perts name rest test_pert_res sa'
          end
      end
  end.

(** Lines 308 to 311: [for name, pert_list in subgroup['test_subgroup'].items()]. *)
Fixpoint collect (subgroups : list (string * list string))
    (test_pert_res : list (string * list (string * fval)))
    (sa : list (string * list (string * list fval)))
    : error + list (string * list (string * list fval)) :=
  match subgroups with
  | [] => inr sa
  | (name, pert_list) :: rest =>
      match collect_perts name pert_list test_pert_res sa with
      | inl e => inl e
      | inr sa' => collect rest test_pert_res sa'
      end
  end.

(** Lines 313 to 315 and 339 to 341: every list is replaced by its
    mean. *)
Definition means (sa : list (string * list (string * list fval)))
    : list (string * list (string * fval)) :=
  (λ kv : string * list (string * list fval),
     (kv.1, (λ mv : string * list fval, (mv.1, np_mean mv.2)) <$> kv.2)) <$> sa.

(** Lines 302 to 319. *)
Definition subgroup_means (test_subgroup : list (string * list string))
    (test_pert_res : list (string * list (string * fval)))
    : error + list (string * list (string * fval)) :=
  match init_lists (od_keys test_subgroup) test_pert_res [] with
  | inl e => inl e
  | inr sa =>
      match collect test_subgroup test_pert_res sa with
      | inl e => inl e
      | inr sa' => inr (means sa')
      end
  end.

(** Lines 289-290. *)
Definition metrics : list string := ["pearson_delta"].
Definition metrics_non_dropout : list string :=
  ["frac_opposite_direction_top20_non_dropout"; "frac_sigma_below_1_non_dropout";
   "mse_top20_de_non_dropout"].

(** Lines 323 to 329. *)
Definition init_lists_deeper (names : list string)
    : list (string * list (string * list fval)) :=
  foldl (λ sa name,
           od_set name (empty_lists (empty_lists [] metrics) metrics_non_dropout) sa)
        [] names.

(** [out[pert][m]] *)
Definition item (pert m : string) (out : list (string * list (string * fval)))
    : error + fval :=
  match od_get pert out with
  | None => inl (KeyError pert)
  | Some d =>
      match od_get m d with
      | None => inl (KeyError m)
      | Some v => inr v
      end
  end.

(** Lines 333-334 and 336-337: [for m in ms:
    subgroup_analysis[name][m].append(out[pert][m])]. *)
Fixpoint append_metrics (name pert : string) (ms : list string)
    (out : list (string * list (string * fval)))
    (sa : list (string * list (string * list fval)))
    : error + list (string * list (string * list fval)) :=
  match ms with
  | [] => inr sa
  | m :: rest =>
      match append_to name m (item pert m out) sa with
      | inl e => inl e
      | inr sa' => append_metrics name pert rest out sa'
      end
  end.

(** Lines 332 to 337. *)
Fixpoint collect_perts_deeper (name : string) (pert_list : list string)
    (out out_non_dropout : list (string * list (string * fval)))
    (sa : list (string * list (string * list fval)))
    : error + list (string * list (string * list fval)) :=
  match pert_list with
  | [] => inr sa
  | pert :: rest =>
      match append_metrics name pert metrics out sa with
      | inl e => inl e
      | inr sa1 =>
          match append_metrics name pert metrics_non_dropout out_non_dropout sa1 with
          | inl e => inl e
          | inr sa2 => collect_perts_deeper name rest out out_non_dropout sa2
          end
      end
  end.

(** Lines 331 to 337. *)
Fixpoint collect_deeper (subgroups : list (string * list string))
    (out out_non_dropout : list (string * list (string * fval)))
    (sa : list (string * list (string * list fval)))
    : error + list (string * list (string * list fval)) :=
  match subgroups with
  | [] => inr sa
  | (name, pert_list) :: rest =>
      match collect_perts_deeper name pert_list out out_non_dropout sa with
      | inl e => inl e
      | inr sa' => collect_deeper rest out out_non_dropout sa'
      end
  end.

(** Lines 322 to 345. *)
Definition subgroup_means_deeper (test_subgroup : list (string * list string))
    (out out_non_dropout : list (string * list (string * fval)))
    : error + list (string * list (string * fval)) :=
  match collect_deeper test_subgroup out out_non_dropout
          (init_lists_deeper (od_keys test_subgroup)) with
  | inl e => inl e
  | inr sa => inr (means sa)
  end.

(** Lines 299 to 345: both analyses, for the simulation split only. *)
Definition subgroup_analysis (split : string)
    (test_subgroup : list (string * list string))
    (test_pert_res out out_non_dropout : list (string * list (string * fval)))
    : error + option (list (string * list (string * fval))
                      * list (string * list (string * fval))) :=
  if String.eqb split "simulation" then
    match subgroup_means test_subgroup test_pert_res with
    | inl e => inl e
    | inr r1 =>
        match subgroup_means_deeper test_subgroup out out_non_dropout with
        | inl e => inl e
        | inr r2 => inr (Some (r1, r2))
        end
    end
  else inr None.

(** *** Notions used in the statements *)

(** The values of metric [m] that the perturbations of a list report, in
    order. *)
Definition reported (res : list (string * list (string * fval))) (m : string)
    (pert_list : list string) : list fval :=
  pert_list ≫= λ pert,
    match od_get pert res ≫= od_get m with
    | Some v => [v]
    | None => []
    end.

End WithMean.

(** A table over a list of keys. *)
Definition tab {V} (f : string → V) (keys : list string) : list (string * V) :=
  (λ k, (k, f k)) <$> keys.

End SubgroupAnalysis.

(** ** Further notions used in the statements *)

Module Notions.
Import PertNetClass.

Section WithBatch.
Context {batch : Type}.

(** The keyword arguments a configuration built by [model_initialize]
    stands for: the arguments of the call, with the graphs that were
    computed in the place of the ones that were not given. *)
Definition filled (sim : string → pyval → pyval → pert_data batch → tensor * tensor)
    (me : PertNet batch) (a : init_args) : init_args :=
  let co := match G_coexpress a with
            | VNone => Some (sim "co-express" (coexpress_threshold a)
                               (num_similar_genes_co_express_graph a) (data me))
            | _ => None
            end in
  let go := match G_go a with
            | VNone => Some (sim "go" (coexpress_threshold a)
                               (num_similar_genes_go_graph a) (data me))
            | _ => None
            end in
  {| hidden_size := hidden_size a;
     num_go_gnn_layers := num_go_gnn_layers a;
     num_gene_gnn_layers := num_gene_gnn_layers a;
     decoder_hidden_size := decoder_hidden_size a;
     num_similar_genes_go_graph := num_similar_genes_go_graph a;
     num_similar_genes_co_express_graph := num_similar_genes_co_express_graph a;
     coexpress_threshold := coexpress_threshold a;
     uncertainty := uncertainty a;
     uncertainty_reg := uncertainty_reg a;
     direction_lambda := direction_lambda a;
     G_go := from_option (λ g, VTensor g.1) (G_go a) go;
     G_go_weight := from_option (λ g, VTensor g.2) (G_go_weight a) go;
     G_coexpress := from_option (λ g, VTensor g.1) (G_coexpress a) co;
     G_coexpress_weight := from_option (λ g, VTensor g.2) (G_coexpress_weight a) co |}.

(** From [s] to [s'] the instance and the files are the same, and every
    object other than the current model is still there with the same
    contents. *)
Definition keeps_snapshots (s s' : state batch) : Prop :=
  self s' = self s ∧ fs s' = fs s ∧
  ∀ k, is_Some (heap s !! k) →
       is_Some (heap s' !! k) ∧ (Some k ≠ model (self s) → heap s' !! k = heap s !! k).

(** A computation that keeps the snapshots whenever the current model is
    the object at [l]. *)
Definition keeps_for {A} (l : nat) (m : M (state batch) A) : Prop :=
  ∀ s, model (self s) = Some l → keeps_snapshots s (m s).2.

End WithBatch.

(** The names a [DataParallel] wrapper gives to the parameters of the
    module it wraps. *)
Definition data_parallel (sd : list (string * tensor)) : list (string * tensor) :=
  (λ kv, ("module." +:+ kv.1, kv.2)) <$> sd.

(** The uncertainty scores of a returned value (none outside uncertainty
    mode). *)
Definition scores_of (r : prediction) : gmap string fval :=
  match r with Pred _ => ∅ | PredUnc _ u => u end.

End Notions.

(** ** Further scenarios on the stand-ins *)

Module Scenarios.
Import PertNetClass.

(** Metrics that are never a number. *)
Definition nan_metrics (res : tensor) : gmap string fval :=
  {[ "mse" := FNaN; "mse_de" := FNaN ]}.

(** [train] on the stand-ins, with the default learning rate and weight
    decay. *)
Definition train (n : nat) : M (state nat) unit :=
  PertNetClass.train Toy.Adam Toy.loss_backward Toy.optimizer_step Toy.scheduler_step
    Toy.evaluate Toy.compute_metrics n (FFin (1 # 1000)) (FFin (5 # 10000)).

Definition train_nan (n : nat) : M (state nat) unit :=
  PertNetClass.train Toy.Adam Toy.loss_backward Toy.optimizer_step Toy.scheduler_step
    Toy.evaluate nan_metrics n (FFin (1 # 1000)) (FFin (5 # 10000)).

(** The configuration [model_initialize] builds by default on the toy
    data, and the predictor built from it. *)
Definition toy_config : gmap string pyval :=
  built_config Toy.similarity_graph (self Toy.start) default_args.

Definition toy_module : module := new_module Toy.PertNet_Model toy_config "cpu".

(** A fresh instance next to a directory that holds a configuration and
    no weights. *)
Definition config_only : state nat :=
  {| self := PertNet_init Toy.pd "cpu"; heap := ∅;
     fs := write_file "out/config.pkl" (Pickled toy_config) empty_fs |}.

(** A fresh instance next to a directory whose configuration lacks
    ['num_genes']. *)
Definition config_without_num_genes : state nat :=
  {| self := PertNet_init Toy.pd "cpu"; heap := ∅;
     fs := write_file "out/config.pkl" (Pickled (delete "num_genes" toy_config))
             empty_fs |}.

(** A fresh instance next to a directory whose configuration has a key
    of an older version. *)
Definition config_with_old_key : state nat :=
  {| self := PertNet_init Toy.pd "cpu"; heap := ∅;
     fs := write_file "out/config.pkl"
             (Pickled (<["num_layers" := VInt 2]> toy_config)) empty_fs |}.

(** Keyword arguments that give both graphs. *)
Definition given_graphs : init_args :=
  {| hidden_size := VInt 64;
     num_go_gnn_layers := VInt 1;
     num_gene_gnn_layers := VInt 1;
     decoder_hidden_size := VInt 16;
     num_similar_genes_go_graph := VInt 20;
     num_similar_genes_co_express_graph := VInt 20;
     coexpress_threshold := VFloat (FFin (4 # 10));
     uncertainty := VBool false;
     uncertainty_reg := VInt 1;
     direction_lambda := VFloat (FFin (1 # 10));
     G_go := VTensor [FFin 0; FFin 1];
     G_go_weight := VTensor [FFin 1];
     G_coexpress := VTensor [FFin 2; FFin 3];
     G_coexpress_weight := VTensor [FFin 1] |}.

(** Another source of similarity graphs. *)
Definition other_similarity_graph (kind : string) (threshold k : pyval)
    (d : pert_data nat) : tensor * tensor :=
  ([FFin 7], [FFin 7]).

(** A data set builder that has no cell graph for the perturbation of
    gene B alone. *)
Definition graphs_but_B (pert : list string) (ctrl : list cell)
    (genes : list string) (dev : string) : list nat :=
  if bool_decide (pert = ["B"]) then [] else seq 0 (length ctrl).

(** A state dict saved from a data-parallel module. *)
Definition wrapped_state_dict : list (string * tensor) :=
  [("module.w", [FFin 3]); ("module.b", [FFin 1])].

(** The test subgroups of a simulation split and the results of the
    perturbations: ["C+ctrl"] has no correlation metric. *)
Definition test_subgroup : list (string * list string) :=
  [("combo_seen0", ["A+B"]); ("unseen_single", ["C+ctrl"; "D+ctrl"])].

Definition test_pert_res : list (string * list (string * fval)) :=
  [("A+B", [("mse", FFin 1); ("pearson", FFin 0)]);
   ("C+ctrl", [("mse", FFin 3)]);
   ("D+ctrl", [("mse", FFin 5); ("pearson", FFin 1)])].

Definition out : list (string * list (string * fval)) :=
  [("A+B", [("pearson_delta", FFin 1)]);
   ("C+ctrl", [("pearson_delta", FFin 0)]);
   ("D+ctrl", [("pearson_delta", FFin 1)])].

Definition non_dropout (a b c : fval) : list (string * fval) :=
  [("frac_opposite_direction_top20_non_dropout", a);
   ("frac_sigma_below_1_non_dropout", b);
   ("mse_top20_de_non_dropout", c)].

Definition out_non_dropout : list (string * list (string * fval)) :=
  [("A+B", non_dropout (FFin 0) (FFin 1) (FFin 2));
   ("C+ctrl", non_dropout (FFin 0) (FFin 1) (FFin 2));
   ("D+ctrl", non_dropout (FFin 1) (FFin 0) (FFin 4))].

End Scenarios.

(** * Properties *)

Module Properties.
Import PertNetClass.

Lemma bind_Ok {S A B} (m : M S A) (f : A → M S B) s a s' :
  m s = (Ok a, s') → bind m f s = f a s'.
Proof. unfold bind. by intros ->. Qed.

Lemma bind_Raise {S A B} (m : M S A) (f : A → M S B) s e s' :
  m s = (Raise e, s') → bind m f s = (Raise e, s').
Proof. unfold bind. by intros ->. Qed.

Section Generic.
Context {batch graph : Type}.
Variable create : list string → list cell → list string → string → list graph.
Variable forward forward_logvar : module → list graph → list tensor.
Variable np_mean : list fval → fval.
Variable np_exp : fval → fval.
Abbreviation predict' := (predict (batch := batch) create forward forward_logvar np_mean np_exp).
Abbreviation predict_loop' := (predict_loop (batch := batch) create forward forward_logvar np_mean).
Abbreviation first_batch' := (first_batch (batch := batch) create).
Abbreviation add_result' := (add_result (batch := batch) create forward forward_logvar np_mean).
Abbreviation finish' := (finish np_mean np_exp).


(** What the failed call leaves behind: the target directory, created at
    lines 138-139 when the path did not exist. *)
Lemma save_model_uninitialized_directory (path : string) (s : state batch) :
  config (self s) = None →
  dirs (fs (save_model path s).2) =
    if path_exists (fs s) path then dirs (fs s) else {[path]} ∪ dirs (fs s).
Proof.
  intros H. unfold save_model, bind, get, modify, ret, raise. simpl. rewrite H.
  destruct (path_exists _ _); done.
Qed.

Lemma check_pert_ok (genes pert : list string) (s : state batch) :
Forall (λ i, i ∈ genes) pert →
for_each pert (λ i, if bool_decide (i ∈ genes) then ret tt
                    else raise (ValueError gene_error)) s = (Ok tt, s).
Proof.
induction 1 as [|i pert Hi _ IH]; [done|].
simpl. unfold bind at 1. rewrite bool_decide_eq_true_2 by done. simpl. apply IH.
Qed.

Lemma check_pert_bad (genes pert : list string) (s : state batch) :
¬ Forall (λ i, i ∈ genes) pert →
for_each pert (λ i, if bool_decide (i ∈ genes) then ret tt
                    else raise (ValueError gene_error)) s
= (Raise (ValueError gene_error), s).
Proof.
induction pert as [|i pert IH]; intros Hbad.
- destruct Hbad. constructor.
- simpl. unfold bind at 1. case_bool_decide as Hi; simpl; [|done].
  apply IH. intros Hall. apply Hbad. by constructor.
Qed.

Lemma check_genes_ok genes (pl : list (list string)) (s : state batch) :
Forall (Forall (λ i, i ∈ genes)) pl → check_genes genes pl s = (Ok tt, s).
Proof.
unfold check_genes. induction 1 as [|pert pl Hp _ IH]; [done|].
simpl. unfold bind at 1. rewrite check_pert_ok by done. apply IH.
Qed.

Lemma check_genes_bad genes (pl : list (list string)) (s : state batch) :
¬ Forall (Forall (λ i, i ∈ genes)) pl →
check_genes genes pl s = (Raise (ValueError gene_error), s).
Proof.
unfold check_genes. induction pl as [|pert pl IH]; intros Hbad.
- destruct Hbad. constructor.
- simpl. unfold bind at 1.
  destruct (decide (Forall (λ i, i ∈ genes) pert)) as [Hp|Hp].
  + rewrite check_pert_ok by done. apply IH. intros Hall. apply Hbad. by constructor.
  + by rewrite check_pert_bad.
Qed.

(** C2, as amended: when some perturbation of the list contains a gene
    that is not in [gene_list], [predict] raises a [ValueError] whose
    message is the fixed text [gene_error] (it does not name the gene),
    and returns no mapping; no model object and no file is touched. *)
Theorem predict_unknown_gene (pert_list : list (list string)) (s : state batch) :
(∃ pert g, pert ∈ pert_list ∧ g ∈ pert ∧ g ∉ gene_list (self s)) →
(predict' pert_list s).1 = Raise (ValueError gene_error) ∧
heap (predict' pert_list s).2 = heap s ∧
fs (predict' pert_list s).2 = fs s.
Proof.
intros (pert & g & Hpert & Hg & Hbad).
assert (Hnot : ¬ Forall (Forall (λ i, i ∈ gene_list (self s))) pert_list).
{ intros Hall. rewrite Forall_forall in Hall. specialize (Hall _ Hpert).
  rewrite Forall_forall in Hall. by apply Hbad, Hall. }
assert (predict' pert_list s =
        (Raise (ValueError gene_error),
         upd_self (set_ctrl_adata
           (Some (filter (λ c, condition c = "ctrl") (pd_adata (data (self s)))))) s))
  as ->; [|done].
unfold predict. unfold bind at 1, get. unfold bind at 1, modify.
apply bind_Raise. by apply check_genes_bad.
Qed.


Lemma predict_loop_state unc_mode pl acc (s : state batch) :
  (predict_loop' unc_mode pl acc s).2 = s.
Proof.
  revert acc. induction pl as [|pert pl IH]; intros acc; [done|].
  simpl. unfold bind at 1, get. unfold bind at 1, attr.
  destruct (ctrl_adata (self s)) as [ctrl|]; [|done].
  unfold bind at 1, lift.
  destruct (next_iter _) as [b|e]; [|done].
  unfold bind at 1.
  destruct (best_model (self s)) as [l|]; [|done].
  unfold bind at 1, deref.
  destruct (heap s !! l) as [m|]; [|done].
  apply IH.
Qed.

Lemma predict_valid (pl : list (list string)) (s : state batch) c u unc_mode l :
  Forall (Forall (λ i, i ∈ gene_list (self s))) pl →
  config (self s) = Some c → c !! "uncertainty" = Some u →
  truthy u = Ok unc_mode → best_model (self s) = Some l →
  predict' pl s =
    match predict_loop' unc_mode pl (∅, ∅) (prepared l s) with
    | (Ok acc, s') => (Ok (finish' unc_mode acc), s')
    | (Raise e, s') => (Raise e, s')
    end.
Proof.
  intros Hok Hc Hu Ht Hb.
  unfold predict, bind, get, modify, config_item, lift, attr, mutate, ret.
  fold (ctrl_cells s). fold (checked s).
  rewrite check_genes_ok by done. simpl.
  rewrite Hc, Hu, Ht. simpl. rewrite Hb.
  fold (prepared l s). unfold finish.
  destruct (predict_loop' _ _ _ _) as [[acc|e] s']; [|done].
  by destruct unc_mode.
Qed.

Lemma predict_failed (pl : list (list string)) (s : state batch) :
  (∃ e, predict' pl s = (Raise e, checked s)) ∨
  (∃ c u unc_mode l,
     Forall (Forall (λ i, i ∈ gene_list (self s))) pl ∧
     config (self s) = Some c ∧ c !! "uncertainty" = Some u ∧
     truthy u = Ok unc_mode ∧ best_model (self s) = Some l).
Proof.
  destruct (decide (Forall (Forall (λ i, i ∈ gene_list (self s))) pl)) as [Hok|Hbad].
  2:{ left. exists (ValueError gene_error).
      unfold predict, bind, get, modify.
      fold (ctrl_cells s). fold (checked s). by rewrite check_genes_bad. }
  destruct (config (self s)) as [c|] eqn:Hc.
  2:{ left. eexists.
      unfold predict, bind, get, modify, config_item.
      fold (ctrl_cells s). fold (checked s).
      rewrite check_genes_ok by done. simpl. rewrite Hc. reflexivity. }
  destruct (c !! "uncertainty") as [u|] eqn:Hu.
  2:{ left. eexists.
      unfold predict, bind, get, modify, config_item.
      fold (ctrl_cells s). fold (checked s).
      rewrite check_genes_ok by done. simpl. rewrite Hc, Hu. reflexivity. }
  destruct (truthy u) as [unc_mode|e] eqn:Ht.
  2:{ left. eexists.
      unfold predict, bind, get, modify, config_item, lift.
      fold (ctrl_cells s). fold (checked s).
      rewrite check_genes_ok by done. simpl. rewrite Hc, Hu, Ht. reflexivity. }
  destruct (best_model (self s)) as [l|] eqn:Hb.
  2:{ left. eexists.
      unfold predict, bind, get, modify, config_item, lift, attr.
      fold (ctrl_cells s). fold (checked s).
      rewrite check_genes_ok by done. simpl. rewrite Hc, Hu, Ht. simpl.
      rewrite Hb. reflexivity. }
  right. by exists c, u, unc_mode, l.
Qed.




Lemma DataLoader_first (cg : list graph) (n : nat) :
  next_iter (DataLoader cg n) =
    match cg with [] => Raise StopIteration | _ :: _ => Ok (take n cg) end.
Proof. by destruct cg. Qed.

Lemma predict_loop_Ok unc_mode pl acc (s s0 : state batch) l m :
  ctrl_adata (self s) = Some (ctrl_cells s0) →
  gene_list (self s) = gene_list (self s0) →
  device (self s) = device (self s0) →
  best_model (self s) = Some l →
  heap s !! l = Some m →
  Forall (λ pert, create pert (ctrl_cells s0) (gene_list (self s0))
                    (device (self s0)) ≠ []) pl →
  predict_loop' unc_mode pl acc s = (Ok (foldl (add_result' unc_mode s0 m) acc pl), s).
Proof.
  intros Hctrl Hgenes Hdev Hb Hm Hne. revert acc.
  induction Hne as [|pert pl Hp _ IH]; intros acc; [done|].
  simpl. unfold bind, get, attr, lift, deref.
  rewrite Hctrl, Hgenes, Hdev, DataLoader_first.
  destruct (create pert _ _ _) as [|g cg] eqn:Hcg; [done|].
  rewrite Hb, Hm, IH. unfold add_result, first_batch.
  by rewrite Hcg.
Qed.


(** The keys and the entries of the mappings the loop builds. *)
Lemma foldl_add_result_dom unc_mode (s : state batch) m pl acc :
  dom (foldl (add_result' unc_mode s m) acc pl).1
  = dom acc.1 ∪ list_to_set (join "_" <$> pl).
Proof.
  revert acc. induction pl as [|pert pl IH]; intros acc; simpl.
  - by rewrite (right_id_L ∅ (∪)).
  - rewrite IH. simpl. by rewrite dom_insert_L, (comm_L (∪) {[_]}), <- (assoc_L (∪)).
Qed.


Lemma foldl_add_result_lookup unc_mode (s : state batch) m pl acc label :
  (foldl (add_result' unc_mode s m) acc pl).1 !! label =
    match last (with_label label pl) with
    | Some pert => Some (mean_axis0 np_mean (forward m (first_batch' s pert)))
    | None => acc.1 !! label
    end.
Proof.
  revert acc. induction pl as [|pert pl IH]; intros acc; [done|].
  simpl. rewrite IH. unfold with_label. rewrite filter_cons.
  fold (with_label label pl).
  case_decide as Hl.
  - rewrite last_cons. destruct (last (with_label label pl)); [done|].
    simpl. subst label. by rewrite lookup_insert_eq.
  - destruct (last (with_label label pl)); [done|].
    simpl. by rewrite lookup_insert_ne.
Qed.

Lemma foldl_add_result_lookup_unc (s : state batch) m pl acc label :
  (foldl (add_result' true s m) acc pl).2 !! label =
    match last (with_label label pl) with
    | Some pert => Some (mean_axis0 np_mean (forward_logvar m (first_batch' s pert)))
    | None => acc.2 !! label
    end.
Proof.
  revert acc. induction pl as [|pert pl IH]; intros acc; [done|].
  simpl. rewrite IH. unfold with_label. rewrite filter_cons.
  fold (with_label label pl).
  case_decide as Hl.
  - rewrite last_cons. destruct (last (with_label label pl)); [done|].
    simpl. subst label. by rewrite lookup_insert_eq.
  - destruct (last (with_label label pl)); [done|].
    simpl. by rewrite lookup_insert_ne.
Qed.

Lemma mean_axis0_length (rows : list tensor) (n : nat) :
  rows ≠ [] → Forall (λ r, length r = n) rows →
  length (mean_axis0 np_mean rows) = n.
Proof.
  intros Hne Hall. destruct rows as [|r rows]; [done|].
  simpl. rewrite length_fmap, length_seq. by inversion Hall.
Qed.


Section Ready.
(** An initialized instance whose synthetic data sets are not empty. *)
Variable s : state batch.
Variable pert_list : list (list string).
Variables (c : gmap string pyval) (u : pyval) (unc_mode : bool).
Variables (l : nat) (m : module).
Hypothesis genes_known :
  Forall (Forall (λ i, i ∈ gene_list (self s))) pert_list.
Hypothesis has_config : config (self s) = Some c.
Hypothesis has_flag : c !! "uncertainty" = Some u.
Hypothesis flag_value : truthy u = Ok unc_mode.
Hypothesis has_best : best_model (self s) = Some l.
Hypothesis best_object : heap s !! l = Some m.
Hypothesis cells_exist :
  Forall (λ pert, create pert (ctrl_cells s) (gene_list (self s))
                    (device (self s)) ≠ []) pert_list.

Let best := to_device (device (self s)) m.

Lemma predict_Ok :
  predict' pert_list s =
    (Ok (finish' unc_mode (foldl (add_result' unc_mode s best) (∅, ∅) pert_list)),
     prepared l s).
Proof.
  rewrite (predict_valid pert_list s c u unc_mode l) by done.
  rewrite (predict_loop_Ok unc_mode pert_list (∅, ∅) (prepared l s) s l best); try done.
  simpl. rewrite lookup_alter_eq, best_object. done.
Qed.

(** C4, as amended: on an initialized instance, for a perturbation list
    whose genes are all in the gene universe and whose synthetic data
    sets are not empty, [predict] returns a mapping whose keys are exactly
    the underscore-joined labels of the perturbations: N keys when the N
    labels are pairwise distinct, fewer when a label repeats. Every value
    has one component per gene of the universe, given that the predictor
    outputs one row per cell and one column per gene. *)
Theorem predict_keys_and_lengths :
  (∀ m' b, length (forward m' b) = length b ∧
           Forall (λ r, length r = length (gene_list (self s))) (forward m' b)) →
  ∃ r s',
    predict' pert_list s = (Ok r, s') ∧
    dom (results_pred_of r) = list_to_set (join "_" <$> pert_list) ∧
    (NoDup (join "_" <$> pert_list) → size (results_pred_of r) = length pert_list) ∧
    (∀ pert, pert ∈ pert_list → is_Some (results_pred_of r !! join "_" pert)) ∧
    (∀ label v, results_pred_of r !! label = Some v →
                length v = length (gene_list (self s))).
Proof.
  intros Hshape. eexists _, _. split; [apply predict_Ok|].
  assert (results_pred_of
            (finish' unc_mode (foldl (add_result' unc_mode s best) (∅, ∅) pert_list))
          = (foldl (add_result' unc_mode s best) (∅, ∅) pert_list).1) as ->.
  { unfold finish. by destruct unc_mode. }
  assert (Hdom : dom (foldl (add_result' unc_mode s best) (∅, ∅) pert_list).1
                 = list_to_set (join "_" <$> pert_list)).
  { rewrite foldl_add_result_dom. simpl. by rewrite dom_empty_L, (left_id_L ∅ (∪)). }
  split; [done|]. split; [|split].
  - intros Hnd. rewrite <- size_dom, Hdom, size_list_to_set by done.
    by rewrite length_fmap.
  - intros pert Hin. apply elem_of_dom. rewrite Hdom.
    apply elem_of_list_to_set, list_elem_of_fmap. by exists pert.
  - intros label v. rewrite foldl_add_result_lookup.
    destruct (last (with_label label pert_list)) as [pert|] eqn:Hlast; [|done].
    intros [= <-]. apply mean_axis0_length; [|apply Hshape].
    assert (pert ∈ pert_list) as Hin.
    { apply last_Some_elem_of in Hlast. unfold with_label in Hlast.
      by apply list_elem_of_filter in Hlast as [_ ?]. }
    rewrite Forall_forall in cells_exist. specialize (cells_exist _ Hin).
    intros Hnil. apply (f_equal length) in Hnil.
    destruct (Hshape best (first_batch' s pert)) as [Hlen _].
    rewrite Hlen in Hnil. unfold first_batch in Hnil.
    destruct (create pert _ _ _); [done|]. simpl in Hnil. done.
Qed.

End Ready.

End Generic.

Section FirstBatch.
Context {batch graph : Type}.
Variables create1 create2 : list string → list cell → list string → string → list graph.
Variable forward forward_logvar : module → list graph → list tensor.
Variable np_mean : list fval → fval.
Variable np_exp : fval → fval.

Hypothesis same_first_300 : ∀ pert ctrl genes dev,
  take 300 (create1 pert ctrl genes dev) = take 300 (create2 pert ctrl genes dev).

Lemma first_batch_same pert ctrl genes dev :
  next_iter (DataLoader (create1 pert ctrl genes dev) 300)
  = next_iter (DataLoader (create2 pert ctrl genes dev) 300).
Proof.
  rewrite !DataLoader_first. specialize (same_first_300 pert ctrl genes dev).
  destruct (create1 pert ctrl genes dev), (create2 pert ctrl genes dev);
    try done.
  by rewrite same_first_300.
Qed.

Lemma predict_loop_first_batch unc_mode pl acc (s : state batch) :
  predict_loop create1 forward forward_logvar np_mean unc_mode pl acc s
  = predict_loop create2 forward forward_logvar np_mean unc_mode pl acc s.
Proof.
  revert acc. induction pl as [|pert pl IH]; intros acc; [done|].
  simpl. unfold bind, get, attr, lift, deref.
  destruct (ctrl_adata (self s)) as [ctrl|]; [|done].
  rewrite first_batch_same.
  destruct (next_iter _) as [b|e]; [|done].
  destruct (best_model (self s)) as [l|]; [|done].
  destruct (heap s !! l) as [m|]; [|done].
  apply IH.
Qed.

(** C10: only the first batch of at most 300 cell graphs is run through
    the model: two data set builders that agree on the first 300 graphs of
    every data set give the same outcome of [predict], predictions and
    uncertainty scores alike, whatever they contain beyond. *)
Theorem predict_first_batch_only (pert_list : list (list string)) (s : state batch) :
  predict create1 forward forward_logvar np_mean np_exp pert_list s
  = predict create2 forward forward_logvar np_mean np_exp pert_list s.
Proof.
  unfold predict, bind, get, modify, config_item, lift, attr, mutate.
  destruct (check_genes _ _ _) as [[[]|e] s1]; [|done].
  destruct (config (self s1)) as [c|]; [|done].
  destruct (c !! "uncertainty") as [u|]; [|done].
  destruct (truthy u) as [um|e]; [|done].
  destruct (best_model (self s1)) as [l|]; [|done].
  simpl. by rewrite predict_loop_first_batch.
Qed.
End FirstBatch.








Lemma alter_lookup_insert {A} (f : A → A) (l : nat) (h : gmap nat A) (x : A) :
  h !! l = Some x → alter f l h = <[l := f x]> h.
Proof.
  intros H. apply map_eq. intros k. destruct (decide (k = l)) as [->|Hne].
  - by rewrite lookup_alter_eq, lookup_insert_eq, H.
  - by rewrite lookup_alter_ne, lookup_insert_ne.
Qed.

Section Training.
Context {batch optim eval_res : Type}.
Variable loss_backward : bool → PertNet batch → module → batch → gmap string tensor.
Variable optimizer_step : optim → module → list (string * tensor) * optim.
Variable scheduler_step : optim → optim.
Variable evaluate : list batch → module → pyval → string → eval_res * module.
Variable compute_metrics : eval_res → gmap string fval.

Abbreviation train_step' := (train_step loss_backward optimizer_step).
Abbreviation backward_clipped' := (backward_clipped loss_backward).
Abbreviation apply_optimizer' := (apply_optimizer optimizer_step).


Abbreviation epoch' :=
  (epoch loss_backward optimizer_step scheduler_step evaluate compute_metrics).
Abbreviation epochs_loop' :=
  (epochs_loop loss_backward optimizer_step scheduler_step evaluate compute_metrics).
Abbreviation train_one_epoch' :=
  (train_one_epoch loss_backward optimizer_step scheduler_step).
Abbreviation validation_score' := (validation_score evaluate compute_metrics).

Lemma promote_if_better_worse (v : fval) (loc : locals (optim := optim)) (s : state batch) :
  flt v (min_val loc) = false → promote_if_better v loc s = (Ok loc, s).
Proof. intros H. unfold promote_if_better. by rewrite H. Qed.

Lemma promote_if_better_better (v : fval) (loc : locals (optim := optim))
    (s : state batch) l m :
  flt v (min_val loc) = true →
  model (self s) = Some l → heap s !! l = Some m →
  promote_if_better v loc s =
    (Ok {| optimizer := optimizer loc; min_val := v;
           best := Some (fresh (dom (heap s))) |},
     upd_heap <[fresh (dom (heap s)) := m]> s).
Proof.
  intros H Hl Hm. unfold promote_if_better. rewrite H.
  unfold bind, attr, deepcopy, bind, deref, alloc, ret. by rewrite Hl, Hm.
Qed.

Lemma promote_if_better_min (v : fval) (loc loc' : locals (optim := optim))
    (s s' : state batch) :
  promote_if_better v loc s = (Ok loc', s') →
  (if flt v (min_val loc)
   then min_val loc' = v ∧
        ∃ l m, model (self s) = Some l ∧ heap s !! l = Some m ∧
               heap s !! fresh (dom (heap s)) = None ∧
               best loc' = Some (fresh (dom (heap s))) ∧
               s' = upd_heap <[fresh (dom (heap s)) := m]> s
   else loc' = loc ∧ s' = s).
Proof.
  destruct (flt v (min_val loc)) eqn:Hv.
  - unfold promote_if_better. rewrite Hv.
    unfold bind, attr, deepcopy, bind, deref, alloc, ret.
    destruct (model (self s)) as [l|]; [|done].
    destruct (heap s !! l) as [m|] eqn:Hm; [|done].
    intros [= <- <-]. split; [done|]. exists l, m. repeat split; try done.
    apply not_elem_of_dom, is_fresh.
  - rewrite promote_if_better_worse by done. by intros [= <- <-].
Qed.

Lemma train_one_epoch_locals (loc loc1 : locals) (s s1 : state batch) :
  train_one_epoch' loc s = (Ok loc1, s1) →
  min_val loc1 = min_val loc ∧ best loc1 = best loc.
Proof.
  unfold train_one_epoch, bind, get, attr, mutate, modify, ret.
  destruct (model (self s)) as [l|]; [|done]. simpl.
  destruct (train_batches _ _ _ _ _) as [[o|e] s2]; [|done].
  by intros [= <- <-].
Qed.

Lemma epoch_inv (loc loc' : locals) (s s' : state batch) :
  epoch' loc s = (Ok loc', s') →
  ∃ loc1 s1 v s2,
    train_one_epoch' loc s = (Ok loc1, s1) ∧
    validation_score' s1 = (Ok v, s2) ∧
    promote_if_better v loc1 s2 = (Ok loc', s').
Proof.
  unfold epoch, bind.
  destruct (train_one_epoch' loc s) as [[loc1|e] s1]; [|done].
  destruct (validation_score' s1) as [[v|e] s2] eqn:Hv; [|done].
  intros H. by exists loc1, s1, v, s2.
Qed.






End Training.


Lemma od_get_lookup {V} (d : list (string * V)) i k t :
  NoDup d.*1 → d !! i = Some (k, t) → od_get k d = Some t.
Proof.
  revert i. induction d as [|[k' t'] d IH]; intros i Hnd Hi; [done|].
  apply NoDup_cons in Hnd as [Hk' Hnd]. destruct i as [|i]; simpl in *.
  - injection Hi as -> ->. by rewrite String.eqb_refl.
  - destruct (String.eqb_spec k k') as [->|Hne]; [|by eapply IH].
    exfalso. apply Hk'. apply list_elem_of_fmap. exists (k', t).
    split; [done|]. by eapply list_elem_of_lookup_2.
Qed.






Lemma normalize_plain (sd : list (string * tensor)) :
  plain_names sd → normalize_state_dict sd = Ok sd.
Proof.
  destruct sd as [|[k t] sd]; [done|]. simpl. intros Hk.
  destruct (String.eqb_spec (str_take 7 k) "module."); done.
Qed.

Section Lifecycle.
Context {batch : Type}.
Variable similarity_graph : string → pyval → pyval → pert_data batch → tensor * tensor.
Variable PertNet_Model : gmap string pyval → list (string * tensor).

Abbreviation model_initialize' := (model_initialize similarity_graph PertNet_Model).
Abbreviation load_pretrained' := (load_pretrained similarity_graph PertNet_Model).
Abbreviation built_config' := (built_config similarity_graph).
Abbreviation new_module' := (new_module PertNet_Model).

Lemma model_initialize_Ok (a : init_args) (s : state batch) :
  let cfg := built_config' (self s) a in
  let m := new_module' cfg (device (self s)) in
  let l := fresh (dom (heap s)) in
  let b := fresh (dom (<[l := m]> (heap s))) in
  l ≠ b ∧
  model_initialize' a s =
    (Ok tt,
     {| self := set_best_model (Some b)
                  (set_model (Some l) (set_config (Some cfg) (self s)));
        heap := <[b := m]> (<[l := m]> (heap s));
        fs := fs s |}).
Proof.
  intros cfg m l b. split.
  - intros Heq. pose proof (is_fresh (dom (<[l := m]> (heap s)))) as Hfresh.
    fold b in Hfresh. rewrite <- Heq in Hfresh. apply Hfresh.
    rewrite dom_insert. set_solver.
  - unfold model_initialize, bind, get, modify, alloc, deepcopy, bind, deref, alloc, ret.
    simpl. fold cfg m l. rewrite lookup_insert_eq. reflexivity.
Qed.

(** After [model_initialize] the best model is another object than the
    current model, with the same contents: updating the current model in
    place does not change it. *)
Lemma model_initialize_snapshot (a : init_args) (s : state batch) (f : module → module) :
  let s' := (model_initialize' a s).2 in
  ∃ l b m,
    model (self s') = Some l ∧ best_model (self s') = Some b ∧ l ≠ b ∧
    heap s' !! l = Some m ∧ heap s' !! b = Some m ∧
    heap (mutate l f s').2 !! b = Some m.
Proof.
  destruct (model_initialize_Ok a s) as [Hne Hinit]. simpl. rewrite Hinit. simpl.
  eexists _, _, _. split; [reflexivity|]. split; [reflexivity|]. split; [exact Hne|].
  rewrite lookup_insert_ne, !lookup_insert_eq by done.
  split; [reflexivity|]. split; [reflexivity|].
  rewrite lookup_alter_ne by done. apply lookup_insert_eq.
Qed.

Lemma load_pretrained_best_is_current (path : string) (s s' : state batch) :
  load_pretrained' path s = (Ok tt, s') →
  is_Some (model (self s')) ∧ best_model (self s') = model (self s').
Proof.
  unfold load_pretrained, bind, pickle_load, lift, torch_load, attr, load_state_dict,
    bind, deref, mutate, modify, get, raise, ret.
  destruct (files (fs s) !! path_join path "config.pkl") as [[config0|]|]; try done.
  destruct (del_key "device" config0) as [config1|]; [|done].
  destruct (del_key "num_genes" config1) as [config2|]; [|done].
  destruct (bind_kwargs config2) as [a|]; [|done].
  destruct (model_initialize_Ok a s) as [_ ->]. simpl.
  destruct (files (fs s) !! path_join path "model.pt") as [[|sd0]|]; try done.
  destruct (normalize_state_dict sd0) as [sd|]; [|done].
  simpl. rewrite lookup_insert_ne, lookup_insert_eq.
  2:{ intros Heq. by destruct (model_initialize_Ok a s) as [Hne _]. }
  simpl. destruct (_ && _); [|done].
  intros [= <-]. simpl. eauto.
Qed.



End Lifecycle.

Section ExactMean.
Import Exact.















End ExactMean.

(** C1, defect: an instance restored by [load_pretrained] keeps the
    configuration without ['device'] and ['num_genes'] (line 121); the
    directory it saves cannot be restored: [load_pretrained] raises
    [KeyError('device')] at line 119. The first round trip, from an
    instance initialized by [model_initialize], succeeds. *)
Example resaved_model_fails_to_load :
  (save_model "out" Toy.initialized).1 = Ok tt ∧
  (Toy.load "out" (Toy.fresh_instance "cuda" Toy.saved)).1 = Ok tt ∧
  (save_model "out2" Toy.restored).1 = Ok tt ∧
  ((Toy.load "out2" (Toy.fresh_instance "cuda" Toy.resaved)).1
    = Raise (KeyError "device")).
Proof. repeat split; vm_compute; reflexivity. Qed.

Example restored_config_lacks_device :
  config (self Toy.restored)
    = (delete "num_genes" <$> (delete "device" <$> config (self Toy.initialized))) ∧
  ((λ c : gmap string pyval, c !! "device") <$> config (self Toy.restored)) = Some None.
Proof. split; [reflexivity|vm_compute; reflexivity]. Qed.

(** C2, counterexample: the gene ["ZZZ"] is not in the gene universe, and
    the error raised by [predict] does not mention it. *)
Lemma predict_error_does_not_name_gene :
  ("ZZZ" ∉ gene_list (self Toy.initialized)) ∧
  ∃ e, (Toy.predict_on Toy.cell_graphs [["A"]; ["ZZZ"]] Toy.initialized).1 = Raise e ∧
       names_gene "ZZZ" e = false.
Proof.
  split; [compute_done|].
  exists (ValueError gene_error). split; vm_compute; reflexivity.
Qed.

Lemma predict_unknown_gene_witness :
  (∃ pert g, pert ∈ [["A"]; ["ZZZ"]] ∧ g ∈ pert ∧ g ∉ gene_list (self Toy.initialized)) ∧
  (Toy.predict_on Toy.cell_graphs [["A"]; ["ZZZ"]] Toy.initialized).1
    = Raise (ValueError gene_error) ∧
  heap (Toy.predict_on Toy.cell_graphs [["A"]; ["ZZZ"]] Toy.initialized).2
    = heap Toy.initialized ∧
  fs (Toy.predict_on Toy.cell_graphs [["A"]; ["ZZZ"]] Toy.initialized).2
    = fs Toy.initialized.
Proof.
  assert (H : ∃ pert g, pert ∈ [["A"]; ["ZZZ"]] ∧ g ∈ pert
                        ∧ g ∉ gene_list (self Toy.initialized)).
  { exists ["ZZZ"], "ZZZ". repeat split; compute_done. }
  split; [exact H|].
  exact (predict_unknown_gene Toy.cell_graphs Toy.forward Toy.forward_logvar
           Exact.mean Toy.exp3 [["A"]; ["ZZZ"]] Toy.initialized H).
Defined.


(** C4, counterexample: for the list [[["A"], ["A"]]] of length 2, whose
    genes are in the gene universe, the mapping has one key. *)
Lemma predict_duplicate_perturbations :
  Forall (Forall (λ i, i ∈ gene_list (self Toy.initialized))) [["A"]; ["A"]] ∧
  (size ∘ results_pred_of
     <$> option_of (Toy.predict_on Toy.cell_graphs [["A"]; ["A"]] Toy.initialized).1)
    = Some 1 ∧
  1 ≠ length [["A"]; ["A"]].
Proof.
  split; [repeat constructor; compute_done|].
  split; [vm_compute; reflexivity|simpl; lia].
Qed.

Lemma predict_keys_and_lengths_witness :
  ∃ r s',
    Toy.predict_on Toy.cell_graphs [["A"]; ["A"; "B"]] Toy.initialized = (Ok r, s') ∧
    dom (results_pred_of r) = {["A"; "A_B"]} ∧
    size (results_pred_of r) = 2 ∧
    (∀ label v, results_pred_of r !! label = Some v → length v = 4).
Proof.
  destruct (predict_keys_and_lengths Toy.cell_graphs Toy.forward Toy.forward_logvar
              Exact.mean Toy.exp3 Toy.initialized [["A"]; ["A"; "B"]]
              (built_config Toy.similarity_graph (self Toy.start) default_args)
              (VBool false) false 1 (new_module Toy.PertNet_Model
                 (built_config Toy.similarity_graph (self Toy.start) default_args) "cpu"))
    as (r & s' & Hrun & Hdom & Hsize & _ & Hlen).
  - repeat constructor; compute_done.
  - reflexivity.
  - reflexivity.
  - reflexivity.
  - reflexivity.
  - reflexivity.
  - repeat constructor; vm_compute; discriminate.
  - intros m' b. unfold Toy.forward. rewrite length_fmap. split; [reflexivity|].
    apply Forall_fmap, Forall_forall. intros g _. reflexivity.
  - exists r, s'. split; [exact Hrun|]. split; [|split].
    + rewrite Hdom. vm_compute. reflexivity.
    + apply Hsize. compute_done.
    + exact Hlen.
Defined.

(** C8, defect: after [load_pretrained] the best model is the current
    model itself (line 135 assigns the object, it does not copy it): one
    training step on the current model changes the weights of the best
    model from the restored [w = 3] to [w = 2]. *)
Example restored_best_model_is_aliased :
  (Toy.load "out" (Toy.fresh_instance "cuda" Toy.saved)).1 = Ok tt ∧
  model (self Toy.restored) = Some 0 ∧
  best_model (self Toy.restored) = Some 0 ∧
  (state_dict <$> heap Toy.restored !! 0) = Some [("w", [FFin 3])] ∧
  (Toy.step 0 0 Toy.restored).1 = Ok 1 ∧
  best_model (self (Toy.step 0 0 Toy.restored).2) = Some 0 ∧
  (state_dict <$> heap (Toy.step 0 0 Toy.restored).2 !! 0) = Some [("w", [FFin 2])].
Proof. repeat split; vm_compute; reflexivity. Qed.

Example initialized_best_model_is_a_copy :
  model (self Toy.initialized) = Some 0 ∧
  best_model (self Toy.initialized) = Some 1 ∧
  (state_dict <$> heap Toy.initialized !! 1) = Some [("w", [FFin 3])] ∧
  (Toy.step 0 0 Toy.initialized).1 = Ok 1 ∧
  (state_dict <$> heap (Toy.step 0 0 Toy.initialized).2 !! 0) = Some [("w", [FFin 2])] ∧
  (state_dict <$> heap (Toy.step 0 0 Toy.initialized).2 !! 1) = Some [("w", [FFin 3])].
Proof. repeat split; vm_compute; reflexivity. Qed.


Example toy_training_run :
  (λ i, (λ loc, (min_val loc, best loc)) <$> option_of (Toy.run_epochs i Toy.locals0 Toy.initialized).1)
    <$> [0; 1; 2; 3]
  = [Some (FPosInf, None); Some (FFin 0, Some 2); Some (FFin 0, Some 2);
     Some (FFin 0, Some 2)].
Proof. vm_compute. reflexivity. Qed.



Lemma predict_first_batch_only_witness :
  length (Toy.many_graphs ["A"] [] [] "cpu") = 301 ∧
  length (Toy.many_other_graphs ["A"] [] [] "cpu") = 302 ∧
  Toy.predict_on Toy.many_graphs [["A"]] Toy.initialized_unc
  = Toy.predict_on Toy.many_other_graphs [["A"]] Toy.initialized_unc.
Proof.
  assert (H : ∀ pert ctrl genes dev,
             take 300 (Toy.many_graphs pert ctrl genes dev)
             = take 300 (Toy.many_other_graphs pert ctrl genes dev))
    by (intros; vm_compute; reflexivity).
  split; [reflexivity|]. split; [reflexivity|].
  exact (predict_first_batch_only Toy.many_graphs Toy.many_other_graphs
           Toy.forward Toy.forward_logvar Exact.mean Toy.exp3 H
           [["A"]] Toy.initialized_unc).
Defined.

End Properties.

(** * Further properties of the methods *)

Module Coverage.
Import PertNetClass Notions Properties.

(** ** [model_initialize]: the configuration *)

Section Config.
Context {batch : Type}.
Abbreviation simfun := (string → pyval → pyval → pert_data batch → tensor * tensor).
Implicit Types sim : simfun.

Lemma built_config_filled sim (me : PertNet batch) (a : init_args) :
  built_config sim me a = initial_config me (filled sim me a).
Proof.
  destruct a as [a1 a2 a3 a4 a5 a6 a7 a8 a9 a10 ggo ggow gco gcow].
  unfold built_config, with_go, with_coexpress, filled.
  destruct gco, ggo; reflexivity.
Qed.

Lemma bind_kwargs_initial_config (me : PertNet batch) (a : init_args) :
  bind_kwargs (delete "num_genes" (delete "device" (initial_config me a))) = Ok a.
Proof.
  destruct a as [a1 a2 a3 a4 a5 a6 a7 a8 a9 a10 ggo ggow gco gcow].
  vm_compute. reflexivity.
Qed.

Lemma filled_filled sim (sim' : simfun) (me me' : PertNet batch) (a : init_args) :
  filled sim' me' (filled sim me a) = filled sim me a.
Proof.
  destruct a as [a1 a2 a3 a4 a5 a6 a7 a8 a9 a10 ggo ggow gco gcow].
  unfold filled. simpl. destruct gco, ggo; reflexivity.
Qed.

Lemma filled_given sim (me : PertNet batch) (a : init_args) :
  G_coexpress a ≠ VNone → G_go a ≠ VNone → filled sim me a = a.
Proof.
  destruct a as [a1 a2 a3 a4 a5 a6 a7 a8 a9 a10 ggo ggow gco gcow].
  unfold filled. cbn. intros Hco Hgo. destruct gco, ggo; try reflexivity; congruence.
Qed.

Lemma initial_config_instance (me me' : PertNet batch) (a : init_args) :
  initial_config me' a =
    <["num_genes" := VInt (Z.of_nat (num_genes me'))]>
      (<["device" := VStr (device me')]> (initial_config me a)).
Proof.
  destruct a as [a1 a2 a3 a4 a5 a6 a7 a8 a9 a10 ggo ggow gco gcow].
  reflexivity.
Qed.

Lemma initial_config_graphs (me : PertNet batch) (a : init_args) :
  initial_config me a !! "G_coexpress" = Some (G_coexpress a) ∧
  initial_config me a !! "G_coexpress_weight" = Some (G_coexpress_weight a) ∧
  initial_config me a !! "G_go" = Some (G_go a) ∧
  initial_config me a !! "G_go_weight" = Some (G_go_weight a).
Proof.
  destruct a as [a1 a2 a3 a4 a5 a6 a7 a8 a9 a10 ggo ggow gco gcow].
  split; [reflexivity|]. split; [reflexivity|]. split; reflexivity.
Qed.

Lemma initial_config_dom (me : PertNet batch) (a : init_args) :
  dom (initial_config me a) = list_to_set keyword_names ∪ {["device"; "num_genes"]}.
Proof.
  destruct a as [a1 a2 a3 a4 a5 a6 a7 a8 a9 a10 ggo ggow gco gcow].
  reflexivity.
Qed.

(** X1: the configuration [model_initialize] stores has the fourteen
    keyword names and ['device'], ['num_genes'] as its keys. A graph that
    was given is stored as given, with the weight that was given; a graph
    that was [None] is computed from the data (the gene-ontology graph with
    [coexpress_threshold] as its threshold too) and stored with the
    computed weight, whatever weight was given. The stored graphs are
    never [None]. *)
Theorem model_initialize_graphs sim (me : PertNet batch) (a : init_args) :
  (G_coexpress a = VNone →
     built_config sim me a !! "G_coexpress" =
       Some (VTensor (sim "co-express" (coexpress_threshold a)
                        (num_similar_genes_co_express_graph a) (data me)).1) ∧
     built_config sim me a !! "G_coexpress_weight" =
       Some (VTensor (sim "co-express" (coexpress_threshold a)
                        (num_similar_genes_co_express_graph a) (data me)).2)) ∧
  (G_coexpress a ≠ VNone →
     built_config sim me a !! "G_coexpress" = Some (G_coexpress a) ∧
     built_config sim me a !! "G_coexpress_weight" = Some (G_coexpress_weight a)) ∧
  (G_go a = VNone →
     built_config sim me a !! "G_go" =
       Some (VTensor (sim "go" (coexpress_threshold a)
                        (num_similar_genes_go_graph a) (data me)).1) ∧
     built_config sim me a !! "G_go_weight" =
       Some (VTensor (sim "go" (coexpress_threshold a)
                        (num_similar_genes_go_graph a) (data me)).2)) ∧
  (G_go a ≠ VNone →
     built_config sim me a !! "G_go" = Some (G_go a) ∧
     built_config sim me a !! "G_go_weight" = Some (G_go_weight a)) ∧
  built_config sim me a !! "G_coexpress" ≠ Some VNone ∧
  built_config sim me a !! "G_go" ≠ Some VNone ∧
  dom (built_config sim me a) = list_to_set keyword_names ∪ {["device"; "num_genes"]}.
Proof.
  rewrite built_config_filled, initial_config_dom.
  destruct (initial_config_graphs me (filled sim me a)) as (-> & -> & -> & ->).
  unfold filled. cbn [G_go G_go_weight G_coexpress G_coexpress_weight].
  split; [intros ->; split; reflexivity|].
  split; [intros H; destruct (G_coexpress a); try (split; reflexivity); by destruct H|].
  split; [intros ->; split; reflexivity|].
  split; [intros H; destruct (G_go a); try (split; reflexivity); by destruct H|].
  split; [destruct (G_coexpress a); simpl; congruence|].
  split; [destruct (G_go a); simpl; congruence|].
  reflexivity.
Qed.

(** X2: when both graphs are given, [model_initialize] computes none: the
    stored configuration is the dictionary of the arguments, and it does
    not depend on [get_similarity_network]. *)
Theorem model_initialize_given_graphs sim (sim' : simfun) (me : PertNet batch)
    (a : init_args) :
  G_coexpress a ≠ VNone → G_go a ≠ VNone →
  built_config sim me a = initial_config me a ∧
  built_config sim' me a = built_config sim me a.
Proof.
  intros Hco Hgo. rewrite !built_config_filled, !filled_given by done.
  split; reflexivity.
Qed.

(** X3: the configuration of an initialized instance, without ['device']
    and ['num_genes'], is a valid set of keyword arguments of
    [model_initialize] (what [load_pretrained] does with a pickled
    configuration, lines 119-120), and initializing any instance with them
    rebuilds the same configuration: the graphs are taken from it and not
    computed again, only ['device'] and ['num_genes'] are those of the new
    instance. *)
Theorem saved_config_reinitializes sim (me : PertNet batch) (a : init_args) :
  ∃ a',
    bind_kwargs (delete "num_genes" (delete "device" (built_config sim me a))) = Ok a' ∧
    ∀ (sim' : simfun) (me' : PertNet batch),
      built_config sim' me' a' =
        <["num_genes" := VInt (Z.of_nat (num_genes me'))]>
          (<["device" := VStr (device me')]> (built_config sim me a)).
Proof.
  exists (filled sim me a). rewrite built_config_filled. split.
  - apply bind_kwargs_initial_config.
  - intros sim' me'. rewrite built_config_filled, (filled_filled sim sim' me me').
    apply initial_config_instance.
Qed.
End Config.

(** ** [save_model] *)

Section SaveModel.
Context {batch : Type}.

(** The state [save_model] leaves on an initialized instance. *)
Lemma save_model_state (path : string) (s : state batch) cfg b mb :
  config (self s) = Some cfg → best_model (self s) = Some b → heap s !! b = Some mb →
  save_model path s =
    (Ok tt,
     upd_fs (λ f, write_file (path_join path "model.pt") (TorchSaved (state_dict mb))
                    (write_file (path_join path "config.pkl") (Pickled cfg)
                       (if path_exists (fs s) path then f else mkdir path f))) s).
Proof.
  intros Hc Hb Hm.
  unfold save_model, bind, get, modify, ret, attr, deref. simpl. rewrite Hc.
  destruct (path_exists (fs s) path); simpl; rewrite Hb; simpl; rewrite Hm; done.
Qed.

Lemma path_exists_mkdir (p : string) (f : filesystem) : path_exists (mkdir p f) p = true.
Proof.
  unfold path_exists, mkdir. simpl. apply orb_true_iff. left.
  apply bool_decide_eq_true_2. set_solver.
Qed.

Lemma path_exists_write_file (p q : string) (a : artifact) (f : filesystem) :
  path_exists f p = true → path_exists (write_file q a f) p = true.
Proof.
  unfold path_exists, write_file. simpl. intros [H|H]%orb_true_iff; apply orb_true_iff.
  - by left.
  - right. apply bool_decide_eq_true_2. apply bool_decide_eq_true_1 in H.
    rewrite lookup_insert. case_decide; [by eexists|done].
Qed.


(** X5: saving twice to the same path is saving once: the second call
    finds the directory, overwrites both files with the same contents and
    leaves the same state. *)
Theorem save_model_twice (path : string) (s : state batch) cfg b mb :
  config (self s) = Some cfg → best_model (self s) = Some b → heap s !! b = Some mb →
  save_model path (save_model path s).2 = save_model path s.
Proof.
  intros Hc Hb Hm. rewrite (save_model_state path s cfg b mb Hc Hb Hm).
  rewrite (save_model_state path _ cfg b mb) by done.
  simpl. f_equal. unfold upd_fs. simpl. f_equal.
  assert (path_exists
    (write_file (path_join path "model.pt") (TorchSaved (state_dict mb))
       (write_file (path_join path "config.pkl") (Pickled cfg)
          (if path_exists (fs s) path then fs s else mkdir path (fs s)))) path = true)
    as ->.
  { do 2 apply path_exists_write_file.
    destruct (path_exists (fs s) path) eqn:He; [done|apply path_exists_mkdir]. }
  unfold write_file. simpl. f_equal.
  apply map_eq. intros k. rewrite !lookup_insert. by repeat case_decide.
Qed.
End SaveModel.

(** ** [load_pretrained]: the state dict *)

Lemma od_set_new {V} (k : string) (v : V) (d : list (string * V)) :
  k ∉ od_keys d → od_set k v d = (d ++ [(k, v)])%list.
Proof.
  induction d as [|[k' v'] d IH]; intros Hk; simpl; [done|].
  unfold od_keys in Hk. rewrite fmap_cons, not_elem_of_cons in Hk. destruct Hk as [Hne Hk].
  destruct (String.eqb_spec k k') as [->|_]; [done|]. by rewrite IH.
Qed.

Lemma foldl_od_set {V} (f : string → string) (l acc : list (string * V)) :
  NoDup (od_keys acc ++ (f <$> od_keys l))%list →
  foldl (λ new kv, od_set (f kv.1) kv.2 new) acc l
  = (acc ++ ((λ kv, (f kv.1, kv.2)) <$> l))%list.
Proof.
  revert acc. induction l as [|[k v] l IH]; intros acc Hnd; simpl.
  - by rewrite app_nil_r.
  - unfold od_keys in Hnd. simpl in Hnd.
    apply NoDup_app in Hnd as (Hacc & Hdisj & Hl).
    apply NoDup_cons in Hl as [Hk Hl].
    rewrite od_set_new.
    2:{ intros Hin. apply (Hdisj _ Hin). by left. }
    rewrite IH.
    + by rewrite <- app_assoc.
    + unfold od_keys. rewrite fmap_app. simpl. rewrite <- app_assoc. simpl.
      apply NoDup_app. split; [done|]. split.
      * intros x Hx. apply Hdisj in Hx. exact Hx.
      * by constructor.
Qed.

Lemma normalize_module_prefix (k : string) (t : tensor) (rest : list (string * tensor)) :
  str_take 7 k = "module." →
  NoDup (str_drop 7 <$> od_keys ((k, t) :: rest)) →
  normalize_state_dict ((k, t) :: rest)
  = Ok ((λ kv, (str_drop 7 kv.1, kv.2)) <$> (k, t) :: rest).
Proof.
  intros Hk Hnd. unfold normalize_state_dict. rewrite Hk. simpl String.eqb.
  unfold strip_module_prefix. by rewrite (foldl_od_set (str_drop 7)).
Qed.

(** X6: the first name alone decides whether a loaded state dict is
    rewritten (line 124). When it starts with [module.], every name loses
    its first seven characters, whether it starts with [module.] or not,
    and the tensors and their order are kept (the shortened names being
    distinct); otherwise the state dict is used as it is, also when later
    names start with [module.]. *)
Theorem normalize_strips_every_name (k : string) (t : tensor)
    (rest : list (string * tensor)) :
  (str_take 7 k = "module." → NoDup (str_drop 7 <$> od_keys ((k, t) :: rest))) →
  normalize_state_dict ((k, t) :: rest)
  = Ok (if String.eqb (str_take 7 k) "module."
        then (λ kv, (str_drop 7 kv.1, kv.2)) <$> (k, t) :: rest
        else (k, t) :: rest).
Proof.
  intros Hnd. destruct (String.eqb_spec (str_take 7 k) "module.") as [Hk|Hk].
  - apply normalize_module_prefix; [exact Hk|by apply Hnd].
  - apply normalize_plain. exact Hk.
Qed.

Lemma data_parallel_names (sd : list (string * tensor)) :
  str_drop 7 <$> od_keys (data_parallel sd) = od_keys sd.
Proof.
  unfold od_keys, data_parallel. rewrite <- !list_fmap_compose.
  apply list_fmap_ext. by intros i [k t] _.
Qed.

Lemma data_parallel_stripped (sd : list (string * tensor)) :
  (λ kv : string * tensor, (str_drop 7 kv.1, kv.2)) <$> data_parallel sd = sd.
Proof.
  unfold data_parallel. rewrite <- list_fmap_compose.
  rewrite <- (list_fmap_id sd) at 2. apply list_fmap_ext. by intros i [k t] _.
Qed.

(** X7: the state dict of a data-parallel wrapper (every name prefixed
    with [module.]) is turned back into the state dict of the wrapped
    module: same names, same tensors, same order. *)
Theorem normalize_data_parallel (sd : list (string * tensor)) :
  sd ≠ [] → NoDup (od_keys sd) →
  normalize_state_dict (data_parallel sd) = Ok sd.
Proof.
  intros Hne Hnd. destruct sd as [|[k t] rest]; [done|].
  rewrite <- (data_parallel_stripped ((k, t) :: rest)) at 2.
  rewrite <- (data_parallel_names ((k, t) :: rest)) in Hnd.
  change (data_parallel ((k, t) :: rest))
    with (("module." +:+ k, t) :: data_parallel rest) in *.
  apply normalize_module_prefix; [by destruct k|exact Hnd].
Qed.

(** ** [load_pretrained] and [model_initialize]: the objects *)

Section Restore.
Context {batch : Type}.
Variable similarity_graph : string → pyval → pyval → pert_data batch → tensor * tensor.
Variable PertNet_Model : gmap string pyval → list (string * tensor).

Abbreviation model_initialize' := (model_initialize similarity_graph PertNet_Model).
Abbreviation load_pretrained' := (load_pretrained similarity_graph PertNet_Model).
Abbreviation built_config' := (built_config similarity_graph).
Abbreviation new_module' := (new_module PertNet_Model).

(** What a successful [load_pretrained] read and the state it leaves. *)
Lemma load_pretrained_inv (path : string) (s s' : state batch) :
  load_pretrained' path s = (Ok tt, s') →
  ∃ config0 a sd0 sd,
    files (fs s) !! path_join path "config.pkl" = Some (Pickled config0) ∧
    is_Some (config0 !! "device") ∧ is_Some (config0 !! "num_genes") ∧
    bind_kwargs (delete "num_genes" (delete "device" config0)) = Ok a ∧
    files (fs s) !! path_join path "model.pt" = Some (TorchSaved sd0) ∧
    normalize_state_dict sd0 = Ok sd ∧
    let cfg := built_config' (self s) a in
    let m := new_module' cfg (device (self s)) in
    let l := fresh (dom (heap s)) in
    let b := fresh (dom (<[l := m]> (heap s))) in
    forallb (entry_matches sd) (state_dict m) = true ∧
    forallb (λ k, bool_decide (k ∈ od_keys (state_dict m))) (od_keys sd) = true ∧
    l ≠ b ∧
    s' = {| self := set_best_model (Some l)
                      (set_config (Some (delete "num_genes" (delete "device" config0)))
                         (set_best_model (Some b)
                            (set_model (Some l) (set_config (Some cfg) (self s)))));
            heap := <[l := to_device (device (self s))
                             (set_state_dict (loaded_entry sd <$> state_dict m) m)]>
                      (<[b := m]> (<[l := m]> (heap s)));
            fs := fs s |}.
Proof.
  unfold load_pretrained, bind, pickle_load, lift, torch_load, attr, load_state_dict,
    bind, deref, mutate, modify, get, raise, ret.
  destruct (files (fs s) !! path_join path "config.pkl") as [[config0|]|]; try done.
  unfold del_key.
  destruct (config0 !! "device") as [vd|] eqn:Hd; [|done].
  rewrite lookup_delete_ne by done.
  destruct (config0 !! "num_genes") as [vn|] eqn:Hn; [|done].
  destruct (bind_kwargs _) as [a|] eqn:Hkw; [|done].
  destruct (model_initialize_Ok similarity_graph PertNet_Model a s) as [Hne ->]. simpl.
  destruct (files (fs s) !! path_join path "model.pt") as [[|sd0]|]; try done.
  destruct (normalize_state_dict sd0) as [sd|] eqn:Hnorm; [|done].
  simpl. rewrite lookup_insert_ne, lookup_insert_eq by done.
  simpl. destruct (forallb (entry_matches sd) _) eqn:Hmatch; [|done].
  simpl. destruct (forallb _ (od_keys sd)) eqn:Hkeys; [|done].
  simpl. intros [= <-].
  exists config0, a, sd0, sd.
  split; [done|]. split; [by eauto|]. split; [by eauto|]. split; [done|].
  split; [done|]. split; [done|]. split; [exact Hmatch|]. split; [exact Hkeys|].
  split; [exact Hne|].
  unfold upd_self, upd_heap. simpl. f_equal.
  rewrite alter_alter_eq.
  erewrite alter_lookup_insert.
  2:{ rewrite lookup_insert_ne by done. apply lookup_insert_eq. }
  apply map_eq. intros k. rewrite !lookup_insert. by repeat case_decide.
Qed.

(** X8: [model_initialize] always returns. It stores the built
    configuration, writes no file, and binds [model] and [best_model] to
    two new, distinct objects with the same contents (a predictor built
    from the configuration, on the device of the instance); the objects
    that existed before are untouched, and an in-place update of the
    current model does not reach the best model. *)
Theorem model_initialize_independent_copy (a : init_args) (s : state batch)
    (f : module → module) :
  (model_initialize' a s).1 = Ok tt ∧
  config (self (model_initialize' a s).2) = Some (built_config' (self s) a) ∧
  fs (model_initialize' a s).2 = fs s ∧
  ∃ l b, model (self (model_initialize' a s).2) = Some l ∧
         best_model (self (model_initialize' a s).2) = Some b ∧ l ≠ b ∧
         heap s !! l = None ∧ heap s !! b = None ∧
         heap (model_initialize' a s).2 !! l
           = Some (new_module' (built_config' (self s) a) (device (self s))) ∧
         heap (model_initialize' a s).2 !! b
           = Some (new_module' (built_config' (self s) a) (device (self s))) ∧
         (∀ k, k ≠ l → k ≠ b → heap (model_initialize' a s).2 !! k = heap s !! k) ∧
         heap (mutate l f (model_initialize' a s).2).2 !! b
           = Some (new_module' (built_config' (self s) a) (device (self s))).
Proof.
  destruct (model_initialize_Ok similarity_graph PertNet_Model a s) as [Hne Hinit].
  simpl. rewrite Hinit. simpl. split; [done|]. split; [done|]. split; [done|].
  set (m := new_module' (built_config' (self s) a) (device (self s))).
  set (l := fresh (dom (heap s))). set (b := fresh (dom (<[l := m]> (heap s)))).
  assert (Hl : heap s !! l = None) by apply not_elem_of_dom, is_fresh.
  assert (Hb : heap s !! b = None).
  { pose proof (is_fresh (dom (<[l := m]> (heap s)))) as Hf. fold b in Hf.
    apply not_elem_of_dom in Hf. by rewrite lookup_insert_ne in Hf. }
  exists l, b. repeat split; try done.
  - rewrite lookup_insert_ne by done. apply lookup_insert_eq.
  - apply lookup_insert_eq.
  - intros k ? ?. by rewrite !lookup_insert_ne.
  - rewrite lookup_alter_ne by done. apply lookup_insert_eq.
Qed.

(** X9: after a successful [load_pretrained] every parameter of the
    current model is the tensor that [model.pt] holds under its name
    (after the [module.] rewriting): no parameter keeps its initial value,
    the file names no parameter the model lacks, the model is on the
    device of the instance, and no file was written. *)
Theorem load_pretrained_parameters_from_file (path : string) (s : state batch) :
  is_Ok (load_pretrained' path s).1 = true →
  ∃ l m' sd0 sd,
    model (self (load_pretrained' path s).2) = Some l ∧
    heap (load_pretrained' path s).2 !! l = Some m' ∧
    files (fs s) !! path_join path "model.pt" = Some (TorchSaved sd0) ∧
    normalize_state_dict sd0 = Ok sd ∧
    (∀ k t, (k, t) ∈ state_dict m' → od_get k sd = Some t) ∧
    (∀ k, k ∈ od_keys sd → k ∈ od_keys (state_dict m')) ∧
    on_device m' = device (self s) ∧
    fs (load_pretrained' path s).2 = fs s.
Proof.
  destruct (load_pretrained' path s) as [[[]|e] s'] eqn:Hrun; [intros _|done].
  apply load_pretrained_inv in Hrun
    as (config0 & a & sd0 & sd & _ & _ & _ & _ & Hfile & Hnorm & H).
  destruct H as (Hmatch & Hkeys & Hne & ->). simpl.
  eexists _, _, sd0, sd. split; [reflexivity|]. rewrite lookup_insert_eq.
  split; [reflexivity|]. split; [done|]. split; [done|]. simpl.
  split; [|split; [|done]].
  - intros k t [[k0 t0] [Heq Hin]]%list_elem_of_fmap.
    rewrite forallb_forall in Hmatch.
    apply list_elem_of_In, Hmatch in Hin. revert Heq Hin.
    unfold loaded_entry, entry_matches. simpl.
    destruct (od_get k0 sd) as [t1|] eqn:Hget; [|done].
    intros Heq Hlen. rewrite Hlen in Heq. by injection Heq as -> ->.
  - intros k Hk. rewrite forallb_forall in Hkeys.
    apply list_elem_of_In, Hkeys, bool_decide_eq_true_1 in Hk.
    unfold od_keys in *. rewrite <- list_fmap_compose.
    rewrite (list_fmap_ext (fst ∘ loaded_entry sd) fst (PertNet_Model _)); [done|].
    intros i [k1 t1] _. unfold loaded_entry. simpl.
    destruct (od_get k1 sd); [|done]. by case_bool_decide.
Qed.

(** X10: after a successful [load_pretrained], [best_model] is the
    current model itself and no copy of it (line 135): whatever updates
    the current model in place, a training step for one, updates the
    object [best_model] refers to. *)
Theorem load_pretrained_aliases_best_model (path : string) (s : state batch)
    (f : module → module) :
  is_Ok (load_pretrained' path s).1 = true →
  ∃ l m,
    model (self (load_pretrained' path s).2) = Some l ∧
    best_model (self (load_pretrained' path s).2) = Some l ∧
    heap (load_pretrained' path s).2 !! l = Some m ∧
    best_model (self (mutate l f (load_pretrained' path s).2).2) = Some l ∧
    heap (mutate l f (load_pretrained' path s).2).2 !! l = Some (f m).
Proof.
  destruct (load_pretrained' path s) as [[[]|e] s'] eqn:Hrun; [intros _|done].
  apply load_pretrained_inv in Hrun
    as (config0 & a & sd0 & sd & _ & _ & _ & _ & _ & _ & H).
  destruct H as (_ & _ & _ & ->). simpl.
  eexists _, _. split; [reflexivity|]. split; [reflexivity|].
  rewrite lookup_insert_eq. split; [reflexivity|]. split; [reflexivity|].
  by rewrite lookup_alter_eq, lookup_insert_eq.
Qed.


(** X12: a pickled configuration that lacks ['device'] or ['num_genes']
    makes [load_pretrained] raise [KeyError] for the first of the two that
    is missing (line 119), before anything is initialized: the state is
    unchanged. *)
Theorem load_pretrained_key_missing (path : string) (s : state batch) config0 :
  files (fs s) !! path_join path "config.pkl" = Some (Pickled config0) →
  config0 !! "device" = None ∨ config0 !! "num_genes" = None →
  ∃ k, (k = "device" ∨ k = "num_genes") ∧ config0 !! k = None ∧
       load_pretrained' path s = (Raise (KeyError k), s).
Proof.
  intros Hfile Hmiss.
  unfold load_pretrained, bind, pickle_load, lift, del_key. rewrite Hfile.
  destruct (config0 !! "device") as [vd|] eqn:Hd.
  - destruct Hmiss as [?|Hn]; [done|]. exists "num_genes".
    rewrite lookup_delete_ne, Hn by done. auto.
  - exists "device". auto.
Qed.

(** X13: when [config.pkl] can be used and [model.pt] is missing,
    [load_pretrained] raises [FileNotFoundError] only after line 121: the
    instance is left initialized, with the stripped configuration and two
    distinct new objects holding freshly built (not pretrained)
    parameters. *)
Theorem load_pretrained_missing_weights (path : string) (s : state batch) config0 a :
  files (fs s) !! path_join path "config.pkl" = Some (Pickled config0) →
  is_Some (config0 !! "device") → is_Some (config0 !! "num_genes") →
  bind_kwargs (delete "num_genes" (delete "device" config0)) = Ok a →
  files (fs s) !! path_join path "model.pt" = None →
  (load_pretrained' path s).1 = Raise (FileNotFoundError (path_join path "model.pt")) ∧
  config (self (load_pretrained' path s).2)
    = Some (delete "num_genes" (delete "device" config0)) ∧
  ∃ l b, l ≠ b ∧ model (self (load_pretrained' path s).2) = Some l ∧
         best_model (self (load_pretrained' path s).2) = Some b ∧
         heap (load_pretrained' path s).2 !! l
           = Some (new_module' (built_config' (self s) a) (device (self s))) ∧
         heap (load_pretrained' path s).2 !! b
           = Some (new_module' (built_config' (self s) a) (device (self s))).
Proof.
  intros Hfile [vd Hd] [vn Hn] Hkw Hpt.
  destruct (model_initialize_Ok similarity_graph PertNet_Model a s) as [Hne Hinit].
  unfold load_pretrained, bind, pickle_load, lift, del_key, torch_load, modify.
  rewrite Hfile, Hd. rewrite lookup_delete_ne, Hn, Hkw, Hinit by done. simpl.
  rewrite Hpt. simpl. split; [done|]. split; [done|].
  eexists _, _. split; [exact Hne|]. split; [reflexivity|]. split; [reflexivity|].
  rewrite lookup_insert_ne, !lookup_insert_eq by done. done.
Qed.

(** X14: a pickled configuration with a key that is no parameter of
    [model_initialize] (other than ['device'] and ['num_genes'], which are
    removed first) makes [load_pretrained] fail with the [TypeError] of the
    call at line 120, before anything is initialized: the state is
    unchanged. *)
Theorem load_pretrained_unexpected_key (path : string) (s : state batch) config0 k :
  files (fs s) !! path_join path "config.pkl" = Some (Pickled config0) →
  is_Some (config0 !! "device") → is_Some (config0 !! "num_genes") →
  is_Some (config0 !! k) → k ∉ keyword_names → k ≠ "device" → k ≠ "num_genes" →
  load_pretrained' path s =
    (Raise (TypeError "model_initialize() got an unexpected keyword argument"), s).
Proof.
  intros Hfile [vd Hd] [vn Hn] Hk Hnot Hkd Hkn.
  unfold load_pretrained, bind, pickle_load, lift, del_key. rewrite Hfile, Hd.
  rewrite lookup_delete_ne, Hn by done.
  unfold bind_kwargs. rewrite bool_decide_eq_false_2; [done|].
  intros Hsub. apply Hnot.
  assert (k ∈ dom (delete "num_genes" (delete "device" config0))) as Hin.
  { apply elem_of_dom. by rewrite !lookup_delete_ne. }
  apply Hsub in Hin. by apply elem_of_list_to_set in Hin.
Qed.
End Restore.

(** ** [predict] *)

Section PredictMore.
Context {batch graph : Type}.
Variable create : list string → list cell → list string → string → list graph.
Variable forward forward_logvar : module → list graph → list tensor.
Variable np_mean : list fval → fval.
Variable np_exp : fval → fval.
Abbreviation predict' := (predict (batch := batch) create forward forward_logvar np_mean np_exp).
Abbreviation predict_loop' := (predict_loop (batch := batch) create forward forward_logvar np_mean).
Abbreviation add_result' := (add_result (batch := batch) create forward forward_logvar np_mean).
Abbreviation finish' := (finish np_mean np_exp).

Lemma predict_final_state (pl : list (list string)) (s : state batch) :
  (predict' pl s).2 = checked s ∨
  ∃ l, best_model (self s) = Some l ∧ (predict' pl s).2 = prepared l s.
Proof.
  destruct (predict_failed create forward forward_logvar np_mean np_exp pl s)
    as [[e He]|(c & u & um & l & Hok & Hc & Hu & Ht & Hb)].
  - left. by rewrite He.
  - right. exists l. split; [done|].
    rewrite (predict_valid create forward forward_logvar np_mean np_exp pl s c u um l)
      by done.
    pose proof (predict_loop_state create forward forward_logvar np_mean
                  um pl (∅, ∅) (prepared l s)) as Hs.
    by destruct (predict_loop' _ _ _ _) as [[acc|e] s'].
Qed.

(** X15: whatever its outcome, [predict] writes no file, assigns no
    attribute other than [ctrl_adata] (the control cells of the data),
    creates and removes no object, touches no object other than the best
    model, and changes no parameter, gradient or mode of any object: of
    the best model only the device can change. *)
Theorem predict_keeps_parameters (pl : list (list string)) (s : state batch) :
  fs (predict' pl s).2 = fs s ∧
  self (predict' pl s).2 = set_ctrl_adata (Some (ctrl_cells s)) (self s) ∧
  (∀ k, Some k ≠ best_model (self s) → heap (predict' pl s).2 !! k = heap s !! k) ∧
  (∀ k, state_dict <$> heap (predict' pl s).2 !! k = state_dict <$> heap s !! k ∧
        grad <$> heap (predict' pl s).2 !! k = grad <$> heap s !! k ∧
        training <$> heap (predict' pl s).2 !! k = training <$> heap s !! k ∧
        args <$> heap (predict' pl s).2 !! k = args <$> heap s !! k).
Proof.
  destruct (predict_final_state pl s) as [->|(l & Hl & ->)].
  - done.
  - unfold prepared, checked. simpl. split; [done|]. split; [done|]. split.
    + intros k Hk. apply lookup_alter_ne. congruence.
    + intros k. destruct (decide (k = l)) as [->|Hkl].
      * rewrite lookup_alter_eq. by destruct (heap s !! l).
      * by rewrite lookup_alter_ne.
Qed.

(** X16: on an instance that was never initialized, [predict] with known
    genes (an empty list too) fails at line 159 with the [TypeError] of
    subscripting [None], where [save_model] raises its [ValueError];
    [ctrl_adata] was assigned before. *)
Theorem predict_uninitialized (pl : list (list string)) (s : state batch) :
  config (self s) = None →
  Forall (Forall (λ i, i ∈ gene_list (self s))) pl →
  predict' pl s =
    (Raise (TypeError "'NoneType' object is not subscriptable"), checked s).
Proof.
  intros Hc Hok. unfold predict, bind, get, modify, config_item.
  fold (ctrl_cells s). fold (checked s).
  rewrite check_genes_ok by done. simpl. by rewrite Hc.
Qed.

Lemma predict_loop_empty_dataset unc_mode pre pert post acc (s s0 : state batch) l m :
  ctrl_adata (self s) = Some (ctrl_cells s0) →
  gene_list (self s) = gene_list (self s0) →
  device (self s) = device (self s0) →
  best_model (self s) = Some l →
  heap s !! l = Some m →
  Forall (λ p, create p (ctrl_cells s0) (gene_list (self s0)) (device (self s0)) ≠ [])
         pre →
  create pert (ctrl_cells s0) (gene_list (self s0)) (device (self s0)) = [] →
  predict_loop' unc_mode (pre ++ pert :: post) acc s = (Raise StopIteration, s).
Proof.
  intros Hctrl Hgenes Hdev Hb Hm Hne Hempty. revert acc.
  induction Hne as [|p pre Hp _ IH]; intros acc.
  - simpl. unfold bind, get, attr, lift.
    by rewrite Hctrl, Hgenes, Hdev, DataLoader_first, Hempty.
  - simpl. unfold bind, get, attr, lift, deref.
    rewrite Hctrl, Hgenes, Hdev, DataLoader_first.
    destruct (create p _ _ _) as [|g cg] eqn:Hcg; [done|].
    rewrite Hb, Hm. apply IH.
Qed.

(** X17: when the synthetic data set of a perturbation is empty,
    [next(iter(loader))] has no batch to give: [predict] raises
    [StopIteration] at the first such perturbation and returns no mapping,
    also for the perturbations before it. *)
Theorem predict_empty_dataset (pre post : list (list string)) (pert : list string)
    (s : state batch) c u unc_mode l m :
  Forall (Forall (λ i, i ∈ gene_list (self s))) (pre ++ pert :: post) →
  config (self s) = Some c → c !! "uncertainty" = Some u →
  truthy u = Ok unc_mode →
  best_model (self s) = Some l → heap s !! l = Some m →
  Forall (λ p, create p (ctrl_cells s) (gene_list (self s)) (device (self s)) ≠ [])
         pre →
  create pert (ctrl_cells s) (gene_list (self s)) (device (self s)) = [] →
  predict' (pre ++ pert :: post) s = (Raise StopIteration, prepared l s).
Proof.
  intros Hok Hc Hu Ht Hb Hm Hne Hempty.
  rewrite (predict_valid create forward forward_logvar np_mean np_exp _ s c u unc_mode l)
    by done.
  rewrite (predict_loop_empty_dataset unc_mode pre pert post (∅, ∅) (prepared l s) s l
             (to_device (device (self s)) m)); try done.
  simpl. by rewrite lookup_alter_eq, Hm.
Qed.

Lemma foldl_add_result_union unc_mode (s : state batch) m pl acc :
  (foldl (add_result' unc_mode s m) acc pl).1 =
    (foldl (add_result' unc_mode s m) (∅, ∅) pl).1 ∪ acc.1.
Proof.
  apply map_eq. intros label.
  rewrite lookup_union, !foldl_add_result_lookup. simpl.
  destruct (last (with_label label pl)).
  - by destruct (acc.1 !! label).
  - rewrite lookup_empty. by destruct (acc.1 !! label).
Qed.

Lemma foldl_add_result_union_unc (s : state batch) m pl acc :
  (foldl (add_result' true s m) acc pl).2 =
    (foldl (add_result' true s m) (∅, ∅) pl).2 ∪ acc.2.
Proof.
  apply map_eq. intros label.
  rewrite lookup_union, !foldl_add_result_lookup_unc. simpl.
  destruct (last (with_label label pl)).
  - by destruct (acc.2 !! label).
  - rewrite lookup_empty. by destruct (acc.2 !! label).
Qed.

(** X18: one call on a concatenated list returns what the two calls on
    its parts return, merged: the predictions (and in uncertainty mode
    the scores) of the second part, and those of the first part for the
    labels the second part does not have. The prediction of a
    perturbation does not depend on the other perturbations of the
    list. *)
Theorem predict_concatenation (pl1 pl2 : list (list string)) (s : state batch)
    c u unc_mode l m :
  Forall (Forall (λ i, i ∈ gene_list (self s))) (pl1 ++ pl2) →
  config (self s) = Some c → c !! "uncertainty" = Some u →
  truthy u = Ok unc_mode →
  best_model (self s) = Some l → heap s !! l = Some m →
  Forall (λ p, create p (ctrl_cells s) (gene_list (self s)) (device (self s)) ≠ [])
         (pl1 ++ pl2) →
  ∃ r1 r2 r,
    predict' pl1 s = (Ok r1, prepared l s) ∧
    predict' pl2 s = (Ok r2, prepared l s) ∧
    predict' (pl1 ++ pl2) s = (Ok r, prepared l s) ∧
    results_pred_of r = results_pred_of r2 ∪ results_pred_of r1 ∧
    scores_of r = scores_of r2 ∪ scores_of r1.
Proof.
  intros Hok Hc Hu Ht Hb Hm Hne.
  apply Forall_app in Hok as [Hok1 Hok2]. apply Forall_app in Hne as [Hne1 Hne2].
  eexists _, _, _.
  split; [by apply (predict_Ok create forward forward_logvar np_mean np_exp
                      s pl1 c u unc_mode l m)|].
  split; [by apply (predict_Ok create forward forward_logvar np_mean np_exp
                      s pl2 c u unc_mode l m)|].
  split.
  { apply (predict_Ok create forward forward_logvar np_mean np_exp
             s (pl1 ++ pl2) c u unc_mode l m); try done; by apply Forall_app. }
  rewrite foldl_app. unfold finish. destruct unc_mode; simpl.
  - split; [apply foldl_add_result_union|].
    rewrite foldl_add_result_union_unc. apply map_fmap_union.
  - split; [apply foldl_add_result_union|]. by rewrite (left_id_L ∅ (∪)).
Qed.
End PredictMore.

Section PredictExact.
Context {batch graph : Type}.
Variable create : list string → list cell → list string → string → list graph.
Variable forward forward_logvar : module → list graph → list tensor.
Variable np_exp : fval → fval.

End PredictExact.

(** ** [train] *)

Section TrainFrame.
Context {batch optim eval_res : Type}.
Variable Adam : module → fval → fval → optim.
Variable loss_backward : bool → PertNet batch → module → batch → gmap string tensor.
Variable optimizer_step : optim → module → list (string * tensor) * optim.
Variable scheduler_step : optim → optim.
Variable evaluate : list batch → module → pyval → string → eval_res * module.
Variable compute_metrics : eval_res → gmap string fval.

Abbreviation train' :=
  (train Adam loss_backward optimizer_step scheduler_step evaluate compute_metrics).
Abbreviation epochs_loop' :=
  (epochs_loop loss_backward optimizer_step scheduler_step evaluate compute_metrics).
Abbreviation epoch' :=
  (epoch loss_backward optimizer_step scheduler_step evaluate compute_metrics).

Lemma keeps_refl (s : state batch) : keeps_snapshots s s.
Proof. by repeat split. Qed.

Lemma keeps_trans (s1 s2 s3 : state batch) :
  keeps_snapshots s1 s2 → keeps_snapshots s2 s3 → keeps_snapshots s1 s3.
Proof.
  intros (Hself & Hfs & H12) (Hself' & Hfs' & H23).
  split; [congruence|]. split; [congruence|].
  intros k Hk. destruct (H12 k Hk) as [Hk2 Heq2]. destruct (H23 k Hk2) as [Hk3 Heq3].
  split; [done|]. intros Hne. rewrite Heq3, Heq2; [done..|]. by rewrite Hself.
Qed.

Lemma keeps_for_bind {A B} l (m : M (state batch) A) (f : A → M (state batch) B) :
  keeps_for l m → (∀ a, keeps_for l (f a)) → keeps_for l (bind m f).
Proof.
  intros Hm Hf s Hl. unfold bind. pose proof (Hm s Hl) as H1.
  destruct (m s) as [[a|e] s1]; [|done]. simpl in H1.
  eapply keeps_trans; [exact H1|]. apply Hf. destruct H1 as [-> _]. done.
Qed.

Lemma keeps_for_read {A} l (m : M (state batch) A) :
  (∀ s, (m s).2 = s) → keeps_for l m.
Proof. intros H s _. rewrite H. apply keeps_refl. Qed.

Lemma keeps_for_mutate l (f : module → module) :
  keeps_for (batch := batch) l (mutate l f).
Proof.
  intros s Hl. unfold keeps_snapshots, mutate, modify, upd_heap. simpl.
  split; [done|]. split; [done|].
  intros k Hk. destruct (decide (k = l)) as [->|Hkl].
  - split; [|congruence]. rewrite lookup_alter_eq. by apply fmap_is_Some.
  - rewrite lookup_alter_ne by done. done.
Qed.

Lemma keeps_for_attr_model {A} l (body : nat → M (state batch) A) :
  keeps_for l (body l) → keeps_for l (bind (attr "model" model) body).
Proof. intros H s Hl. unfold bind, attr. rewrite Hl. by apply H. Qed.

Lemma config_item_state k (s : state batch) : (config_item k s).2 = s.
Proof.
  unfold config_item. destruct (config (self s)) as [c|]; [|done]. by destruct (c !! k).
Qed.

Lemma deref_state l (s : state batch) : (deref l s).2 = s.
Proof. unfold deref. by destruct (heap s !! l). Qed.

Lemma metric_state k ms (s : state batch) : (metric k ms s).2 = s.
Proof. unfold metric. by destruct (ms !! k). Qed.

Ltac keeps :=
  repeat first
    [ apply keeps_for_attr_model
    | apply keeps_for_mutate
    | apply keeps_for_read; first [ intros; apply config_item_state
                                  | intros; apply deref_state
                                  | intros; apply metric_state
                                  | done ]
    | apply keeps_for_bind; [|intros ?] ].

Lemma keeps_backward_clipped l (b : batch) :
  keeps_for l (backward_clipped loss_backward b).
Proof. unfold backward_clipped. keeps. Qed.

Lemma keeps_apply_optimizer l (o : optim) :
  keeps_for (batch := batch) l (apply_optimizer optimizer_step o).
Proof. unfold apply_optimizer. keeps. Qed.

Lemma keeps_train_step l (o : optim) (b : batch) :
  keeps_for l (train_step loss_backward optimizer_step o b).
Proof.
  unfold train_step. apply keeps_for_bind; [apply keeps_backward_clipped|].
  intros _. apply keeps_apply_optimizer.
Qed.

Lemma keeps_train_batches l (o : optim) (bs : list batch) :
  keeps_for l (train_batches loss_backward optimizer_step o bs).
Proof.
  revert o. induction bs as [|b bs IH]; intros o; simpl.
  - by apply keeps_for_read.
  - apply keeps_for_bind; [apply keeps_train_step|]. intros o'. apply IH.
Qed.

Lemma keeps_evaluate_model l (loader : list batch) :
  keeps_for l (evaluate_model evaluate loader).
Proof. unfold evaluate_model. keeps. Qed.

Lemma keeps_validation_score l : keeps_for l (validation_score evaluate compute_metrics).
Proof.
  unfold validation_score. apply keeps_for_bind; [by apply keeps_for_read|]. intros s0.
  apply keeps_for_bind; [apply keeps_evaluate_model|]. intros r1.
  apply keeps_for_bind; [apply keeps_evaluate_model|]. intros r2. keeps.
Qed.

Lemma keeps_train_one_epoch l (loc : locals) :
  keeps_for l (train_one_epoch loss_backward optimizer_step scheduler_step loc).
Proof.
  unfold train_one_epoch. apply keeps_for_bind; [by apply keeps_for_read|]. intros s0.
  apply keeps_for_attr_model.
  apply keeps_for_bind; [apply keeps_for_mutate|]. intros _.
  apply keeps_for_bind; [apply keeps_train_batches|]. intros o.
  by apply keeps_for_read.
Qed.

Lemma keeps_promote_if_better l (v : fval) (loc : locals (optim := optim)) :
  keeps_for (batch := batch) l (promote_if_better v loc).
Proof.
  intros s Hl. unfold promote_if_better.
  destruct (flt v (min_val loc)); [|apply keeps_refl].
  unfold bind, attr, deepcopy, bind, deref, alloc, ret. rewrite Hl.
  destruct (heap s !! l) as [m|]; [|apply keeps_refl].
  cbn [snd]. unfold upd_heap. split; [done|]. split; [done|].
  intros k Hk. cbn [heap].
  assert (k ≠ fresh (dom (heap s))) as Hne.
  { intros ->. apply (is_fresh (dom (heap s))). by apply elem_of_dom. }
  rewrite lookup_insert_ne by done. done.
Qed.

Lemma keeps_epoch l (loc : locals) : keeps_for l (epoch' loc).
Proof.
  unfold epoch. apply keeps_for_bind; [apply keeps_train_one_epoch|]. intros loc1.
  apply keeps_for_bind; [apply keeps_validation_score|]. intros v.
  apply keeps_promote_if_better.
Qed.

Lemma keeps_epochs_loop l (n : nat) (loc : locals) : keeps_for l (epochs_loop' n loc).
Proof.
  revert loc. induction n as [|n IH]; intros loc; simpl.
  - by apply keeps_for_read.
  - apply keeps_for_bind; [apply keeps_epoch|]. intros loc'. apply IH.
Qed.


Lemma keeps_dom (s s' : state batch) k :
  keeps_snapshots s s' → is_Some (heap s !! k) → is_Some (heap s' !! k).
Proof. intros (_ & _ & H) Hk. by destruct (H k Hk). Qed.

Lemma keeps_absent (s s' : state batch) k :
  keeps_snapshots s s' → heap s' !! k = None → heap s !! k = None.
Proof.
  intros Hk Hnone. destruct (heap s !! k) as [m|] eqn:Hm; [|done].
  destruct (keeps_dom s s' k Hk) as [m' Hm']; [by eexists|]. congruence.
Qed.

(** The snapshot held by the loop is an object made during the loop. *)
Lemma epoch_best_fresh (s0 : state batch) l (loc loc' : locals) (s s' : state batch) :
  model (self s) = Some l → keeps_snapshots s0 s →
  (∀ b, best loc = Some b → heap s0 !! b = None ∧ is_Some (heap s !! b)) →
  epoch' loc s = (Ok loc', s') →
  ∀ b, best loc' = Some b → heap s0 !! b = None ∧ is_Some (heap s' !! b).
Proof.
  intros Hl H0 Hinv Hepoch.
  pose proof (keeps_epoch l loc s Hl) as Hstep. rewrite Hepoch in Hstep. simpl in Hstep.
  destruct (epoch_inv _ _ _ _ _ _ _ _ _ Hepoch) as (loc1 & s1 & v & s2 & Ht & Hv & Hp).
  pose proof (keeps_train_one_epoch l loc s Hl) as H1. rewrite Ht in H1. simpl in H1.
  assert (model (self s1) = Some l) as Hl1 by (destruct H1 as [-> _]; done).
  pose proof (keeps_validation_score l s1 Hl1) as H2. rewrite Hv in H2. simpl in H2.
  apply train_one_epoch_locals in Ht as [_ Hbest].
  apply promote_if_better_min in Hp.
  destruct (flt v (min_val loc1)).
  - destruct Hp as (_ & l' & m & _ & _ & Hfresh & Hb & ->).
    intros b Hb'. rewrite Hb in Hb'. injection Hb' as <-. split.
    + eapply keeps_absent; [exact H0|]. eapply keeps_absent; [exact H1|].
      eapply keeps_absent; [exact H2|]. exact Hfresh.
    + simpl. rewrite lookup_insert_eq. by eexists.
  - destruct Hp as [-> ->]. intros b Hb. rewrite Hbest in Hb.
    destruct (Hinv b Hb) as [Hnone Hsome]. split; [done|].
    eapply keeps_dom; [exact H2|]. eapply keeps_dom; [exact H1|]. done.
Qed.

Lemma epochs_loop_best_fresh (s0 : state batch) l (n : nat) :
  ∀ (loc loc' : locals) (s s' : state batch),
  model (self s) = Some l → keeps_snapshots s0 s →
  (∀ b, best loc = Some b → heap s0 !! b = None ∧ is_Some (heap s !! b)) →
  epochs_loop' n loc s = (Ok loc', s') →
  ∀ b, best loc' = Some b → heap s0 !! b = None ∧ is_Some (heap s' !! b).
Proof.
  induction n as [|n IH]; intros loc loc' s s' Hl H0 Hinv.
  - intros [= <- <-]. done.
  - simpl. unfold bind. destruct (epoch' loc s) as [[loc1|e] s1] eqn:He; [|done].
    pose proof (keeps_epoch l loc s Hl) as Hstep. rewrite He in Hstep. simpl in Hstep.
    apply IH.
    + destruct Hstep as [-> _]. done.
    + by eapply keeps_trans.
    + by eapply epoch_best_fresh.
Qed.

(** The state after line 200. *)
Lemma train_inv (n : nat) (lr wd : fval) (s : state batch) l m :
  model (self s) = Some l → heap s !! l = Some m →
  train' n lr wd s =
    let s1 := upd_heap (alter (to_device (device (self s))) l) s in
    let loc0 := {| optimizer := Adam (to_device (device (self s)) m) lr wd;
                   min_val := FPosInf; best := None |} in
    match epochs_loop' n loc0 s1 with
    | (Raise e, s2) => (Raise e, s2)
    | (Ok loc, s2) =>
        match best loc with
        | None => (Raise (UnboundLocalError "best_model"), s2)
        | Some b =>
            bind (deref b) (λ mb,
              bind (config_item "uncertainty") (λ u,
                mutate b (λ _, (evaluate (pd_test_loader (data (self s))) mb u
                                  (device (self s))).2)))
              (upd_self (set_best_model (Some b)) s2)
        end
    end.
Proof.
  intros Hl Hm. unfold train. unfold bind at 1, attr. rewrite Hl.
  unfold bind at 1, get. unfold bind at 1, mutate at 1, modify at 1.
  unfold bind at 1, deref at 1. simpl. rewrite lookup_alter_eq, Hm. simpl.
  unfold bind at 1.
  destruct (epochs_loop' _ _ _) as [[loc|e] s2]; [|done].
  destruct (best loc) as [b|]; [|done]. done.
Qed.

Lemma set_best_model_same (me : PertNet batch) : set_best_model (best_model me) me = me.
Proof. by destruct me. Qed.

Lemma train_uninitialized_state (n : nat) (lr wd : fval) (s : state batch) l :
  model (self s) = Some l → heap s !! l = None →
  train' n lr wd s =
    (Raise (RuntimeError "dangling reference"),
     upd_heap (alter (to_device (device (self s))) l) s).
Proof.
  intros Hl Hm. unfold train. unfold bind at 1, attr. rewrite Hl.
  unfold bind at 1, get. unfold bind at 1, mutate at 1, modify at 1.
  unfold bind at 1, deref at 1. simpl. by rewrite lookup_alter_eq, Hm.
Qed.

(** What the three last statements of the embedded part do to the
    state. *)
Lemma train_tail_state (b : nat) (mb : module) (loader : list batch) (dev : string)
    (s2 : state batch) :
  heap s2 !! b = Some mb →
  ∃ r s3,
    bind (deref b) (λ mb,
      bind (config_item "uncertainty") (λ u,
        mutate b (λ _, (evaluate loader mb u dev).2)))
      (upd_self (set_best_model (Some b)) s2) = (r, s3) ∧
    self s3 = set_best_model (Some b) (self s2) ∧ fs s3 = fs s2 ∧
    is_Some (heap s3 !! b) ∧
    ∀ k, k ≠ b → heap s3 !! k = heap s2 !! k.
Proof.
  intros Hb. unfold bind, deref. simpl. rewrite Hb.
  unfold config_item. simpl.
  destruct (config (self s2)) as [c|]; [|by eexists _, _].
  destruct (c !! "uncertainty") as [u|]; [|by eexists _, _].
  unfold mutate, modify. eexists _, _. split; [done|]. simpl.
  split; [done|]. split; [done|]. split.
  - rewrite lookup_alter_eq, Hb. by eexists.
  - intros k Hk. by rewrite lookup_alter_ne.
Qed.

(** X20: whatever its outcome, [train] (up to the evaluation on the test
    loader, line 274) writes no file, assigns no attribute other than
    [best_model], and leaves every object other than the current model
    as it was: the snapshots taken before the call are not modified. *)
Theorem train_keeps_other_objects (n : nat) (lr wd : fval) (s : state batch) :
  fs (train' n lr wd s).2 = fs s ∧
  (∃ bm, self (train' n lr wd s).2 = set_best_model bm (self s)) ∧
  ∀ k m, Some k ≠ model (self s) → heap s !! k = Some m →
         heap (train' n lr wd s).2 !! k = Some m.
Proof.
  destruct (model (self s)) as [l|] eqn:Hl.
  2:{ assert (train' n lr wd s = (Raise (AttributeError "model"), s)) as ->.
      { unfold train, bind, attr. by rewrite Hl. }
      simpl. split; [done|]. split; [|done].
      exists (best_model (self s)). by rewrite set_best_model_same. }
  destruct (heap s !! l) as [m0|] eqn:Hm.
  2:{ rewrite (train_uninitialized_state n lr wd s l Hl Hm). simpl.
      split; [done|]. split.
      - exists (best_model (self s)). by rewrite set_best_model_same.
      - intros k m Hk Hkm. rewrite lookup_alter_ne by congruence. done. }
  rewrite (train_inv n lr wd s l m0 Hl Hm). cbv zeta.
  set (s1 := upd_heap (alter (to_device (device (self s))) l) s).
  set (loc0 := {| optimizer := _; min_val := FPosInf; best := None |}).
  assert (keeps_snapshots s s1) as H01.
  { apply (keeps_for_mutate l (to_device (device (self s))) s Hl). }
  assert (model (self s1) = Some l) as Hl1 by done.
  pose proof (keeps_epochs_loop l n loc0 s1 Hl1) as H12.
  destruct (epochs_loop' n loc0 s1) as [[loc|e] s2] eqn:Hrun; simpl in H12.
  2:{ pose proof (keeps_trans _ _ _ H01 H12) as (Hself & Hfs & Hobj). simpl.
      split; [done|]. split.
      - exists (best_model (self s)). by rewrite Hself, set_best_model_same.
      - intros k m Hk Hkm. destruct (Hobj k) as [_ Heq]; [by eexists|].
        rewrite Heq, Hkm; [done|]. by rewrite Hl. }
  assert (Hfresh : ∀ b, best loc = Some b →
                        heap s1 !! b = None ∧ is_Some (heap s2 !! b)).
  { by apply (epochs_loop_best_fresh s1 l n loc0 loc s1 s2 Hl1 (keeps_refl s1)). }
  pose proof (keeps_trans _ _ _ H01 H12) as H02.
  destruct (best loc) as [b|] eqn:Hb.
  2:{ destruct H02 as (Hself & Hfs & Hobj). simpl.
      split; [done|]. split.
      - exists (best_model (self s)). by rewrite Hself, set_best_model_same.
      - intros k m Hk Hkm. destruct (Hobj k) as [_ Heq]; [by eexists|].
        rewrite Heq, Hkm; [done|]. by rewrite Hl. }
  destruct (Hfresh b eq_refl) as [Hnone [mb Hmb]].
  destruct (train_tail_state b mb (pd_test_loader (data (self s))) (device (self s))
              s2 Hmb) as (r & s3 & -> & Hself3 & Hfs3 & _ & Hother).
  destruct H02 as (Hself & Hfs & Hobj). simpl.
  split; [congruence|]. split.
  - exists (Some b). by rewrite Hself3, Hself.
  - intros k m Hk Hkm. destruct (Hobj k) as [_ Heq]; [by eexists|].
    rewrite Hother.
    + rewrite Heq, Hkm; [done|]. by rewrite Hl.
    + intros ->. apply (keeps_absent s s1 b H01) in Hnone. congruence.
Qed.

(** X21: a call of [train] that returns has run at least one epoch, and
    [best_model] is then bound to an object that did not exist before the
    call: the snapshot is never the current model itself, nor the best
    model of an earlier call. *)
Theorem train_best_model_is_new (n : nat) (lr wd : fval) (s : state batch) :
  is_Ok (train' n lr wd s).1 = true →
  ∃ l b mb,
    model (self s) = Some l ∧
    self (train' n lr wd s).2 = set_best_model (Some b) (self s) ∧
    b ≠ l ∧ heap s !! b = None ∧ heap (train' n lr wd s).2 !! b = Some mb ∧
    n ≠ 0.
Proof.
  destruct (model (self s)) as [l|] eqn:Hl.
  2:{ assert (train' n lr wd s = (Raise (AttributeError "model"), s)) as ->; [|done].
      unfold train, bind, attr. by rewrite Hl. }
  destruct (heap s !! l) as [m0|] eqn:Hm.
  2:{ by rewrite (train_uninitialized_state n lr wd s l Hl Hm). }
  rewrite (train_inv n lr wd s l m0 Hl Hm). cbv zeta.
  set (s1 := upd_heap (alter (to_device (device (self s))) l) s).
  set (loc0 := {| optimizer := _; min_val := FPosInf; best := None |}).
  assert (keeps_snapshots s s1) as H01.
  { apply (keeps_for_mutate l (to_device (device (self s))) s Hl). }
  assert (model (self s1) = Some l) as Hl1 by done.
  pose proof (keeps_epochs_loop l n loc0 s1 Hl1) as H12.
  destruct (epochs_loop' n loc0 s1) as [[loc|e] s2] eqn:Hrun; simpl in H12; [|done].
  assert (Hfresh : ∀ b, best loc = Some b →
                        heap s1 !! b = None ∧ is_Some (heap s2 !! b)).
  { by apply (epochs_loop_best_fresh s1 l n loc0 loc s1 s2 Hl1 (keeps_refl s1)). }
  destruct (best loc) as [b|] eqn:Hb; [|done].
  destruct (Hfresh b eq_refl) as [Hnone [mb Hmb]].
  destruct (train_tail_state b mb (pd_test_loader (data (self s))) (device (self s))
              s2 Hmb) as (r & s3 & -> & Hself3 & Hfs3 & [mb3 Hmb3] & Hother).
  simpl. intros _. exists l, b, mb3.
  destruct (keeps_trans _ _ _ H01 H12) as (Hself & _ & _).
  split; [done|]. split; [by rewrite Hself3, Hself|].
  apply (keeps_absent s s1 b H01) in Hnone.
  split; [congruence|]. split; [done|]. split; [done|].
  intros ->. simpl in Hrun. injection Hrun as <- <-. done.
Qed.

Lemma validation_score_metric (s s' : state batch) (v : fval) :
  validation_score evaluate compute_metrics s = (Ok v, s') →
  ∃ r, compute_metrics r !! "mse_de" = Some v.
Proof.
  unfold validation_score. unfold bind at 1, get.
  unfold bind at 1. destruct (evaluate_model _ _ _) as [[r1|e] s1]; [|done].
  unfold bind at 1. destruct (evaluate_model _ _ _) as [[r2|e] s2]; [|done].
  unfold bind, metric, ret, raise.
  destruct (compute_metrics r1 !! "mse"); [|done].
  destruct (compute_metrics r2 !! "mse"); [|done].
  destruct (compute_metrics r1 !! "mse_de"); [|done].
  destruct (compute_metrics r2 !! "mse_de") as [v'|] eqn:Hv; [|done].
  intros [= <- <-]. by exists r2.
Qed.

Lemma epochs_loop_no_promotion (n : nat) :
  (n = 0 ∨ ∀ r v, compute_metrics r !! "mse_de" = Some v → flt v FPosInf = false) →
  ∀ (loc loc' : locals) (s s' : state batch),
    min_val loc = FPosInf → best loc = None →
    epochs_loop' n loc s = (Ok loc', s') → best loc' = None.
Proof.
  intros Hn. induction n as [|n IH]; intros loc loc' s s' Hmin Hbest.
  - by intros [= <- <-].
  - destruct Hn as [Hn|Hbad]; [done|]. simpl. unfold bind.
    destruct (epoch' loc s) as [[loc1|e] s1] eqn:He; [|done].
    destruct (epoch_inv _ _ _ _ _ _ _ _ _ He) as (loc2 & s2 & v & s3 & Ht & Hv & Hp).
    apply train_one_epoch_locals in Ht as [Hmin2 Hbest2].
    apply validation_score_metric in Hv as [r Hr].
    apply promote_if_better_min in Hp.
    rewrite Hmin2, Hmin, (Hbad r v Hr) in Hp. destruct Hp as [-> ->].
    apply IH; [by right|congruence|congruence].
Qed.

(** X22: when no epoch improves on the initial [min_val = inf] (no epoch is
    run, or every validation [mse_de] is NaN or positive infinity), the local
    variable [best_model] is never bound: [train] cannot return, and when
    the loop over epochs completes, line 271 raises [UnboundLocalError].
    [self.best_model] keeps its earlier value. *)
Theorem train_without_improvement (n : nat) (lr wd : fval) (s : state batch) l m :
  model (self s) = Some l → heap s !! l = Some m →
  (n = 0 ∨ ∀ r v, compute_metrics r !! "mse_de" = Some v → flt v FPosInf = false) →
  is_Ok (train' n lr wd s).1 = false ∧
  self (train' n lr wd s).2 = self s ∧
  (is_Ok (epochs_loop' n
            {| optimizer := Adam (to_device (device (self s)) m) lr wd;
               min_val := FPosInf; best := None |}
            (upd_heap (alter (to_device (device (self s))) l) s)).1 = true →
   (train' n lr wd s).1 = Raise (UnboundLocalError "best_model")).
Proof.
  intros Hl Hm Hn. rewrite (train_inv n lr wd s l m Hl Hm). cbv zeta.
  set (s1 := upd_heap (alter (to_device (device (self s))) l) s).
  set (loc0 := {| optimizer := _; min_val := FPosInf; best := None |}).
  assert (model (self s1) = Some l) as Hl1 by done.
  pose proof (keeps_epochs_loop l n loc0 s1 Hl1) as (Hself & _ & _).
  pose proof (epochs_loop_no_promotion n Hn loc0) as Hnone.
  destruct (epochs_loop' n loc0 s1) as [[loc|e] s2] eqn:Hrun; simpl in Hself.
  - rewrite (Hnone loc s1 s2) by done. done.
  - done.
Qed.
End TrainFrame.

(** ** From [model_initialize] to [save_model] to [load_pretrained] *)

Section RoundTrip.
Context {batch : Type}.
Variable similarity_graph : string → pyval → pyval → pert_data batch → tensor * tensor.
Variable PertNet_Model : gmap string pyval → list (string * tensor).

Abbreviation model_initialize' := (model_initialize similarity_graph PertNet_Model).
Abbreviation load_pretrained' := (load_pretrained similarity_graph PertNet_Model).
Abbreviation built_config' := (built_config similarity_graph).

End RoundTrip.

Section SaveUninitialized.
Context {batch : Type}.

End SaveUninitialized.

(** ** [train]: the subgroup analysis *)

Section Subgroups.
Import SubgroupAnalysis.
Variable np_mean : list fval → fval.

Abbreviation tabn F names ms := (tab (λ n, tab (F n) ms) names).

Lemma od_get_tab {V} (f : string → V) (keys : list string) (k : string) :
  k ∈ keys → od_get k (tab f keys) = Some (f k).
Proof.
  induction keys as [|k' keys IH]; intros Hk; [by apply elem_of_nil in Hk|].
  simpl. destruct (String.eqb_spec k k') as [->|Hne]; [done|].
  apply IH. apply elem_of_cons in Hk as [?|?]; done.
Qed.

Lemma od_set_tab {V} (f : string → V) (keys : list string) (k : string) (v : V) :
  NoDup keys → k ∈ keys →
  od_set k v (tab f keys) = tab (λ x, if decide (x = k) then v else f x) keys.
Proof.
  induction keys as [|k' keys IH]; intros Hnd Hk; [by apply elem_of_nil in Hk|].
  apply NoDup_cons in Hnd as [Hk' Hnd]. simpl.
  destruct (String.eqb_spec k k') as [->|Hne].
  - rewrite decide_True by done. f_equal.
    apply list_fmap_ext. intros i x Hx. rewrite decide_False; [done|].
    intros ->. apply Hk'. by eapply list_elem_of_lookup_2.
  - rewrite decide_False by done. f_equal.
    apply IH; [done|]. apply elem_of_cons in Hk as [?|?]; done.
Qed.

Lemma tab_ext {V} (f g : string → V) (keys : list string) :
  (∀ k, k ∈ keys → f k = g k) → tab f keys = tab g keys.
Proof.
  intros H. apply list_fmap_ext. intros i k Hk. f_equal. apply H.
  by eapply list_elem_of_lookup_2.
Qed.

Lemma empty_lists_app (d : list (string * list fval)) (ms : list string) :
  NoDup (od_keys d ++ ms) → empty_lists d ms = (d ++ tab (λ _, []) ms)%list.
Proof.
  revert d. induction ms as [|m ms IH]; intros d Hnd; simpl.
  - by rewrite app_nil_r.
  - apply NoDup_app in Hnd as (Hd & Hdisj & Hms).
    apply NoDup_cons in Hms as [Hm Hms].
    unfold empty_lists in *. simpl. rewrite od_set_new.
    2:{ intros Hin. apply (Hdisj _ Hin). by left. }
    rewrite IH.
    + by rewrite <- app_assoc.
    + unfold od_keys. rewrite fmap_app. simpl. rewrite <- app_assoc. simpl.
      apply NoDup_app. split; [done|]. split.
      * intros x Hx. apply Hdisj in Hx. exact Hx.
      * by constructor.
Qed.

Lemma init_lists_app (names ms : list string)
    (res : list (string * list (string * fval)))
    (sa : list (string * list (string * list fval))) :
  first_metrics res = inr ms → NoDup ms → NoDup (od_keys sa ++ names) →
  init_lists names res sa = inr (sa ++ tabn (λ _ _, []) names ms)%list.
Proof.
  intros Hms Hndm. revert sa. induction names as [|name names IH]; intros sa Hnd; simpl.
  - by rewrite app_nil_r.
  - rewrite Hms.
    apply NoDup_app in Hnd as (Hsa & Hdisj & Hnames).
    apply NoDup_cons in Hnames as [Hname Hnames].
    rewrite od_set_new.
    2:{ intros Hin. apply (Hdisj _ Hin). by left. }
    rewrite IH.
    + rewrite <- app_assoc. simpl. rewrite empty_lists_app by done. done.
    + unfold od_keys. rewrite fmap_app. simpl. rewrite <- app_assoc. simpl.
      apply NoDup_app. split; [done|]. split.
      * intros x Hx. apply Hdisj in Hx. exact Hx.
      * by constructor.
Qed.

Lemma append_to_tab (F : string → string → list fval) (names ms : list string)
    (name m : string) (v : fval) :
  NoDup names → NoDup ms → name ∈ names → m ∈ ms →
  append_to name m (inr v) (tabn F names ms) =
    inr (tabn (λ n x, if decide (n = name)
                      then if decide (x = m) then (F n x ++ [v])%list else F n x
                      else F n x) names ms).
Proof.
  intros Hnd Hndm Hname Hm. unfold append_to.
  rewrite od_get_tab by done. rewrite od_get_tab by done.
  rewrite od_set_tab by done. rewrite od_set_tab by done.
  f_equal. apply tab_ext. intros n Hn. destruct (decide (n = name)) as [->|Hne]; [|done].
  apply tab_ext. intros x Hx. by destruct (decide (x = m)) as [->|].
Qed.

Lemma append_items_tab (names ms : list string) (name : string)
    (d : list (string * fval)) :
  NoDup names → NoDup ms → name ∈ names →
  NoDup (od_keys d) → od_keys d ⊆ ms →
  ∀ F, ∃ F',
    append_items name d (tabn F names ms) = inr (tabn F' names ms) ∧
    ∀ n x, F' n x =
      if decide (n = name)
      then (F n x ++ match od_get x d with Some v => [v] | None => [] end)%list
      else F n x.
Proof.
  intros Hnd Hndm Hname. induction d as [|[m v] d IH]; intros Hd Hsub F.
  - exists F. split; [done|]. intros n x. simpl.
    destruct (decide (n = name)); [by rewrite app_nil_r|done].
  - unfold od_keys in Hd, Hsub. simpl in Hd, Hsub.
    apply NoDup_cons in Hd as [Hm Hd].
    assert (m ∈ ms) as Hin by (apply Hsub; by left).
    simpl. rewrite append_to_tab by done.
    destruct (IH Hd) with
      (F := λ n x, if decide (n = name)
                   then if decide (x = m) then (F n x ++ [v])%list else F n x
                   else F n x) as (F' & -> & HF').
    { intros x Hx. apply Hsub. by right. }
    exists F'. split; [done|]. intros n x. rewrite HF'.
    destruct (decide (n = name)) as [->|]; [|done].
    destruct (String.eqb_spec x m) as [->|Hne].
    + rewrite decide_True by done.
      assert (od_get m d = None) as ->; [|by rewrite app_nil_r].
      destruct (od_get m d) as [v'|] eqn:Hget; [|done].
      exfalso. apply Hm. clear -Hget. induction d as [|[k w] d IH]; [done|].
      simpl in *. destruct (String.eqb_spec m k) as [->|]; [by left|right; by apply IH].
    + by rewrite decide_False.
Qed.

Lemma reported_cons (res : list (string * list (string * fval))) (m pert : string)
    (perts : list string) :
  reported res m (pert :: perts) =
    (match od_get pert res ≫= od_get m with Some v => [v] | None => [] end
     ++ reported res m perts)%list.
Proof. done. Qed.

Lemma collect_perts_tab (names ms : list string) (name : string)
    (res : list (string * list (string * fval))) (perts : list string) :
  NoDup names → NoDup ms → name ∈ names →
  (∀ pert, pert ∈ perts →
     ∃ d, od_get pert res = Some d ∧ NoDup (od_keys d) ∧ od_keys d ⊆ ms) →
  ∀ F, ∃ F',
    collect_perts name perts res (tabn F names ms) = inr (tabn F' names ms) ∧
    ∀ n x, F' n x =
      if decide (n = name) then (F n x ++ reported res x perts)%list else F n x.
Proof.
  intros Hnd Hndm Hname. induction perts as [|pert perts IH]; intros Hres F.
  - exists F. split; [done|]. intros n x. unfold reported. simpl.
    destruct (decide (n = name)); [by rewrite app_nil_r|done].
  - destruct (Hres pert) as (d & Hd & Hndd & Hsub); [by left|].
    cbn [collect_perts]. rewrite Hd.
    destruct (append_items_tab names ms name d Hnd Hndm Hname Hndd Hsub F)
      as (F1 & -> & HF1).
    destruct (IH (λ p Hp, Hres p (list_elem_of_further _ _ _ Hp)) F1) as (F' & -> & HF').
    exists F'. split; [done|]. intros n x. rewrite HF', HF1, reported_cons, Hd. simpl.
    destruct (decide (n = name)); [by rewrite app_assoc|done].
Qed.

Lemma collect_tab (names ms : list string)
    (res : list (string * list (string * fval)))
    (subgroups : list (string * list string)) :
  NoDup names → NoDup ms → NoDup (od_keys subgroups) → od_keys subgroups ⊆ names →
  (∀ name perts pert, (name, perts) ∈ subgroups → pert ∈ perts →
     ∃ d, od_get pert res = Some d ∧ NoDup (od_keys d) ∧ od_keys d ⊆ ms) →
  ∀ F, ∃ F',
    collect subgroups res (tabn F names ms) = inr (tabn F' names ms) ∧
    ∀ n x, F' n x =
      (F n x ++ match od_get n subgroups with
                | Some perts => reported res x perts
                | None => []
                end)%list.
Proof.
  intros Hnd Hndm. induction subgroups as [|[name perts] subgroups IH];
    intros Hnds Hsub Hres F.
  - exists F. split; [done|]. intros n x. by rewrite app_nil_r.
  - unfold od_keys in Hnds, Hsub. simpl in Hnds, Hsub.
    apply NoDup_cons in Hnds as [Hname Hnds].
    simpl.
    destruct (collect_perts_tab names ms name res perts Hnd Hndm) with (F := F)
      as (F1 & -> & HF1).
    { apply Hsub. by left. }
    { intros pert Hp. apply (Hres name perts); [by left|done]. }
    destruct (IH Hnds) with (F := F1) as (F' & -> & HF').
    { intros x Hx. apply Hsub. by right. }
    { intros n ps p Hin Hp. apply (Hres n ps); [by right|done]. }
    exists F'. split; [done|]. intros n x. rewrite HF', HF1.
    destruct (String.eqb_spec n name) as [->|Hne].
    + rewrite decide_True by done.
      assert (od_get name subgroups = None) as ->; [|by rewrite app_nil_r].
      destruct (od_get name subgroups) as [v'|] eqn:Hget; [|done].
      exfalso. apply Hname. clear -Hget.
      induction subgroups as [|[k w] d IH]; [done|].
      simpl in *. destruct (String.eqb_spec name k) as [->|]; [by left|right; by apply IH].
    + by rewrite decide_False.
Qed.

(** X25: the first subgroup analysis (lines 302 to 319). When every
    perturbation of every test subgroup has an entry in [test_pert_res]
    whose metrics are among those of its first entry, the analysis has one
    row per subgroup and one value per metric of the first entry: the mean
    of that metric over the perturbations of the subgroup that report it. A
    perturbation that lacks a metric is skipped without an error, so the
    means of a subgroup can be taken over different perturbations. *)
Theorem subgroup_means_value (test_subgroup : list (string * list string))
    (test_pert_res : list (string * list (string * fval))) (ms : list string) :
  first_metrics test_pert_res = inr ms → NoDup ms →
  NoDup (od_keys test_subgroup) →
  Forall (λ np : string * list string,
            Forall (λ pert, ∃ d, od_get pert test_pert_res = Some d ∧
                                 NoDup (od_keys d) ∧ od_keys d ⊆ ms) np.2)
         test_subgroup →
  subgroup_means np_mean test_subgroup test_pert_res =
    inr ((λ np : string * list string,
            (np.1, (λ m, (m, np_mean (reported test_pert_res m np.2))) <$> ms))
         <$> test_subgroup).
Proof.
  intros Hms Hndm Hnd Hall. unfold subgroup_means.
  assert (Hres : ∀ name perts pert, (name, perts) ∈ test_subgroup → pert ∈ perts →
            ∃ d, od_get pert test_pert_res = Some d ∧ NoDup (od_keys d) ∧
                 od_keys d ⊆ ms).
  { intros name perts pert Hin Hp. rewrite Forall_forall in Hall.
    specialize (Hall _ Hin). rewrite Forall_forall in Hall. by apply Hall. }
  rewrite (init_lists_app _ ms) by done. simpl.
  destruct (collect_tab (od_keys test_subgroup) ms test_pert_res test_subgroup)
    with (F := λ _ _ : string, @nil fval) as (F' & -> & HF'); try done.
  f_equal. unfold means, tab, od_keys. rewrite <- !list_fmap_compose.
  apply list_fmap_ext. intros i [name perts] Hi. simpl. f_equal.
  rewrite <- list_fmap_compose. apply list_fmap_ext. intros j m _. simpl.
  rewrite HF'. simpl. by rewrite (od_get_lookup test_subgroup i name perts).
Qed.

Lemma collect_perts_inr (name : string) (perts : list string)
    (res : list (string * list (string * fval)))
    (sa sa' : list (string * list (string * list fval))) :
  collect_perts name perts res sa = inr sa' →
  ∀ pert, pert ∈ perts → is_Some (od_get pert res).
Proof.
  revert sa. induction perts as [|p perts IH]; intros sa Hrun pert Hin.
  - by apply elem_of_nil in Hin.
  - simpl in Hrun. destruct (od_get p res) as [d|] eqn:Hd; [|done].
    destruct (append_items name d sa) as [e|sa1]; [done|].
    apply elem_of_cons in Hin as [->|Hin]; [by eexists|by eapply IH].
Qed.

Lemma collect_inr (subgroups : list (string * list string))
    (res : list (string * list (string * fval)))
    (sa sa' : list (string * list (string * list fval))) :
  collect subgroups res sa = inr sa' →
  ∀ name perts pert, (name, perts) ∈ subgroups → pert ∈ perts →
                     is_Some (od_get pert res).
Proof.
  revert sa. induction subgroups as [|[n ps] subgroups IH];
    intros sa Hrun name perts pert Hin Hp.
  - by apply elem_of_nil in Hin.
  - simpl in Hrun.
    destruct (collect_perts n ps res sa) as [e|sa1] eqn:Hfirst; [done|].
    apply elem_of_cons in Hin as [[= -> ->]|Hin].
    + by eapply collect_perts_inr.
    + by eapply IH.
Qed.

Lemma subgroup_means_needs_results (test_subgroup : list (string * list string))
    (test_pert_res : list (string * list (string * fval)))
    (r : list (string * list (string * fval))) :
  subgroup_means np_mean test_subgroup test_pert_res = inr r →
  ∀ name perts pert, (name, perts) ∈ test_subgroup → pert ∈ perts →
                     is_Some (od_get pert test_pert_res).
Proof.
  unfold subgroup_means.
  destruct (init_lists _ _ _) as [e|sa]; [done|].
  destruct (collect _ _ _) as [e|sa'] eqn:Hrun; [done|].
  intros _. by eapply collect_inr.
Qed.

Lemma item_Some (pert m : string) (out : list (string * list (string * fval))) :
  item pert m out = match od_get pert out ≫= od_get m with
                    | Some v => inr v
                    | None => match od_get pert out with
                              | None => inl (KeyError pert)
                              | Some _ => inl (KeyError m)
                              end
                    end.
Proof.
  unfold item. destruct (od_get pert out) as [d|]; simpl; [|done].
  by destruct (od_get m d).
Qed.

Lemma append_to_inr (name m : string) (v : error + fval)
    (sa sa' : list (string * list (string * list fval))) :
  append_to name m v sa = inr sa' → ∃ res, v = inr res.
Proof.
  unfold append_to. destruct (od_get name sa) as [d|]; [|done].
  destruct (od_get m d); [|done]. destruct v as [e|res]; [done|]. by exists res.
Qed.

Lemma append_metrics_inr (name pert : string) (ms : list string)
    (out : list (string * list (string * fval)))
    (sa sa' : list (string * list (string * list fval))) :
  append_metrics name pert ms out sa = inr sa' →
  ∀ m, m ∈ ms → is_Some (od_get pert out ≫= od_get m).
Proof.
  revert sa. induction ms as [|m0 ms IH]; intros sa Hrun m Hin.
  - by apply elem_of_nil in Hin.
  - simpl in Hrun.
    destruct (append_to name m0 (item pert m0 out) sa) as [e|sa1] eqn:Hfirst; [done|].
    apply elem_of_cons in Hin as [->|Hin]; [|by eapply IH].
    apply append_to_inr in Hfirst as [res Hres]. rewrite item_Some in Hres.
    destruct (od_get pert out ≫= od_get m0); [by eexists|].
    by destruct (od_get pert out).
Qed.

Lemma collect_perts_deeper_inr (name : string) (perts : list string)
    (out out_non_dropout : list (string * list (string * fval)))
    (sa sa' : list (string * list (string * list fval))) :
  collect_perts_deeper name perts out out_non_dropout sa = inr sa' →
  ∀ pert, pert ∈ perts →
    (∀ m, m ∈ metrics → is_Some (od_get pert out ≫= od_get m)) ∧
    (∀ m, m ∈ metrics_non_dropout →
          is_Some (od_get pert out_non_dropout ≫= od_get m)).
Proof.
  revert sa. induction perts as [|p perts IH]; intros sa Hrun pert Hin.
  - by apply elem_of_nil in Hin.
  - cbn [collect_perts_deeper] in Hrun.
    destruct (append_metrics name p metrics out sa) as [e|sa1] eqn:H1; [done|].
    destruct (append_metrics name p metrics_non_dropout out_non_dropout sa1)
      as [e|sa2] eqn:H2; [done|].
    apply elem_of_cons in Hin as [->|Hin]; [|by eapply IH].
    split; [by eapply append_metrics_inr|by eapply append_metrics_inr].
Qed.

Lemma subgroup_means_deeper_needs_metrics
    (test_subgroup : list (string * list string))
    (out out_non_dropout : list (string * list (string * fval)))
    (r : list (string * list (string * fval))) :
  subgroup_means_deeper np_mean test_subgroup out out_non_dropout = inr r →
  ∀ name perts pert, (name, perts) ∈ test_subgroup → pert ∈ perts →
    (∀ m, m ∈ metrics → is_Some (od_get pert out ≫= od_get m)) ∧
    (∀ m, m ∈ metrics_non_dropout →
          is_Some (od_get pert out_non_dropout ≫= od_get m)).
Proof.
  unfold subgroup_means_deeper.
  generalize (init_lists_deeper (od_keys test_subgroup)).
  intros sa. destruct (collect_deeper _ _ _ _) as [e|sa'] eqn:Hrun; [done|]. intros _.
  revert sa Hrun. induction test_subgroup as [|[n ps] subgroups IH];
    intros sa Hrun name perts pert Hin Hp.
  - by apply elem_of_nil in Hin.
  - cbn [collect_deeper] in Hrun.
    destruct (collect_perts_deeper n ps out out_non_dropout sa) as [e|sa1] eqn:Hfirst;
      [done|].
    apply elem_of_cons in Hin as [[= -> ->]|Hin].
    + by eapply collect_perts_deeper_inr.
    + by eapply IH.
Qed.

(** X26: when the subgroup analysis raises. For a split other than
    ['simulation'] nothing is computed. For the simulation split with at
    least one test subgroup, an empty [test_pert_res] is an [IndexError]
    (line 305); and the analysis cannot complete unless every perturbation
    of every test subgroup has an entry in [test_pert_res] ([KeyError] at
    line 310), ['pearson_delta'] in [out] and the three non-dropout metrics
    in [out_non_dropout] ([KeyError] at lines 334 and 337): the second
    analysis is strict about missing metrics where the first one is
    not. *)
Theorem subgroup_analysis_raises_unless (split : string)
    (test_subgroup : list (string * list string))
    (test_pert_res out out_non_dropout : list (string * list (string * fval))) :
  (split ≠ "simulation" →
   subgroup_analysis np_mean split test_subgroup test_pert_res out out_non_dropout
     = inr None) ∧
  (split = "simulation" → test_subgroup ≠ [] → test_pert_res = [] →
   subgroup_analysis np_mean split test_subgroup test_pert_res out out_non_dropout
     = inl IndexError) ∧
  (∀ r, subgroup_analysis np_mean split test_subgroup test_pert_res out out_non_dropout
          = inr (Some r) →
        split = "simulation" ∧
        ∀ name perts pert, (name, perts) ∈ test_subgroup → pert ∈ perts →
          is_Some (od_get pert test_pert_res) ∧
          (∀ m, m ∈ metrics → is_Some (od_get pert out ≫= od_get m)) ∧
          (∀ m, m ∈ metrics_non_dropout →
                is_Some (od_get pert out_non_dropout ≫= od_get m))).
Proof.
  unfold subgroup_analysis. split; [|split].
  - intros Hne. by destruct (String.eqb_spec split "simulation").
  - intros -> Hne ->. simpl. by destruct test_subgroup as [|[name perts] rest].
  - intros r. destruct (String.eqb_spec split "simulation") as [->|]; [|done].
    destruct (subgroup_means _ _ _) as [e|r1] eqn:H1; [done|].
    destruct (subgroup_means_deeper _ _ _ _) as [e|r2] eqn:H2; [done|].
    intros _. split; [done|]. intros name perts pert Hin Hp.
    split; [by eapply subgroup_means_needs_results|].
    by eapply subgroup_means_deeper_needs_metrics.
Qed.

Lemma od_get_not_in {V} (k : string) (d : list (string * V)) :
  k ∉ od_keys d → od_get k d = None.
Proof.
  induction d as [|[k' v] d IH]; intros Hk; [done|].
  unfold od_keys in Hk. simpl in *. apply not_elem_of_cons in Hk as [Hne Hk].
  destruct (String.eqb_spec k k'); [done|]. by apply IH.
Qed.

Lemma init_lists_deeper_tab (names : list string) :
  NoDup names →
  init_lists_deeper names = tabn (λ _ _, []) names (metrics ++ metrics_non_dropout).
Proof.
  intros Hnd. unfold init_lists_deeper.
  assert (∀ sa, NoDup (od_keys sa ++ names) →
    foldl (λ sa name,
             od_set name (empty_lists (empty_lists [] metrics) metrics_non_dropout) sa)
          sa names
    = (sa ++ tabn (λ _ _, []) names (metrics ++ metrics_non_dropout))%list) as H.
  { clear Hnd. induction names as [|name names IH]; intros sa Hnd; simpl.
    - by rewrite app_nil_r.
    - apply NoDup_app in Hnd as (Hsa & Hdisj & Hnames).
      apply NoDup_cons in Hnames as [Hname Hnames].
      rewrite od_set_new.
      2:{ intros Hin. apply (Hdisj _ Hin). by left. }
      rewrite IH.
      + by rewrite <- app_assoc.
      + unfold od_keys. rewrite fmap_app. simpl. rewrite <- app_assoc. simpl.
        apply NoDup_app. split; [done|]. split.
        * intros x Hx. apply Hdisj in Hx. exact Hx.
        * by constructor. }
  by rewrite H.
Qed.

Lemma append_metrics_tab (names ms : list string) (name pert : string)
    (ms' : list string) (out : list (string * list (string * fval))) :
  NoDup names → NoDup ms → name ∈ names → NoDup ms' → ms' ⊆ ms →
  (∀ m, m ∈ ms' → is_Some (od_get pert out ≫= od_get m)) →
  ∀ F, ∃ F',
    append_metrics name pert ms' out (tabn F names ms) = inr (tabn F' names ms) ∧
    ∀ n x, F' n x =
      if decide (n = name)
      then (F n x ++ if decide (x ∈ ms')
                     then match od_get pert out ≫= od_get x with
                          | Some v => [v]
                          | None => []
                          end
                     else [])%list
      else F n x.
Proof.
  intros Hnd Hndm Hname. induction ms' as [|m ms' IH]; intros Hnd' Hsub Hall F.
  - exists F. split; [done|]. intros n x.
    destruct (decide (n = name)); [|done].
    rewrite decide_False by apply not_elem_of_nil. by rewrite app_nil_r.
  - apply NoDup_cons in Hnd' as [Hm Hnd'].
    destruct (Hall m) as [v Hv]; [by left|].
    cbn [append_metrics]. rewrite item_Some, Hv.
    rewrite append_to_tab; [|done|done|done|apply Hsub; by left].
    destruct (IH Hnd') with
      (F := λ n x, if decide (n = name)
                   then if decide (x = m) then (F n x ++ [v])%list else F n x
                   else F n x) as (F' & -> & HF').
    { intros x Hx. apply Hsub. by right. }
    { intros x Hx. apply Hall. by right. }
    exists F'. split; [done|]. intros n x. rewrite HF'.
    destruct (decide (n = name)) as [->|]; [|done].
    destruct (decide (x = m)) as [->|Hne].
    + rewrite (decide_False (P := m ∈ ms')) by done.
      rewrite (decide_True (P := m ∈ m :: ms')) by (by left).
      by rewrite Hv, app_nil_r.
    + destruct (decide (x ∈ ms')) as [Hin|Hout].
      * by rewrite (decide_True (P := x ∈ m :: ms')) by (by right).
      * rewrite (decide_False (P := x ∈ m :: ms')); [done|].
        by intros [?|?]%elem_of_cons.
Qed.

Lemma collect_perts_deeper_tab (names : list string) (name : string)
    (out out_non_dropout : list (string * list (string * fval)))
    (perts : list string) :
  NoDup names → name ∈ names →
  (∀ pert, pert ∈ perts →
     (∀ m, m ∈ metrics → is_Some (od_get pert out ≫= od_get m)) ∧
     (∀ m, m ∈ metrics_non_dropout →
           is_Some (od_get pert out_non_dropout ≫= od_get m))) →
  ∀ F, ∃ F',
    collect_perts_deeper name perts out out_non_dropout
      (tabn F names (metrics ++ metrics_non_dropout))
      = inr (tabn F' names (metrics ++ metrics_non_dropout)) ∧
    ∀ n x, F' n x =
      if decide (n = name)
      then (F n x ++ if decide (x ∈ metrics) then reported out x perts
                     else if decide (x ∈ metrics_non_dropout)
                          then reported out_non_dropout x perts
                          else [])%list
      else F n x.
Proof.
  intros Hnd Hname.
  assert (Hndm : NoDup (metrics ++ metrics_non_dropout)) by compute_done.
  induction perts as [|pert perts IH]; intros Hall F.
  - exists F. split; [done|]. intros n x. unfold reported. simpl.
    destruct (decide (n = name)); [|done].
    destruct (decide (x ∈ metrics)); [by rewrite app_nil_r|].
    destruct (decide (x ∈ metrics_non_dropout)); by rewrite app_nil_r.
  - destruct (Hall pert) as [H1 H2]; [by left|].
    cbn [collect_perts_deeper].
    destruct (append_metrics_tab names (metrics ++ metrics_non_dropout) name pert
                metrics out Hnd Hndm Hname) with (F := F) as (F1 & -> & HF1);
      [compute_done|by intros x Hx; apply elem_of_app; left|done|].
    destruct (append_metrics_tab names (metrics ++ metrics_non_dropout) name pert
                metrics_non_dropout out_non_dropout Hnd Hndm Hname) with (F := F1)
      as (F2 & -> & HF2);
      [compute_done|by intros x Hx; apply elem_of_app; right|done|].
    destruct (IH (λ p Hp, Hall p (list_elem_of_further _ _ _ Hp)) F2) as (F' & -> & HF').
    exists F'. split; [done|]. intros n x. rewrite HF', HF2, HF1, !reported_cons.
    destruct (decide (n = name)); [|done].
    destruct (decide (x ∈ metrics)) as [Hx|Hx].
    + rewrite decide_False.
      2:{ apply list_elem_of_singleton in Hx as ->. compute_done. }
      by rewrite app_nil_r, app_assoc.
    + rewrite app_nil_r.
      destruct (decide (x ∈ metrics_non_dropout)); [by rewrite app_assoc|].
      by rewrite !app_nil_r.
Qed.

Lemma collect_deeper_tab (names : list string)
    (out out_non_dropout : list (string * list (string * fval)))
    (subgroups : list (string * list string)) :
  NoDup names → NoDup (od_keys subgroups) → od_keys subgroups ⊆ names →
  (∀ name perts pert, (name, perts) ∈ subgroups → pert ∈ perts →
     (∀ m, m ∈ metrics → is_Some (od_get pert out ≫= od_get m)) ∧
     (∀ m, m ∈ metrics_non_dropout →
           is_Some (od_get pert out_non_dropout ≫= od_get m))) →
  ∀ F, ∃ F',
    collect_deeper subgroups out out_non_dropout
      (tabn F names (metrics ++ metrics_non_dropout))
      = inr (tabn F' names (metrics ++ metrics_non_dropout)) ∧
    ∀ n x, F' n x =
      (F n x ++ match od_get n subgroups with
                | Some perts =>
                    if decide (x ∈ metrics) then reported out x perts
                    else if decide (x ∈ metrics_non_dropout)
                         then reported out_non_dropout x perts
                         else []
                | None => []
                end)%list.
Proof.
  intros Hnd. induction subgroups as [|[name perts] subgroups IH];
    intros Hnds Hsub Hall F.
  - exists F. split; [done|]. intros n x. by rewrite app_nil_r.
  - unfold od_keys in Hnds, Hsub. simpl in Hnds, Hsub.
    apply NoDup_cons in Hnds as [Hname Hnds].
    cbn [collect_deeper].
    destruct (collect_perts_deeper_tab names name out out_non_dropout perts Hnd)
      with (F := F) as (F1 & -> & HF1).
    { apply Hsub. by left. }
    { intros pert Hp. apply (Hall name perts); [by left|done]. }
    destruct (IH Hnds) with (F := F1) as (F' & -> & HF').
    { intros x Hx. apply Hsub. by right. }
    { intros n ps p Hin Hp. apply (Hall n ps); [by right|done]. }
    exists F'. split; [done|]. intros n x. rewrite HF', HF1. simpl.
    destruct (String.eqb_spec n name) as [->|Hne].
    + rewrite decide_True by done.
      rewrite (od_get_not_in name subgroups) by done. by rewrite app_nil_r.
    + by rewrite decide_False.
Qed.

(** X27: when every perturbation of every test subgroup has
    ['pearson_delta'] in [out] and the three non-dropout metrics in
    [out_non_dropout], the second subgroup analysis (lines 322 to 345) has
    one row per subgroup with these four metrics in this order, each the
    mean over all the perturbations of the subgroup. *)
Theorem subgroup_means_deeper_value (test_subgroup : list (string * list string))
    (out out_non_dropout : list (string * list (string * fval))) :
  NoDup (od_keys test_subgroup) →
  Forall (λ np : string * list string,
            Forall (λ pert,
                      Forall (λ m, is_Some (od_get pert out ≫= od_get m)) metrics ∧
                      Forall (λ m, is_Some (od_get pert out_non_dropout ≫= od_get m))
                             metrics_non_dropout) np.2)
         test_subgroup →
  subgroup_means_deeper np_mean test_subgroup out out_non_dropout =
    inr ((λ np : string * list string,
            (np.1,
             ((λ m, (m, np_mean (reported out m np.2))) <$> metrics)
             ++ ((λ m, (m, np_mean (reported out_non_dropout m np.2)))
                   <$> metrics_non_dropout))%list)
         <$> test_subgroup).
Proof.
  intros Hnd Hforall. unfold subgroup_means_deeper.
  assert (Hall : ∀ name perts pert, (name, perts) ∈ test_subgroup → pert ∈ perts →
            (∀ m, m ∈ metrics → is_Some (od_get pert out ≫= od_get m)) ∧
            (∀ m, m ∈ metrics_non_dropout →
                  is_Some (od_get pert out_non_dropout ≫= od_get m))).
  { intros name perts pert Hin Hp. rewrite Forall_forall in Hforall.
    specialize (Hforall _ Hin). rewrite Forall_forall in Hforall.
    destruct (Hforall _ Hp) as [H1 H2]. rewrite Forall_forall in H1, H2. done. }
  rewrite init_lists_deeper_tab by done.
  destruct (collect_deeper_tab (od_keys test_subgroup) out out_non_dropout test_subgroup)
    with (F := λ _ _ : string, @nil fval) as (F' & -> & HF'); try done.
  f_equal. unfold means, tab, od_keys. rewrite <- !list_fmap_compose.
  apply list_fmap_ext. intros i [name perts] Hi. simpl. f_equal.
  rewrite !HF', (od_get_lookup test_subgroup i name perts) by done. simpl.
  repeat f_equal.
Qed.
End Subgroups.

(** ** The properties on the stand-ins *)

Lemma model_initialize_given_graphs_witness :
  G_coexpress Scenarios.given_graphs ≠ VNone ∧ G_go Scenarios.given_graphs ≠ VNone ∧
  built_config Toy.similarity_graph (self Toy.start) Scenarios.given_graphs
    = initial_config (self Toy.start) Scenarios.given_graphs ∧
  built_config Scenarios.other_similarity_graph (self Toy.start) Scenarios.given_graphs
    = built_config Toy.similarity_graph (self Toy.start) Scenarios.given_graphs.
Proof.
  assert (Hco : G_coexpress Scenarios.given_graphs ≠ VNone) by discriminate.
  assert (Hgo : G_go Scenarios.given_graphs ≠ VNone) by discriminate.
  split; [exact Hco|]. split; [exact Hgo|].
  exact (model_initialize_given_graphs Toy.similarity_graph
           Scenarios.other_similarity_graph (self Toy.start) Scenarios.given_graphs
           Hco Hgo).
Defined.


Lemma save_model_twice_witness :
  config (self Toy.initialized) = Some Scenarios.toy_config ∧
  best_model (self Toy.initialized) = Some 1 ∧
  heap Toy.initialized !! 1 = Some Scenarios.toy_module ∧
  save_model "out" (save_model "out" Toy.initialized).2 = save_model "out" Toy.initialized.
Proof.
  assert (Hc : config (self Toy.initialized) = Some Scenarios.toy_config) by reflexivity.
  assert (Hb : best_model (self Toy.initialized) = Some 1) by reflexivity.
  assert (Hm : heap Toy.initialized !! 1 = Some Scenarios.toy_module) by reflexivity.
  split; [exact Hc|]. split; [exact Hb|]. split; [exact Hm|].
  exact (save_model_twice "out" Toy.initialized Scenarios.toy_config 1
           Scenarios.toy_module Hc Hb Hm).
Defined.

Lemma normalize_strips_every_name_witness :
  NoDup (str_drop 7 <$> od_keys Scenarios.wrapped_state_dict) ∧
  normalize_state_dict Scenarios.wrapped_state_dict
    = Ok [("w", [FFin 3]); ("b", [FFin 1])].
Proof.
  assert (Hnd : NoDup (str_drop 7 <$> od_keys Scenarios.wrapped_state_dict))
    by compute_done.
  split; [exact Hnd|].
  exact (normalize_strips_every_name "module.w" [FFin 3] [("module.b", [FFin 1])]
           (λ _, Hnd)).
Defined.

Lemma normalize_data_parallel_witness :
  [("w", [FFin 3]); ("b", [FFin 1])] ≠ [] ∧
  NoDup (od_keys [("w", [FFin 3]); ("b", [FFin 1])]) ∧
  data_parallel [("w", [FFin 3]); ("b", [FFin 1])] = Scenarios.wrapped_state_dict ∧
  normalize_state_dict (data_parallel [("w", [FFin 3]); ("b", [FFin 1])])
    = Ok [("w", [FFin 3]); ("b", [FFin 1])].
Proof.
  assert (Hne : [("w", [FFin 3]); ("b", [FFin 1])] ≠ @nil (string * tensor))
    by discriminate.
  assert (Hnd : NoDup (od_keys [("w", [FFin 3]); ("b", [FFin 1])])) by compute_done.
  split; [exact Hne|]. split; [exact Hnd|]. split; [reflexivity|].
  exact (normalize_data_parallel [("w", [FFin 3]); ("b", [FFin 1])] Hne Hnd).
Defined.

Lemma load_pretrained_parameters_from_file_witness :
  is_Ok (load_pretrained Toy.similarity_graph Toy.PertNet_Model "out"
           (Toy.fresh_instance "cuda" Toy.saved)).1 = true ∧
  ∃ l m' sd0 sd,
    model (self (load_pretrained Toy.similarity_graph Toy.PertNet_Model "out"
                   (Toy.fresh_instance "cuda" Toy.saved)).2) = Some l ∧
    heap (load_pretrained Toy.similarity_graph Toy.PertNet_Model "out"
            (Toy.fresh_instance "cuda" Toy.saved)).2 !! l = Some m' ∧
    files (fs (Toy.fresh_instance "cuda" Toy.saved)) !! path_join "out" "model.pt"
      = Some (TorchSaved sd0) ∧
    normalize_state_dict sd0 = Ok sd ∧
    (∀ k t, (k, t) ∈ state_dict m' → od_get k sd = Some t) ∧
    (∀ k, k ∈ od_keys sd → k ∈ od_keys (state_dict m')) ∧
    on_device m' = device (self (Toy.fresh_instance "cuda" Toy.saved)) ∧
    fs (load_pretrained Toy.similarity_graph Toy.PertNet_Model "out"
          (Toy.fresh_instance "cuda" Toy.saved)).2
      = fs (Toy.fresh_instance "cuda" Toy.saved).
Proof.
  assert (H : is_Ok (load_pretrained Toy.similarity_graph Toy.PertNet_Model "out"
                       (Toy.fresh_instance "cuda" Toy.saved)).1 = true)
    by (vm_compute; reflexivity).
  split; [exact H|].
  exact (load_pretrained_parameters_from_file Toy.similarity_graph Toy.PertNet_Model
           "out" (Toy.fresh_instance "cuda" Toy.saved) H).
Defined.

Lemma load_pretrained_aliases_best_model_witness :
  is_Ok (load_pretrained Toy.similarity_graph Toy.PertNet_Model "out"
           (Toy.fresh_instance "cuda" Toy.saved)).1 = true ∧
  ∃ l m,
    model (self (load_pretrained Toy.similarity_graph Toy.PertNet_Model "out"
                   (Toy.fresh_instance "cuda" Toy.saved)).2) = Some l ∧
    best_model (self (load_pretrained Toy.similarity_graph Toy.PertNet_Model "out"
                        (Toy.fresh_instance "cuda" Toy.saved)).2) = Some l ∧
    heap (load_pretrained Toy.similarity_graph Toy.PertNet_Model "out"
            (Toy.fresh_instance "cuda" Toy.saved)).2 !! l = Some m ∧
    best_model (self (mutate l (set_training false)
                        (load_pretrained Toy.similarity_graph Toy.PertNet_Model "out"
                           (Toy.fresh_instance "cuda" Toy.saved)).2).2) = Some l ∧
    heap (mutate l (set_training false)
            (load_pretrained Toy.similarity_graph Toy.PertNet_Model "out"
               (Toy.fresh_instance "cuda" Toy.saved)).2).2 !! l
      = Some (set_training false m).
Proof.
  assert (H : is_Ok (load_pretrained Toy.similarity_graph Toy.PertNet_Model "out"
                       (Toy.fresh_instance "cuda" Toy.saved)).1 = true)
    by (vm_compute; reflexivity).
  split; [exact H|].
  exact (load_pretrained_aliases_best_model Toy.similarity_graph Toy.PertNet_Model
           "out" (Toy.fresh_instance "cuda" Toy.saved) (set_training false) H).
Defined.


Lemma load_pretrained_key_missing_witness :
  files (fs Scenarios.config_without_num_genes) !! path_join "out" "config.pkl"
    = Some (Pickled (delete "num_genes" Scenarios.toy_config)) ∧
  (delete "num_genes" Scenarios.toy_config !! "device" = None ∨
   delete "num_genes" Scenarios.toy_config !! "num_genes" = None) ∧
  ∃ k, (k = "device" ∨ k = "num_genes") ∧
       delete "num_genes" Scenarios.toy_config !! k = None ∧
       load_pretrained Toy.similarity_graph Toy.PertNet_Model "out"
         Scenarios.config_without_num_genes
         = (Raise (KeyError k), Scenarios.config_without_num_genes).
Proof.
  assert (Hfile : files (fs Scenarios.config_without_num_genes)
                    !! path_join "out" "config.pkl"
                  = Some (Pickled (delete "num_genes" Scenarios.toy_config)))
    by reflexivity.
  assert (Hd : delete "num_genes" Scenarios.toy_config !! "device" = None ∨
               delete "num_genes" Scenarios.toy_config !! "num_genes" = None)
    by (right; reflexivity).
  split; [exact Hfile|]. split; [exact Hd|].
  exact (load_pretrained_key_missing Toy.similarity_graph Toy.PertNet_Model
           "out" Scenarios.config_without_num_genes
           (delete "num_genes" Scenarios.toy_config) Hfile Hd).
Defined.

Lemma load_pretrained_missing_weights_witness :
  files (fs Scenarios.config_only) !! path_join "out" "config.pkl"
    = Some (Pickled Scenarios.toy_config) ∧
  files (fs Scenarios.config_only) !! path_join "out" "model.pt" = None ∧
  (Toy.load "out" Scenarios.config_only).1 = Raise (FileNotFoundError "out/model.pt") ∧
  ∃ l b, l ≠ b ∧ model (self (Toy.load "out" Scenarios.config_only).2) = Some l ∧
         best_model (self (Toy.load "out" Scenarios.config_only).2) = Some b.
Proof.
  assert (Hfile : files (fs Scenarios.config_only) !! path_join "out" "config.pkl"
                  = Some (Pickled Scenarios.toy_config)) by reflexivity.
  assert (Hpt : files (fs Scenarios.config_only) !! path_join "out" "model.pt" = None)
    by reflexivity.
  assert (Hd : is_Some (Scenarios.toy_config !! "device")) by (by eexists).
  assert (Hn : is_Some (Scenarios.toy_config !! "num_genes")) by (by eexists).
  split; [exact Hfile|]. split; [exact Hpt|].
  destruct (load_pretrained_missing_weights Toy.similarity_graph Toy.PertNet_Model
              "out" Scenarios.config_only Scenarios.toy_config
              (filled Toy.similarity_graph (self Toy.start) default_args)
              Hfile Hd Hn eq_refl Hpt)
    as (Hraise & _ & l & b & Hne & Hl & Hb & _).
  split; [exact Hraise|]. exists l, b. split; [exact Hne|]. split; [exact Hl|exact Hb].
Defined.

Lemma predict_uninitialized_witness :
  config (self Toy.start) = None ∧
  Forall (Forall (λ i, i ∈ gene_list (self Toy.start))) [["A"]; ["A"; "B"]] ∧
  predict Toy.cell_graphs Toy.forward Toy.forward_logvar Exact.mean Toy.exp3
    [["A"]; ["A"; "B"]] Toy.start
  = (Raise (TypeError "'NoneType' object is not subscriptable"), checked Toy.start).
Proof.
  assert (Hc : config (self Toy.start) = None) by reflexivity.
  assert (Hg : Forall (Forall (λ i, i ∈ gene_list (self Toy.start)))
                 [["A"]; ["A"; "B"]]) by (repeat constructor; compute_done).
  split; [exact Hc|]. split; [exact Hg|].
  exact (predict_uninitialized Toy.cell_graphs Toy.forward Toy.forward_logvar
           Exact.mean Toy.exp3 [["A"]; ["A"; "B"]] Toy.start Hc Hg).
Defined.

Lemma predict_empty_dataset_witness :
  Scenarios.graphs_but_B ["B"] (ctrl_cells Toy.initialized)
    (gene_list (self Toy.initialized)) (device (self Toy.initialized)) = [] ∧
  predict Scenarios.graphs_but_B Toy.forward Toy.forward_logvar Exact.mean Toy.exp3
    ([["A"]] ++ ["B"] :: [["C"]]) Toy.initialized
  = (Raise StopIteration, prepared 1 Toy.initialized).
Proof.
  assert (Hg : Forall (Forall (λ i, i ∈ gene_list (self Toy.initialized)))
                 ([["A"]] ++ ["B"] :: [["C"]])) by (repeat constructor; compute_done).
  assert (Hne : Forall (λ p, Scenarios.graphs_but_B p (ctrl_cells Toy.initialized)
                               (gene_list (self Toy.initialized))
                               (device (self Toy.initialized)) ≠ []) [["A"]])
    by (repeat constructor; vm_compute; discriminate).
  assert (He : Scenarios.graphs_but_B ["B"] (ctrl_cells Toy.initialized)
                 (gene_list (self Toy.initialized)) (device (self Toy.initialized)) = [])
    by reflexivity.
  split; [exact He|].
  exact (predict_empty_dataset Scenarios.graphs_but_B Toy.forward Toy.forward_logvar
           Exact.mean Toy.exp3 [["A"]] [["C"]] ["B"] Toy.initialized
           Scenarios.toy_config (VBool false) false 1 Scenarios.toy_module
           Hg eq_refl eq_refl eq_refl eq_refl eq_refl Hne He).
Defined.

Lemma predict_concatenation_witness :
  ∃ r1 r2 r,
    predict Toy.cell_graphs Toy.forward Toy.forward_logvar Exact.mean Toy.exp3
      [["A"]; ["B"]] Toy.initialized = (Ok r1, prepared 1 Toy.initialized) ∧
    predict Toy.cell_graphs Toy.forward Toy.forward_logvar Exact.mean Toy.exp3
      [["A"; "B"]; ["A"]] Toy.initialized = (Ok r2, prepared 1 Toy.initialized) ∧
    predict Toy.cell_graphs Toy.forward Toy.forward_logvar Exact.mean Toy.exp3
      ([["A"]; ["B"]] ++ [["A"; "B"]; ["A"]]) Toy.initialized
      = (Ok r, prepared 1 Toy.initialized) ∧
    results_pred_of r = results_pred_of r2 ∪ results_pred_of r1 ∧
    scores_of r = scores_of r2 ∪ scores_of r1.
Proof.
  assert (Hg : Forall (Forall (λ i, i ∈ gene_list (self Toy.initialized)))
                 ([["A"]; ["B"]] ++ [["A"; "B"]; ["A"]]))
    by (repeat constructor; compute_done).
  assert (Hne : Forall (λ p, Toy.cell_graphs p (ctrl_cells Toy.initialized)
                               (gene_list (self Toy.initialized))
                               (device (self Toy.initialized)) ≠ [])
                  ([["A"]; ["B"]] ++ [["A"; "B"]; ["A"]]))
    by (repeat constructor; vm_compute; discriminate).
  exact (predict_concatenation Toy.cell_graphs Toy.forward Toy.forward_logvar
           Exact.mean Toy.exp3 [["A"]; ["B"]] [["A"; "B"]; ["A"]] Toy.initialized
           Scenarios.toy_config (VBool false) false 1 Scenarios.toy_module
           Hg eq_refl eq_refl eq_refl eq_refl eq_refl Hne).
Defined.


Lemma train_best_model_is_new_witness :
  is_Ok (Scenarios.train 2 Toy.initialized).1 = true ∧
  ∃ l b mb,
    model (self Toy.initialized) = Some l ∧
    self (Scenarios.train 2 Toy.initialized).2
      = set_best_model (Some b) (self Toy.initialized) ∧
    b ≠ l ∧ heap Toy.initialized !! b = None ∧
    heap (Scenarios.train 2 Toy.initialized).2 !! b = Some mb ∧
    2 ≠ 0.
Proof.
  assert (H : is_Ok (Scenarios.train 2 Toy.initialized).1 = true)
    by (vm_compute; reflexivity).
  split; [exact H|].
  exact (train_best_model_is_new Toy.Adam Toy.loss_backward Toy.optimizer_step
           Toy.scheduler_step Toy.evaluate Toy.compute_metrics
           2 (FFin (1 # 1000)) (FFin (5 # 10000)) Toy.initialized H).
Defined.

Lemma train_without_improvement_witness :
  (∀ r v, Scenarios.nan_metrics r !! "mse_de" = Some v → flt v FPosInf = false) ∧
  is_Ok (Scenarios.train_nan 2 Toy.initialized).1 = false ∧
  self (Scenarios.train_nan 2 Toy.initialized).2 = self Toy.initialized ∧
  (Scenarios.train_nan 2 Toy.initialized).1 = Raise (UnboundLocalError "best_model").
Proof.
  assert (Hnan : ∀ (r : tensor) v,
            Scenarios.nan_metrics r !! "mse_de" = Some v → flt v FPosInf = false).
  { intros r v Hv. vm_compute in Hv. injection Hv as <-. reflexivity. }
  split; [exact Hnan|].
  destruct (train_without_improvement Toy.Adam Toy.loss_backward Toy.optimizer_step
              Toy.scheduler_step Toy.evaluate Scenarios.nan_metrics
              2 (FFin (1 # 1000)) (FFin (5 # 10000)) Toy.initialized
              0 Scenarios.toy_module eq_refl eq_refl (or_intror Hnan))
    as (Hfail & Hself & Hraise).
  split; [exact Hfail|]. split; [exact Hself|].
  apply Hraise. vm_compute. reflexivity.
Defined.



Lemma subgroup_means_value_witness :
  SubgroupAnalysis.subgroup_means Exact.mean Scenarios.test_subgroup
    Scenarios.test_pert_res
  = inr [("combo_seen0", [("mse", FFin 1); ("pearson", FFin 0)]);
         ("unseen_single", [("mse", FFin 4); ("pearson", FFin 1)])].
Proof.
  rewrite (subgroup_means_value Exact.mean Scenarios.test_subgroup
             Scenarios.test_pert_res ["mse"; "pearson"]).
  - vm_compute. reflexivity.
  - reflexivity.
  - compute_done.
  - compute_done.
  - repeat constructor; eexists; (split; [reflexivity|split; compute_done]).
Defined.

Lemma subgroup_means_deeper_value_witness :
  SubgroupAnalysis.subgroup_means_deeper Exact.mean Scenarios.test_subgroup
    Scenarios.out Scenarios.out_non_dropout
  = inr [("combo_seen0", [("pearson_delta", FFin 1);
                           ("frac_opposite_direction_top20_non_dropout", FFin 0);
                           ("frac_sigma_below_1_non_dropout", FFin 1);
                           ("mse_top20_de_non_dropout", FFin 2)]);
         ("unseen_single", [("pearson_delta", FFin (1 # 2));
                             ("frac_opposite_direction_top20_non_dropout", FFin (1 # 2));
                             ("frac_sigma_below_1_non_dropout", FFin (1 # 2));
                             ("mse_top20_de_non_dropout", FFin 3)])].
Proof.
  rewrite (subgroup_means_deeper_value Exact.mean Scenarios.test_subgroup
             Scenarios.out Scenarios.out_non_dropout).
  - vm_compute. reflexivity.
  - compute_done.
  - repeat constructor; by eexists.
Defined.

Lemma load_pretrained_unexpected_key_witness :
  files (fs Scenarios.config_with_old_key) !! path_join "out" "config.pkl"
    = Some (Pickled (<["num_layers" := VInt 2]> Scenarios.toy_config)) ∧
  ("num_layers" ∉ keyword_names) ∧
  load_pretrained Toy.similarity_graph Toy.PertNet_Model "out"
    Scenarios.config_with_old_key
  = (Raise (TypeError "model_initialize() got an unexpected keyword argument"),
     Scenarios.config_with_old_key).
Proof.
  assert (Hfile : files (fs Scenarios.config_with_old_key) !! path_join "out" "config.pkl"
                  = Some (Pickled (<["num_layers" := VInt 2]> Scenarios.toy_config)))
    by reflexivity.
  assert (Hnot : "num_layers" ∉ keyword_names) by compute_done.
  split; [exact Hfile|]. split; [exact Hnot|].
  apply (load_pretrained_unexpected_key Toy.similarity_graph Toy.PertNet_Model
           "out" Scenarios.config_with_old_key
           (<["num_layers" := VInt 2]> Scenarios.toy_config) "num_layers" Hfile).
  - by eexists.
  - by eexists.
  - by eexists.
  - exact Hnot.
  - discriminate.
  - discriminate.
Defined.
End Coverage.
